(** * Travel-journal application: notes, media and the moderation workflow

    A shallow embedding of [app/db/schema.ts], [app/services/notes.server.ts],
    [app/services/auth.server.ts] and of the loaders and actions of the routes
    that call them, followed by the properties of the note lifecycle.

    The PostgreSQL database is an explicit state: every table is the list of
    its rows in storage order, and a query without ORDER BY returns rows in
    that order.  Statements run one at a time against that state; the
    services open no transaction, so whatever a statement wrote is still
    there when a later statement throws.

    A string is the sequence of the bytes of its UTF-8 encoding: what the
    driver sends to the database and what the database stores. *)

From Stdlib Require Import ZArith NArith List String Ascii Bool Lia.
From Stdlib Require Import Permutation Sorted.
Import ListNotations.
Open Scope string_scope.
Open Scope Z_scope.

(** ** Schema ([app/db/schema.ts]) *)

(** A value of a [uuid] column, as its 128-bit number.  Route parameters and
    form fields that are not well-formed UUIDs are outside the model. *)
Definition uuid := N.
Bind Scope N_scope with uuid.

(** [timestamp with time zone], in milliseconds since the epoch. *)
Definition timestamp := Z.

(** [userRoleEnum] *)
Inductive UserRole := auditor | admin | user.

(** [noteStatusEnum] *)
Inductive NoteStatus := pending | approved | rejected.

(** [mediaTypeEnum] *)
Inductive MediaType := image | video.

Definition UserRole_eqb (a b : UserRole) : bool :=
  match a, b with
  | auditor, auditor | admin, admin | user, user => true
  | _, _ => false
  end.

Definition NoteStatus_eqb (a b : NoteStatus) : bool :=
  match a, b with
  | pending, pending | approved, approved | rejected, rejected => true
  | _, _ => false
  end.

(** Table [users]. *)
Record User := mkUser {
  user_id : uuid;
  user_username : string;
  user_passwordHash : string;
  user_nickname : string;
  user_avatarUrl : option string;
  user_role : UserRole;
  user_createdAt : timestamp;
  user_updatedAt : timestamp
}.

(** Table [travel_notes]. *)
Record TravelNote := mkTravelNote {
  note_id : uuid;
  note_userId : uuid;
  note_title : string;
  note_content : string;
  note_location : option string;
  note_status : NoteStatus;
  note_rejectionReason : option string;
  note_isDeleted : bool;
  note_createdAt : timestamp;
  note_updatedAt : timestamp
}.

(** Table [note_media]; [media_id] is a [serial]. *)
Record NoteMedia := mkNoteMedia {
  media_id : Z;
  media_noteId : uuid;
  media_mediaType : MediaType;
  media_url : string;
  media_order : Z;
  media_createdAt : timestamp
}.

(** The database: the three tables and the sequence behind [note_media.id]. *)
Record Database := mkDatabase {
  users : list User;
  travelNotes : list TravelNote;
  noteMedia : list NoteMedia;
  noteMedia_id_seq : Z
}.

(** ** Statements that can throw *)

Inductive PgError :=
| unique_violation
| foreign_key_violation
| string_data_right_truncation
| character_not_in_repertoire
| numeric_value_out_of_range
| invalid_row_count_in_result_offset_clause.

Inductive Exn :=
| DatabaseError (code : PgError)
| JsError (message : string).

Inductive Outcome (A : Type) :=
| Returned (a : A)
| Thrown (e : Exn).
Arguments Returned {A} a.
Arguments Thrown {A} e.

(** An [async] function over the database: it returns or throws, and leaves
    the database as its statements left it. *)
Definition Db (A : Type) := Database -> Outcome A * Database.

Definition ret {A} (a : A) : Db A := fun db => (Returned a, db).

Definition throw {A} (e : Exn) : Db A := fun db => (Thrown e, db).

Definition bind {A B} (m : Db A) (k : A -> Db B) : Db B :=
  fun db =>
    match m db with
    | (Returned a, db') => k a db'
    | (Thrown e, db') => (Thrown e, db')
    end.

(** [try { body } catch (error) { handler }] *)
Definition tryCatch {A} (body : Db A) (handler : Exn -> Db A) : Db A :=
  fun db =>
    match body db with
    | (Returned a, db') => (Returned a, db')
    | (Thrown e, db') => handler e db'
    end.

(** A read-only query. *)
Definition query {A} (q : Database -> A) : Db A := fun db => (Returned (q db), db).

Declare Scope db_scope.
Delimit Scope db_scope with db.
Notation "x <- m ;; k" := (bind m (fun x => k))
  (at level 61, m at next level, right associativity) : db_scope.
Notation "m ;;; k" := (bind m (fun _ => k))
  (at level 61, right associativity) : db_scope.

(** ** Ordering *)

(** Stable insertion sort: among rows that compare equal the storage order
    is kept. *)
Fixpoint insertBy {A} (le : A -> A -> bool) (x : A) (l : list A) : list A :=
  match l with
  | [] => [x]
  | y :: l' => if le x y then x :: y :: l' else y :: insertBy le x l'
  end.

Fixpoint sortBy {A} (le : A -> A -> bool) (l : list A) : list A :=
  match l with
  | [] => []
  | x :: l' => insertBy le x (sortBy le l')
  end.

(** [asc(column)] and [desc(column)] for an integer-valued column. *)
Definition asc {A} (column : A -> Z) (a b : A) : bool := column a <=? column b.
Definition desc {A} (column : A -> Z) (a b : A) : bool := column b <=? column a.

(** What the two orders mean for a pair of rows, the first before the
    second. *)
Definition ascending {A} (column : A -> Z) (a b : A) : Prop := column a <= column b.
Definition descending {A} (column : A -> Z) (a b : A) : Prop := column b <= column a.

(** [.limit(limit).offset(offset)] for an offset that is not negative.
    drizzle writes the LIMIT clause only for a limit that is not negative:
    with a negative limit the query returns every row after the offset. *)
Definition limitOffset {A} (limit offset : Z) (rows : list A) : list A :=
  let rest := skipn (Z.to_nat offset) rows in
  if limit <? 0 then rest else firstn (Z.to_nat limit) rest.

(** ** Text *)

(** A continuation byte of UTF-8, [10xxxxxx].  A character is a byte that
    is none, with the continuation bytes that follow it. *)
Definition continuation (c : ascii) : bool :=
  let n := N_of_ascii c in
  N.leb 128 n && N.leb n 191.

(** The number of characters of a string. *)
Fixpoint charLength (s : string) : nat :=
  match s with
  | EmptyString => O
  | String c s' => if continuation c then charLength s' else S (charLength s')
  end.

(** The string from its first byte that starts a character. *)
Fixpoint skipContinuation (s : string) : string :=
  match s with
  | EmptyString => EmptyString
  | String c s' => if continuation c then skipContinuation s' else s
  end.

(** The first [n] characters of a string, and what follows them. *)
Fixpoint takeChars (n : nat) (s : string) : string :=
  match s with
  | EmptyString => EmptyString
  | String c s' =>
      if continuation c then String c (takeChars n s')
      else
        match n with
        | O => EmptyString
        | S n' => String c (takeChars n' s')
        end
  end.

Fixpoint skipChars (n : nat) (s : string) : string :=
  match s with
  | EmptyString => EmptyString
  | String c s' =>
      if continuation c then skipChars n s'
      else
        match n with
        | O => s
        | S n' => skipChars n' s'
        end
  end.

Fixpoint onlySpaces (s : string) : bool :=
  match s with
  | EmptyString => true
  | String c s' => Ascii.eqb c " " && onlySpaces s'
  end.

(** The string holds the character U+0000. *)
Fixpoint hasNul (s : string) : bool :=
  match s with
  | EmptyString => false
  | String c s' => N.eqb (N_of_ascii c) 0 || hasNul s'
  end.

(** The text parameters of a statement that stores them.  The database
    refuses a text that holds U+0000 when it reads the parameters, before it
    looks at any row. *)
Definition storable (params : list string) : bool :=
  forallb (fun s => negb (hasNul s)) params.

(** An optional text parameter: [null] sends no text. *)
Definition optionalText (o : option string) : list string :=
  match o with
  | Some s => [s]
  | None => []
  end.

(** What a [varchar(255)] column stores for a value assigned to it: the
    value itself when it has at most 255 characters, its first 255
    characters when all the others are spaces, and nothing otherwise: the
    statement then fails. *)
Definition varchar255 (s : string) : option string :=
  if (charLength s <=? 255)%nat then Some s
  else if onlySpaces (skipChars 255 s) then Some (takeChars 255 s)
  else None.

(** ** LIKE *)

(** [s LIKE p] with the default escape character: [%] matches any run of
    characters, [_] exactly one character, a backslash makes the next
    pattern character literal.  A pattern that ends in a lone backslash
    matches nothing (the patterns built below always end in [%]).  The
    pattern is read byte by byte; [_] takes a byte of the string and the
    continuation bytes after it, so that on UTF-8 text every match begins
    and ends between two characters. *)
Fixpoint like (p : string) : string -> bool :=
  match p with
  | EmptyString => fun s => match s with EmptyString => true | _ => false end
  | String c p' =>
      if Ascii.eqb c "%" then
        fix any (s : string) : bool :=
          like p' s || match s with EmptyString => false | String _ s' => any s' end
      else if Ascii.eqb c "_" then
        fun s =>
          match s with
          | EmptyString => false
          | String _ s' => like p' (skipContinuation s')
          end
      else if Ascii.eqb c "\" then
        match p' with
        | EmptyString => fun _ => false
        | String d p'' =>
            fun s =>
              match s with
              | EmptyString => false
              | String e s' => Ascii.eqb d e && like p'' s'
              end
        end
      else
        fun s =>
          match s with
          | EmptyString => false
          | String e s' => Ascii.eqb c e && like p' s'
          end
  end.

(** ** Constraints and statements on the tables *)

(** The range of an [integer] column. *)
Definition int4 (z : Z) : bool := (-2147483648 <=? z) && (z <=? 2147483647).

Definition hasUser (id : uuid) (db : Database) : bool :=
  existsb (fun u => N.eqb (user_id u) id) (users db).

Definition hasNote (id : uuid) (db : Database) : bool :=
  existsb (fun n => N.eqb (note_id n) id) (travelNotes db).

(** The values an [insert(travelNotes)] of the services supplies; the other
    columns take their defaults. *)
Record TravelNoteValues := mkTravelNoteValues {
  v_userId : uuid;
  v_title : string;
  v_content : string;
  v_location : option string;
  v_status : NoteStatus
}.

(** The row an insert stores: the supplied values and the defaults of the
    other columns. *)
Definition newTravelNote (now : timestamp) (id : uuid) (v : TravelNoteValues)
  : TravelNote :=
  {| note_id := id;
     note_userId := v_userId v;
     note_title := v_title v;
     note_content := v_content v;
     note_location := v_location v;
     note_status := v_status v;
     note_rejectionReason := None;
     note_isDeleted := false;
     note_createdAt := now;
     note_updatedAt := now |}.

(** The values with the title the column stores. *)
Definition withTitle (title : string) (v : TravelNoteValues) : TravelNoteValues :=
  {| v_userId := v_userId v;
     v_title := title;
     v_content := v_content v;
     v_location := v_location v;
     v_status := v_status v |}.

(** [db.insert(travelNotes).values(v).returning()].  [id] is the value
    [gen_random_uuid()] draws and [now] the time of the statement.  The
    texts are read, the title is fitted to its column, and the primary key
    and the foreign key to [users] are checked. *)
Definition insertTravelNotes (now : timestamp) (id : uuid) (v : TravelNoteValues)
  : Db (list TravelNote) :=
  fun db =>
    if negb (storable (v_title v :: v_content v :: optionalText (v_location v))) then
      (Thrown (DatabaseError character_not_in_repertoire), db)
    else
      match varchar255 (v_title v) with
      | None => (Thrown (DatabaseError string_data_right_truncation), db)
      | Some title =>
          if hasNote id db then (Thrown (DatabaseError unique_violation), db)
          else if negb (hasUser (v_userId v) db) then
            (Thrown (DatabaseError foreign_key_violation), db)
          else
            (Returned [newTravelNote now id (withTitle title v)],
             {| users := users db;
                travelNotes := travelNotes db ++ [newTravelNote now id (withTitle title v)];
                noteMedia := noteMedia db;
                noteMedia_id_seq := noteMedia_id_seq db |})
      end.

(** One element of the array given to [insert(noteMedia).values]. *)
Record NoteMediaValues := mkNoteMediaValues {
  mv_noteId : uuid;
  mv_mediaType : MediaType;
  mv_url : string;
  mv_order : Z
}.

Fixpoint numberFrom {A B} (f : A -> Z -> B) (i : Z) (l : list A) : list B :=
  match l with
  | [] => []
  | x :: l' => f x i :: numberFrom f (i + 1) l'
  end.

(** [array.map((m, index) => ...)] *)
Definition mapIndex {A B} (f : A -> Z -> B) (l : list A) : list B :=
  numberFrom f 0 l.

(** The rows an insert stores: ids are drawn from the sequence one after
    the other. *)
Definition newNoteMedia (now : timestamp) (lastId : Z) (rows : list NoteMediaValues)
  : list NoteMedia :=
  numberFrom
    (fun r id =>
       {| media_id := id;
          media_noteId := mv_noteId r;
          media_mediaType := mv_mediaType r;
          media_url := mv_url r;
          media_order := mv_order r;
          media_createdAt := now |})
    (lastId + 1) rows.

(** [db.insert(noteMedia).values(rows)]: one statement, so either every row
    is stored or none.  The URLs are read, and the range of [order] and the
    foreign key to [travel_notes] are checked.  (The value of the sequence
    after a failed insert is not modelled.) *)
Definition insertNoteMedia (now : timestamp) (rows : list NoteMediaValues) : Db unit :=
  fun db =>
    if negb (storable (map mv_url rows)) then
      (Thrown (DatabaseError character_not_in_repertoire), db)
    else if negb (forallb (fun r => int4 (mv_order r)) rows) then
      (Thrown (DatabaseError numeric_value_out_of_range), db)
    else if negb (forallb (fun r => hasNote (mv_noteId r) db) rows) then
      (Thrown (DatabaseError foreign_key_violation), db)
    else
      (Returned tt,
       {| users := users db;
          travelNotes := travelNotes db;
          noteMedia := noteMedia db ++ newNoteMedia now (noteMedia_id_seq db) rows;
          noteMedia_id_seq := noteMedia_id_seq db + Z.of_nat (List.length rows) |}).

(** [db.delete(noteMedia).where(cond)] *)
Definition deleteNoteMedia (cond : NoteMedia -> bool) : Db unit :=
  fun db =>
    (Returned tt,
     {| users := users db;
        travelNotes := travelNotes db;
        noteMedia := filter (fun m => negb (cond m)) (noteMedia db);
        noteMedia_id_seq := noteMedia_id_seq db |}).

(** [$onUpdate(() => new Date())] on [updatedAt]: every update stamps it. *)
Definition onUpdate (now : timestamp) (n : TravelNote) : TravelNote :=
  {| note_id := note_id n;
     note_userId := note_userId n;
     note_title := note_title n;
     note_content := note_content n;
     note_location := note_location n;
     note_status := note_status n;
     note_rejectionReason := note_rejectionReason n;
     note_isDeleted := note_isDeleted n;
     note_createdAt := note_createdAt n;
     note_updatedAt := now |}.

Definition updateRows (now : timestamp) (set : TravelNote -> TravelNote)
  (cond : TravelNote -> bool) (rows : list TravelNote) : list TravelNote :=
  map (fun n => if cond n then onUpdate now (set n) else n) rows.

(** The row with the title the column stores. *)
Definition titled (title : string) (n : TravelNote) : TravelNote :=
  {| note_id := note_id n;
     note_userId := note_userId n;
     note_title := title;
     note_content := note_content n;
     note_location := note_location n;
     note_status := note_status n;
     note_rejectionReason := note_rejectionReason n;
     note_isDeleted := note_isDeleted n;
     note_createdAt := note_createdAt n;
     note_updatedAt := note_updatedAt n |}.

(** What a [set] stores: [title] is the title it assigns, if it assigns
    one, fitted to the column; [None] when the column refuses it. *)
Definition fitted (title : option string) (set : TravelNote -> TravelNote)
  : option (TravelNote -> TravelNote) :=
  match title with
  | None => Some set
  | Some t => option_map (fun stored n => titled stored (set n)) (varchar255 t)
  end.

(** [db.update(travelNotes).set(...).where(cond).returning()]: the rows that
    match are rewritten in place and returned.  [texts] are the texts the
    statement sends and [title] the title it assigns, if it assigns one:
    the title is fitted to its column when a row matches. *)
Definition updateTravelNotes (now : timestamp) (texts : list string)
  (title : option string) (set : TravelNote -> TravelNote) (cond : TravelNote -> bool)
  : Db (list TravelNote) :=
  fun db =>
    if negb (storable texts) then
      (Thrown (DatabaseError character_not_in_repertoire), db)
    else
      match fitted title set with
      | None =>
          if existsb cond (travelNotes db) then
            (Thrown (DatabaseError string_data_right_truncation), db)
          else (Returned [], db)
      | Some stored =>
          (Returned (map (fun n => onUpdate now (stored n)) (filter cond (travelNotes db))),
           {| users := users db;
              travelNotes := updateRows now stored cond (travelNotes db);
              noteMedia := noteMedia db;
              noteMedia_id_seq := noteMedia_id_seq db |})
      end.

(** ** Relational queries *)

(** [user: { columns: { id, nickname, avatarUrl } }] *)
Record NoteAuthor := mkNoteAuthor {
  author_id : uuid;
  author_nickname : string;
  author_avatarUrl : option string
}.

(** A note [with: { media, user }]. *)
Record NoteWithRelations := mkNoteWithRelations {
  nwr_note : TravelNote;
  nwr_media : list NoteMedia;
  nwr_user : option NoteAuthor
}.

Definition authorColumns (u : User) : NoteAuthor :=
  {| author_id := user_id u;
     author_nickname := user_nickname u;
     author_avatarUrl := user_avatarUrl u |}.

Definition findUser (id : uuid) (db : Database) : option User :=
  find (fun u => N.eqb (user_id u) id) (users db).

(** [media: true]: the media rows of the note, in storage order. *)
Definition mediaOf (id : uuid) (db : Database) : list NoteMedia :=
  filter (fun m => N.eqb (media_noteId m) id) (noteMedia db).

Definition withRelations (db : Database) (n : TravelNote) : NoteWithRelations :=
  {| nwr_note := n;
     nwr_media := mediaOf (note_id n) db;
     nwr_user := option_map authorColumns (findUser (note_userId n) db) |}.

(** ** The note service ([app/services/notes.server.ts]) *)

Local Open Scope db_scope.

(** [getUserNotes]: all notes of a user, newest first. *)
Definition getUserNotes (userId : uuid) : Db (list NoteWithRelations) :=
  tryCatch
    (query (fun db =>
       map (withRelations db)
         (sortBy (desc note_createdAt)
            (filter (fun n => N.eqb (note_userId n) userId) (travelNotes db)))))
    (fun _ => ret []).

(** [getNoteById]: [undefined] and [null] are both [None]. *)
Definition getNoteById (id : uuid) : Db (option NoteWithRelations) :=
  tryCatch
    (query (fun db =>
       option_map (withRelations db)
         (find (fun n => N.eqb (note_id n) id) (travelNotes db))))
    (fun _ => ret None).

(** An element of the [media] argument of [createNote] and [updateNote]
    (the optional [id] that [updateNote] accepts is never read). *)
Record MediaInput := mkMediaInput {
  mi_type : MediaType;
  mi_url : string;
  mi_order : option Z
}.

Record CreateNoteArgs := mkCreateNoteArgs {
  cn_userId : uuid;
  cn_title : string;
  cn_content : string;
  cn_location : option string;
  cn_media : list MediaInput
}.

(** [media.map((m, index) => ({ noteId, mediaType: m.type, url: m.url,
    order: m.order ?? index }))] *)
Definition mediaRows (noteId : uuid) (media : list MediaInput) : list NoteMediaValues :=
  mapIndex
    (fun m index =>
       {| mv_noteId := noteId;
          mv_mediaType := mi_type m;
          mv_url := mi_url m;
          mv_order := match mi_order m with Some o => o | None => index end |})
    media.

(** [if (media.length > 0) await db.insert(noteMedia).values(mediaRows)] *)
Definition insertMediaList (now : timestamp) (noteId : uuid) (media : list MediaInput)
  : Db unit :=
  match media with
  | [] => ret tt
  | _ :: _ => insertNoteMedia now (mediaRows noteId media)
  end.

(** [createNote]; [newId] is the id the database draws for the note. *)
Definition createNote (now : timestamp) (newId : uuid) (args : CreateNoteArgs)
  : Db (option NoteWithRelations) :=
  tryCatch
    (inserted <- insertTravelNotes now newId
                   {| v_userId := cn_userId args;
                      v_title := cn_title args;
                      v_content := cn_content args;
                      v_location :=
                        Some (match cn_location args with Some l => l | None => "" end);
                      v_status := pending |} ;;
     match inserted with
     | [] => throw (JsError "Failed to create note")
     | note :: _ =>
         insertMediaList now (note_id note) (cn_media args) ;;;
         getNoteById (note_id note)
     end)
    (fun _ => ret None).

Inductive NoteError := NOTE_NOT_FOUND | UPDATE_FAILED | DELETE_FAILED.

Inductive UpdateNoteResult :=
| UpdateError (error : NoteError)
| UpdateNote (note : option NoteWithRelations).

Record UpdateNoteArgs := mkUpdateNoteArgs {
  un_id : uuid;
  un_userId : uuid;
  un_title : string;
  un_content : string;
  un_location : option string;
  un_media : list MediaInput
}.

(** [findFirst({ where: and(eq(id, id), eq(userId, userId)) })] *)
Definition findOwnedNote (id userId : uuid) (db : Database) : option TravelNote :=
  find (fun n => N.eqb (note_id n) id && N.eqb (note_userId n) userId) (travelNotes db).

(** [location || existingNote.location] *)
Definition locationOr (location : option string) (existing : option string)
  : option string :=
  match location with
  | None => existing
  | Some "" => existing
  | Some l => Some l
  end.

(** The [set] of [updateNote]. *)
Definition editedNote (args : UpdateNoteArgs) (existingNote : TravelNote)
  (now : timestamp) (n : TravelNote) : TravelNote :=
  {| note_id := note_id n;
     note_userId := note_userId n;
     note_title := un_title args;
     note_content := un_content args;
     note_location := locationOr (un_location args) (note_location existingNote);
     note_status := pending;
     note_rejectionReason := note_rejectionReason n;
     note_isDeleted := note_isDeleted n;
     note_createdAt := note_createdAt n;
     note_updatedAt := now |}.

Definition updateNote (now : timestamp) (args : UpdateNoteArgs) : Db UpdateNoteResult :=
  tryCatch
    (existingNote <- query (findOwnedNote (un_id args) (un_userId args)) ;;
     match existingNote with
     | None => ret (UpdateError NOTE_NOT_FOUND)
     | Some existingNote =>
         updated <- updateTravelNotes now
                      (un_title args :: un_content args
                       :: optionalText
                            (locationOr (un_location args) (note_location existingNote)))
                      (Some (un_title args))
                      (editedNote args existingNote now)
                      (fun n => N.eqb (note_id n) (un_id args)) ;;
         match updated with
         | [] => ret (UpdateError UPDATE_FAILED)
         | _ :: _ =>
             deleteNoteMedia (fun m => N.eqb (media_noteId m) (un_id args)) ;;;
             insertMediaList now (un_id args) (un_media args) ;;;
             note <- getNoteById (un_id args) ;;
             ret (UpdateNote note)
         end
     end)
    (fun _ => ret (UpdateError UPDATE_FAILED)).

Inductive DeleteNoteResult :=
| DeleteError (error : NoteError)
| DeleteSuccess.

Definition markDeleted (n : TravelNote) : TravelNote :=
  {| note_id := note_id n;
     note_userId := note_userId n;
     note_title := note_title n;
     note_content := note_content n;
     note_location := note_location n;
     note_status := note_status n;
     note_rejectionReason := note_rejectionReason n;
     note_isDeleted := true;
     note_createdAt := note_createdAt n;
     note_updatedAt := note_updatedAt n |}.

(** [deleteNote]: the owner's logical delete. *)
Definition deleteNote (now : timestamp) (id userId : uuid) : Db DeleteNoteResult :=
  tryCatch
    (existingNote <- query (findOwnedNote id userId) ;;
     match existingNote with
     | None => ret (DeleteError NOTE_NOT_FOUND)
     | Some _ =>
         updateTravelNotes now [] None markDeleted (fun n => N.eqb (note_id n) id) ;;;
         ret DeleteSuccess
     end)
    (fun _ => ret (DeleteError DELETE_FAILED)).

Definition default {A} (d : A) (o : option A) : A :=
  match o with Some a => a | None => d end.

(** A query with [limit] and [offset].  drizzle writes the OFFSET clause
    for every offset but 0, and the database refuses a negative one; a
    negative limit is never sent. *)
Definition paged {A} (limit offset : Z) (rows : Database -> list A) : Db (list A) :=
  if offset <? 0 then throw (DatabaseError invalid_row_count_in_result_offset_clause)
  else query (fun db => limitOffset limit offset (rows db)).

(** [getPublishedNotes({ limit = 10, offset = 0 })] *)
Definition getPublishedNotes (limit offset : option Z) : Db (list NoteWithRelations) :=
  tryCatch
    (paged (default 10 limit) (default 0 offset)
       (fun db =>
          map (withRelations db)
            (sortBy (desc note_createdAt)
               (filter
                  (fun n => NoteStatus_eqb (note_status n) approved
                            && Bool.eqb (note_isDeleted n) false)
                  (travelNotes db)))))
    (fun _ => ret []).

(** [author] of a review row: the columns of the joined [users] row. *)
Record ReviewAuthor := mkReviewAuthor {
  ra_id : uuid;
  ra_username : string;
  ra_nickname : string;
  ra_avatarUrl : option string
}.

(** [TravelNoteWithAuthor]; [rv_author] is [None] when the left join finds
    no user. *)
Record TravelNoteWithAuthor := mkTravelNoteWithAuthor {
  rv_id : uuid;
  rv_title : string;
  rv_content : string;
  rv_status : NoteStatus;
  rv_rejectionReason : option string;
  rv_createdAt : timestamp;
  rv_updatedAt : timestamp;
  rv_isDeleted : bool;
  rv_author : option ReviewAuthor;
  rv_mediaCount : Z
}.

Record Pagination := mkPagination {
  pg_page : Z;
  pg_limit : Z;
  pg_total : Z;
  pg_totalPages : option Z
}.

Record ReviewPage := mkReviewPage {
  rp_notes : list TravelNoteWithAuthor;
  rp_pagination : Pagination
}.

Record ReviewArgs := mkReviewArgs {
  ra_status : option NoteStatus;
  ra_page : option Z;
  ra_limit : option Z;
  ra_search : option string
}.

(** [if (search)]: a non-empty string. *)
Definition truthy (s : option string) : option string :=
  match s with
  | Some "" => None
  | other => other
  end.

(** The [whereConditions] of [getNotesForReview], on a note joined with its
    user.  A comparison with the NULL nickname of a missing user is not
    true. *)
Definition whereConditions (args : ReviewArgs) (db : Database) (n : TravelNote) : bool :=
  Bool.eqb (note_isDeleted n) false
  && match ra_status args with
     | Some status => NoteStatus_eqb (note_status n) status
     | None => true
     end
  && match truthy (ra_search args) with
     | Some search =>
         let pattern := "%" ++ search ++ "%" in
         like pattern (note_title n)
         || match findUser (note_userId n) db with
            | Some u => like pattern (user_nickname u)
            | None => false
            end
     | None => true
     end.

(** The selected columns of one group: the note, its author and
    [COUNT(note_media.id)]. *)
Definition selectReviewRow (db : Database) (n : TravelNote) : TravelNoteWithAuthor :=
  {| rv_id := note_id n;
     rv_title := note_title n;
     rv_content := note_content n;
     rv_status := note_status n;
     rv_rejectionReason := note_rejectionReason n;
     rv_createdAt := note_createdAt n;
     rv_updatedAt := note_updatedAt n;
     rv_isDeleted := note_isDeleted n;
     rv_author :=
       option_map
         (fun u =>
            {| ra_id := user_id u;
               ra_username := user_username u;
               ra_nickname := user_nickname u;
               ra_avatarUrl := user_avatarUrl u |})
         (findUser (note_userId n) db);
     rv_mediaCount := Z.of_nat (List.length (mediaOf (note_id n) db)) |}.

(** [Math.ceil(count / limit)]; not a finite number when [limit] is 0. *)
Definition totalPages (count limit : Z) : option Z :=
  if limit =? 0 then None else Some (- ((- count) / limit)).

(** [getNotesForReview]: no [try]; an error of the database propagates. *)
Definition getNotesForReview (args : ReviewArgs) : Db ReviewPage :=
  let page := default 1 (ra_page args) in
  let limit := default 10 (ra_limit args) in
  let offset := (page - 1) * limit in
  notesWithAuthors <-
    paged limit offset
      (fun db =>
         map (selectReviewRow db)
           (sortBy (desc note_createdAt)
              (filter (whereConditions args db) (travelNotes db)))) ;;
  count <- query (fun db =>
             Z.of_nat (List.length (filter (whereConditions args db) (travelNotes db)))) ;;
  ret {| rp_notes := notesWithAuthors;
         rp_pagination :=
           {| pg_page := page;
              pg_limit := limit;
              pg_total := count;
              pg_totalPages := totalPages count limit |} |}.

Inductive Success := success_true.

(** The [set] of [updateNoteStatus].  A key whose value is [undefined] is
    left out of the UPDATE, so rejecting without a reason keeps the column
    as it was. *)
Definition reviewedNote (status : NoteStatus) (rejectionReason : option string)
  (now : timestamp) (n : TravelNote) : TravelNote :=
  {| note_id := note_id n;
     note_userId := note_userId n;
     note_title := note_title n;
     note_content := note_content n;
     note_location := note_location n;
     note_status := status;
     note_rejectionReason :=
       match status with
       | rejected =>
           match rejectionReason with
           | Some reason => Some reason
           | None => note_rejectionReason n
           end
       | _ => None
       end;
     note_isDeleted := note_isDeleted n;
     note_createdAt := note_createdAt n;
     note_updatedAt := now |}.

(** [status === "rejected" ? rejectionReason : null] *)
Definition reasonSent (status : NoteStatus) (rejectionReason : option string)
  : option string :=
  match status with
  | rejected => rejectionReason
  | _ => None
  end.

Definition updateNoteStatus (now : timestamp) (noteId : uuid) (status : NoteStatus)
  (rejectionReason : option string) : Db Success :=
  updateTravelNotes now (optionalText (reasonSent status rejectionReason)) None
    (reviewedNote status rejectionReason now)
    (fun n => N.eqb (note_id n) noteId) ;;;
  ret success_true.

(** [adminDeleteNote]: the administrative logical delete. *)
Definition adminDeleteNote (now : timestamp) (noteId : uuid) : Db Success :=
  updateTravelNotes now [] None markDeleted (fun n => N.eqb (note_id n) noteId) ;;;
  ret success_true.

(** A note [with: { user: true, media: { orderBy: asc(noteMedia.order) } }]. *)
Record NoteDetails := mkNoteDetails {
  nd_note : TravelNote;
  nd_user : option User;
  nd_media : list NoteMedia
}.

Definition getNoteDetails (noteId : uuid) : Db NoteDetails :=
  note <- query (fun db => find (fun n => N.eqb (note_id n) noteId) (travelNotes db)) ;;
  match note with
  | None => throw (JsError "游记不存在")
  | Some n =>
      query (fun db =>
        {| nd_note := n;
           nd_user := findUser (note_userId n) db;
           nd_media := sortBy (asc media_order) (mediaOf (note_id n) db) |})
  end.

(** ** Sessions ([app/services/auth.server.ts]) *)

(** The logged-in user, without [passwordHash]. *)
Record SessionUser := mkSessionUser {
  su_id : uuid;
  su_username : string;
  su_nickname : string;
  su_avatarUrl : option string;
  su_role : UserRole;
  su_createdAt : timestamp;
  su_updatedAt : timestamp
}.

Definition withoutPassword (u : User) : SessionUser :=
  {| su_id := user_id u;
     su_username := user_username u;
     su_nickname := user_nickname u;
     su_avatarUrl := user_avatarUrl u;
     su_role := user_role u;
     su_createdAt := user_createdAt u;
     su_updatedAt := user_updatedAt u |}.

(** [getLoggedInUser]; [session] is the [userId] of the session cookie. *)
Definition getLoggedInUser (session : option uuid) : Db (option SessionUser) :=
  match session with
  | None => ret None
  | Some userId => query (fun db => option_map withoutPassword (findUser userId db))
  end.

(** ** Routes *)

(** What a loader or an action gives back: the data of [json(data)], a
    [json({ error }, { status })], a thrown [Response], or a redirect. *)
Inductive RouteResult (A : Type) :=
| Json (data : A)
| JsonError (error : string) (status : Z)
| ThrownResponse (body : string) (status : Z)
| Redirect (to : string).
Arguments Json {A} data.
Arguments JsonError {A} error status.
Arguments ThrownResponse {A} body status.
Arguments Redirect {A} to.

(** [field === value] for a form field, which is absent or a string. *)
Definition fieldIs (value : string) (field : option string) : bool :=
  match field with
  | Some s => String.eqb s value
  | None => false
  end.

(** [requireLoggedInUser(request)] with the default [redirectTo]. *)
Definition requireLoggedInUser {A} (session : option uuid)
  (k : SessionUser -> Db (RouteResult A)) : Db (RouteResult A) :=
  user <- getLoggedInUser session ;;
  match user with
  | None => ret (Redirect "/login?redirectTo=%2Flogin")
  | Some u => k u
  end.

(** [app/routes/_user.note.$id.tsx] *)
Module NoteDetail.

Record LoaderData := mkLoaderData {
  note : NoteWithRelations;
  isAuthor : bool
}.

(** [note.status !== "approved" &&
     (!user || (user.id !== note.userId && user.role !== "admin"))] *)
Definition hidden (user : option SessionUser) (n : TravelNote) : bool :=
  negb (NoteStatus_eqb (note_status n) approved)
  && match user with
     | None => true
     | Some u =>
         negb (N.eqb (su_id u) (note_userId n))
         && negb (UserRole_eqb (su_role u) admin)
     end.

Definition loader (id : option uuid) (session : option uuid)
  : Db (RouteResult LoaderData) :=
  match id with
  | None => ret (ThrownResponse "游记ID未提供" 400)
  | Some id =>
      user <- getLoggedInUser session ;;
      found <- getNoteById id ;;
      match found with
      | None => ret (ThrownResponse "游记未找到" 404)
      | Some n =>
          if hidden user (nwr_note n) then
            ret (ThrownResponse "该游记尚未审核通过，无法查看" 403)
          else
            ret (Json
                   {| note := n;
                      isAuthor :=
                        match user with
                        | Some u => N.eqb (su_id u) (note_userId (nwr_note n))
                        | None => false
                        end |})
      end
  end.

End NoteDetail.

(** The review list of the administration (the route that imports
    [requireAdminUser], [updateNoteStatus] and [adminDeleteNote]). *)
Module AdminIndex.

(** The user [requireAdminUser(request)] returns.  That function lives in
    [services/admin.server.ts]; the action reads only the role. *)
Record AdminUser := mkAdminUser {
  role : string
}.

(** The fields of the submitted form.  [noteId] is [None] when the field
    is absent or empty. *)
Record FormData := mkFormData {
  _action : option string;
  noteId : option uuid;
  rejectionReason : option string
}.

Definition action (now : timestamp) (user : AdminUser) (formData : FormData)
  : Db (RouteResult Success) :=
  match noteId formData with
  | None => ret (JsonError "游记ID不能为空" 400)
  | Some noteId =>
      if fieldIs "approve" (_action formData) then
        updateNoteStatus now noteId approved None ;;;
        ret (Json success_true)
      else if fieldIs "reject" (_action formData) then
        match truthy (rejectionReason formData) with
        | None => ret (JsonError "拒绝原因不能为空" 400)
        | Some reason =>
            updateNoteStatus now noteId rejected (Some reason) ;;;
            ret (Json success_true)
        end
      else if fieldIs "delete" (_action formData) then
        if negb (String.eqb (role user) "admin") then
          ret (JsonError "没有权限执行此操作" 403)
        else
          adminDeleteNote now noteId ;;;
          ret (Json success_true)
      else ret (JsonError "未知操作" 400)
  end.

End AdminIndex.

(** The page of the user's own notes (the route that imports
    [getUserNotes] and [deleteNote]). *)
Module MyNotes.

Definition loader (session : option uuid) : Db (RouteResult (list NoteWithRelations)) :=
  requireLoggedInUser session (fun user =>
    notes <- getUserNotes (su_id user) ;;
    let activeNotes := filter (fun n => negb (note_isDeleted (nwr_note n))) notes in
    ret (Json activeNotes)).

Definition action (now : timestamp) (session : option uuid)
  (intent : option string) (noteId : option uuid) : Db (RouteResult Success) :=
  requireLoggedInUser session (fun user =>
    if fieldIs "delete" intent then
      match noteId with
      | None => ret (JsonError "游记ID必须提供" 400)
      | Some noteId =>
          result <- deleteNote now noteId (su_id user) ;;
          match result with
          | DeleteError _ => ret (JsonError "删除游记失败" 500)
          | DeleteSuccess => ret (Json success_true)
          end
      end
    else ret (JsonError "无效的操作" 400)).

End MyNotes.

(** The home page (the route that imports [getPublishedNotes] and queries
    the popular destinations). *)
Module Index.

Record Destination := mkDestination {
  location : option string;
  count : Z
}.

Definition sameLocation (a b : option string) : bool :=
  match a, b with
  | None, None => true
  | Some x, Some y => String.eqb x y
  | _, _ => false
  end.

(** One more row for the group of [l]; a new group goes last. *)
Fixpoint addToGroup (l : option string) (groups : list Destination) : list Destination :=
  match groups with
  | [] => [{| location := l; count := 1 |}]
  | g :: groups' =>
      if sameLocation (location g) l
      then {| location := location g; count := count g + 1 |} :: groups'
      else g :: addToGroup l groups'
  end.

(** [GROUP BY location] with [count( * )]: NULL is a group of its own. *)
Definition groupByLocation (rows : list TravelNote) : list Destination :=
  fold_left (fun groups n => addToGroup (note_location n) groups) rows [].

(** [select location, count( * ) from travel_notes where status = 'approved'
    group by location order by count( * ) desc limit 6] *)
Definition popularDestinations : Db (list Destination) :=
  query (fun db =>
    firstn 6
      (sortBy (desc count)
         (groupByLocation
            (filter (fun n => NoteStatus_eqb (note_status n) approved)
               (travelNotes db))))).

Record LoaderData := mkLoaderData {
  ld_travelNotes : list NoteWithRelations;
  ld_popularDestinations : list Destination;
  ld_user : option SessionUser
}.

Definition loader (session : option uuid) : Db (RouteResult LoaderData) :=
  user <- getLoggedInUser session ;;
  publishedNotes <- getPublishedNotes (Some 20) None ;;
  destinations <- popularDestinations ;;
  ret (Json {| ld_travelNotes := publishedNotes;
               ld_popularDestinations := destinations;
               ld_user := user |}).

End Index.

(** ** A seeded database (after [app/db/seed.ts]) *)

Module Seed.

Definition user1 : User :=
  {| user_id := 1; user_username := "user1"; user_passwordHash := "$2a$10$hash";
     user_nickname := "traveller";
     user_avatarUrl := Some "https://i.pravatar.cc/150?u=user1";
     user_role := user; user_createdAt := 1000; user_updatedAt := 1000 |}.

Definition user2 : User :=
  {| user_id := 2; user_username := "user2"; user_passwordHash := "$2a$10$hash";
     user_nickname := "backpacker";
     user_avatarUrl := Some "https://i.pravatar.cc/150?u=user2";
     user_role := user; user_createdAt := 1001; user_updatedAt := 1001 |}.

Definition admin_ : User :=
  {| user_id := 3; user_username := "admin"; user_passwordHash := "$2a$10$hash";
     user_nickname := "administrator";
     user_avatarUrl := Some "https://i.pravatar.cc/150?u=admin";
     user_role := admin; user_createdAt := 1002; user_updatedAt := 1002 |}.

Definition auditor_ : User :=
  {| user_id := 4; user_username := "auditor"; user_passwordHash := "$2a$10$hash";
     user_nickname := "reviewer"; user_avatarUrl := None;
     user_role := auditor; user_createdAt := 1003; user_updatedAt := 1003 |}.

Definition note1 : TravelNote :=
  {| note_id := 101; note_userId := 1; note_title := "Lijiang old town";
     note_content := "Eight hundred years of streets along the water.";
     note_location := Some "Yunnan, Lijiang"; note_status := approved;
     note_rejectionReason := None; note_isDeleted := false;
     note_createdAt := 2000; note_updatedAt := 2000 |}.

Definition note2 : TravelNote :=
  {| note_id := 102; note_userId := 2; note_title := "Sanya beaches";
     note_content := "Five days between three bays.";
     note_location := Some "Hainan, Sanya"; note_status := pending;
     note_rejectionReason := None; note_isDeleted := false;
     note_createdAt := 2001; note_updatedAt := 2001 |}.

Definition note3 : TravelNote :=
  {| note_id := 103; note_userId := 1; note_title := "Zhangjiajie peaks";
     note_content := "Four days in the sandstone forest.";
     note_location := Some "Hunan, Zhangjiajie"; note_status := rejected;
     note_rejectionReason := Some "content does not match the pictures";
     note_isDeleted := false;
     note_createdAt := 2002; note_updatedAt := 2002 |}.

Definition picture (id : Z) (noteId : uuid) (url : string) (order : Z) : NoteMedia :=
  {| media_id := id; media_noteId := noteId; media_mediaType := image;
     media_url := url; media_order := order; media_createdAt := 2000 |}.

Definition db : Database :=
  {| users := [user1; user2; admin_; auditor_];
     travelNotes := [note1; note2; note3];
     noteMedia :=
       [picture 1 101 "lijiang-1.jpg" 0; picture 2 101 "lijiang-2.jpg" 1;
        picture 3 102 "sanya-1.jpg" 0; picture 4 102 "sanya-2.jpg" 1;
        picture 5 103 "zhangjiajie-1.jpg" 0];
     noteMedia_id_seq := 5 |}.

End Seed.

(** ** Predicates of the properties *)

(** The caller of a single-note fetch is the owner of the note or holds the
    admin role. *)
Definition ownerOrAdmin (caller : option SessionUser) (n : TravelNote) : Prop :=
  match caller with
  | Some u => su_id u = note_userId n \/ su_role u = admin
  | None => False
  end.

(** [rejectionReason] is non-null exactly when the status is rejected. *)
Definition reasonMatchesStatus (n : TravelNote) : bool :=
  Bool.eqb
    (match note_rejectionReason n with Some _ => true | None => false end)
    (NoteStatus_eqb (note_status n) rejected).

Definition reasonInvariant (db : Database) : bool :=
  forallb reasonMatchesStatus (travelNotes db).

(** Whether the two statements of [createNote] pass the checks of the
    database. *)
Definition noteInsertable (newId : uuid) (args : CreateNoteArgs) (db : Database) : bool :=
  storable [cn_title args; cn_content args; default "" (cn_location args)]
  && match varchar255 (cn_title args) with Some _ => true | None => false end
  && negb (hasNote newId db) && hasUser (cn_userId args) db.

Definition mediaInsertable (newId : uuid) (args : CreateNoteArgs) : bool :=
  storable (map mi_url (cn_media args))
  && forallb (fun r => int4 (mv_order r)) (mediaRows newId (cn_media args)).

(** Whether the update of [updateNote] and the insert of its media pass the
    checks of the database, for the note [existing] of the caller. *)
Definition noteUpdatable (args : UpdateNoteArgs) (existing : TravelNote) : bool :=
  storable
    (un_title args :: un_content args
     :: optionalText (locationOr (un_location args) (note_location existing)))
  && match varchar255 (un_title args) with Some _ => true | None => false end.

Definition mediaReplaceable (args : UpdateNoteArgs) : bool :=
  storable (map mi_url (un_media args))
  && forallb (fun r => int4 (mv_order r)) (mediaRows (un_id args) (un_media args)).

(** The number of rows with a given location, and the count a list of
    groups holds for a location (0 when it has no group). *)
Definition notesAt (l : option string) (rows : list TravelNote) : Z :=
  Z.of_nat
    (List.length (filter (fun n => Index.sameLocation (note_location n) l) rows)).

Definition groupCount (l : option string) (groups : list Index.Destination) : Z :=
  match find (fun g => Index.sameLocation (Index.location g) l) groups with
  | Some g => Index.count g
  | None => 0
  end.

(** The inputs of the examples below. *)
Module Examples.

Definition a : MediaInput := {| mi_type := image; mi_url := "a.jpg"; mi_order := Some 2 |}.
Definition b : MediaInput := {| mi_type := image; mi_url := "b.jpg"; mi_order := Some 0 |}.
Definition c : MediaInput := {| mi_type := video; mi_url := "c.mp4"; mi_order := Some 1 |}.

(** [createNote] with the media list [a(order=2), b(order=0), c(order=1)]. *)
Definition unordered : CreateNoteArgs :=
  {| cn_userId := 1; cn_title := "Lijiang"; cn_content := "...";
     cn_location := Some "Yunnan, Lijiang"; cn_media := [a; b; c] |}.


(** The owner of the rejected note 103 edits it and clears the location
    field of the form. *)
Definition resubmit : UpdateNoteArgs :=
  {| un_id := 103; un_userId := 1; un_title := "Zhangjiajie, again";
     un_content := "Now with matching pictures.";
     un_location := Some ""; un_media := [b] |}.

(** The seeded database after the admin deleted the approved note 101. *)
Definition afterAdminDelete : Database := snd (adminDeleteNote 3000 101 Seed.db).

(** The seeded database after user1 deleted the rejected note 103. *)
Definition afterOwnerDelete : Database := snd (deleteNote 3000 103 1 Seed.db).

(** The form the review page submits to reject a note. *)
Definition rejectForm (noteId : uuid) (reason : option string) : AdminIndex.FormData :=
  {| AdminIndex._action := Some "reject";
     AdminIndex.noteId := Some noteId;
     AdminIndex.rejectionReason := reason |}.

Definition reviewer : AdminIndex.AdminUser := {| AdminIndex.role := "auditor" |}.

(** A text that holds the character U+0000. *)
Definition withNul : string := "blurry" ++ String Ascii.zero "pictures".


(** A title of 12 characters followed by 300 spaces. *)
Definition padded : string :=
  let s10 := "          " in
  let s100 := s10 ++ s10 ++ s10 ++ s10 ++ s10 ++ s10 ++ s10 ++ s10 ++ s10 ++ s10 in
  "Sanya, again" ++ s100 ++ s100 ++ s100.

End Examples.

(** ** Blank form fields *)

(** The one-byte white space and line terminators of [String.prototype.trim]:
    TAB, LF, VT, FF, CR and the space. *)
Definition whiteSpace1 (c : ascii) : bool :=
  let n := N_of_ascii c in
  (N.leb 9 n && N.leb n 13) || N.eqb n 32.

(** The others, in the UTF-8 the forms are decoded from: U+00A0 and the
    three-byte U+1680, U+2000 to U+200A, U+2028, U+2029, U+202F, U+205F,
    U+3000 and U+FEFF. *)
Definition whiteSpace2 (c d : ascii) : bool :=
  N.eqb (N_of_ascii c) 194 && N.eqb (N_of_ascii d) 160.

Definition whiteSpace3 (c d e : ascii) : bool :=
  let c := N_of_ascii c in
  let d := N_of_ascii d in
  let e := N_of_ascii e in
  (N.eqb c 225 && N.eqb d 154 && N.eqb e 128)
  || (N.eqb c 226 && N.eqb d 128
      && ((N.leb 128 e && N.leb e 138) || N.eqb e 168 || N.eqb e 169 || N.eqb e 175))
  || (N.eqb c 226 && N.eqb d 129 && N.eqb e 159)
  || (N.eqb c 227 && N.eqb d 128 && N.eqb e 128)
  || (N.eqb c 239 && N.eqb d 187 && N.eqb e 191).

(** [s.trim() === ""]: the string holds white space only. *)
Fixpoint isBlank (s : string) : bool :=
  match s with
  | EmptyString => true
  | String c s1 =>
      if whiteSpace1 c then isBlank s1
      else
        match s1 with
        | EmptyString => false
        | String d s2 =>
            if whiteSpace2 c d then isBlank s2
            else
              match s2 with
              | EmptyString => false
              | String e s3 => if whiteSpace3 c d e then isBlank s3 else false
              end
        end
  end.

(** [!field?.trim()] for a form field, which is absent or a string. *)
Definition blankField (field : option string) : bool :=
  match field with
  | None => true
  | Some s => isBlank s
  end.

(** ** Statements on the table of users *)

Definition hasUsername (username : string) (db : Database) : bool :=
  existsb (fun u => String.eqb (user_username u) username) (users db).

Definition hasNickname (nickname : string) (db : Database) : bool :=
  existsb (fun u => String.eqb (user_nickname u) nickname) (users db).

(** The values [register] inserts; the other columns take their defaults. *)
Record UserValues := mkUserValues {
  uv_username : string;
  uv_passwordHash : string;
  uv_nickname : string;
  uv_role : UserRole
}.

Definition newUser (now : timestamp) (id : uuid) (v : UserValues) : User :=
  {| user_id := id;
     user_username := uv_username v;
     user_passwordHash := uv_passwordHash v;
     user_nickname := uv_nickname v;
     user_avatarUrl := None;
     user_role := uv_role v;
     user_createdAt := now;
     user_updatedAt := now |}.

(** [db.insert(users).values(v).returning()]: the texts are read,
    [username] and [nickname] are fitted to their columns, and the primary
    key and the two unique constraints are checked on what would be
    stored. *)
Definition insertUsers (now : timestamp) (id : uuid) (v : UserValues) : Db (list User) :=
  fun db =>
    if negb (storable [uv_username v; uv_passwordHash v; uv_nickname v]) then
      (Thrown (DatabaseError character_not_in_repertoire), db)
    else
      match varchar255 (uv_username v), varchar255 (uv_nickname v) with
      | Some username, Some nickname =>
          let row :=
            newUser now id
              {| uv_username := username;
                 uv_passwordHash := uv_passwordHash v;
                 uv_nickname := nickname;
                 uv_role := uv_role v |} in
          if hasUser id db || hasUsername username db || hasNickname nickname db
          then (Thrown (DatabaseError unique_violation), db)
          else
            (Returned [row],
             {| users := users db ++ [row];
                travelNotes := travelNotes db;
                noteMedia := noteMedia db;
                noteMedia_id_seq := noteMedia_id_seq db |})
      | _, _ => (Thrown (DatabaseError string_data_right_truncation), db)
      end.

(** The [set] of the settings page, with [$onUpdate] on [updatedAt]. *)
Definition profileOf (nickname : string) (avatarUrl : option string)
  (now : timestamp) (u : User) : User :=
  {| user_id := user_id u;
     user_username := user_username u;
     user_passwordHash := user_passwordHash u;
     user_nickname := nickname;
     user_avatarUrl := avatarUrl;
     user_role := user_role u;
     user_createdAt := user_createdAt u;
     user_updatedAt := now |}.

(** Another user holds the nickname. *)
Definition nicknameOfAnother (id : uuid) (nickname : string) (db : Database) : bool :=
  existsb
    (fun u => String.eqb (user_nickname u) nickname && negb (N.eqb (user_id u) id))
    (users db).

(** [db.update(users).set({ nickname, avatarUrl }).where(eq(users.id, id))]:
    the texts are read; when a row matches, the nickname is fitted to its
    column, and what would be stored must not be the nickname of another
    user. *)
Definition updateUserProfile (now : timestamp) (id : uuid) (nickname : string)
  (avatarUrl : option string) : Db unit :=
  fun db =>
    if negb (storable (nickname :: optionalText avatarUrl)) then
      (Thrown (DatabaseError character_not_in_repertoire), db)
    else if negb (hasUser id db) then (Returned tt, db)
    else
      match varchar255 nickname with
      | None => (Thrown (DatabaseError string_data_right_truncation), db)
      | Some stored =>
          if nicknameOfAnother id stored db
          then (Thrown (DatabaseError unique_violation), db)
          else
            (Returned tt,
             {| users :=
                  map (fun u => if N.eqb (user_id u) id
                                then profileOf stored avatarUrl now u else u)
                    (users db);
                travelNotes := travelNotes db;
                noteMedia := noteMedia db;
                noteMedia_id_seq := noteMedia_id_seq db |})
      end.

(** ** Accounts ([app/services/auth.server.ts]) *)

Inductive RegisterError := USERNAME_TAKEN | NICKNAME_TAKEN | FAILED_TO_CREATE_USER.

Inductive RegisterResult :=
| RegisterFailed (error : RegisterError)
| Registered (user : SessionUser).

Definition findUsername (username : string) (db : Database) : option User :=
  find (fun u => String.eqb (user_username u) username) (users db).

Section Accounts.

(** [bcrypt.hash(password, 10)], as a function of the password and of the
    salt it draws, and [bcrypt.compare(password, hash)]. *)
Variable bcryptHash : string -> N -> string.
Variable bcryptCompare : string -> string -> bool.

(** [login]: [null] is [None]. *)
Definition login (username password : string) : Db (option SessionUser) :=
  userResult <- query (findUsername username) ;;
  match userResult with
  | None => ret None
  | Some u =>
      if negb (bcryptCompare password (user_passwordHash u)) then ret None
      else ret (Some (withoutPassword u))
  end.

(** [register]; [newId] is the id the database draws for the user and
    [salt] the salt of the hash. *)
Definition register (now : timestamp) (newId : uuid) (salt : N)
  (username password nickname : string) : Db RegisterResult :=
  existingUserResult <- query (findUsername username) ;;
  match existingUserResult with
  | Some _ => ret (RegisterFailed USERNAME_TAKEN)
  | None =>
      existingNicknameResult <-
        query (fun db => find (fun u => String.eqb (user_nickname u) nickname) (users db)) ;;
      match existingNicknameResult with
      | Some _ => ret (RegisterFailed NICKNAME_TAKEN)
      | None =>
          result <- insertUsers now newId
                      {| uv_username := username;
                         uv_passwordHash := bcryptHash password salt;
                         uv_nickname := nickname;
                         uv_role := user |} ;;
          match result with
          | [] => ret (RegisterFailed FAILED_TO_CREATE_USER)
          | u :: _ => ret (Registered (withoutPassword u))
          end
      end
  end.

End Accounts.

(** ** More routes *)

(** [app/routes/_user.login.tsx] *)
Module LoginPage.

Record FormData := mkFormData {
  username : option string;
  password : option string;
  formType : option string;
  nickname : option string
}.

(** [fields] of the error responses; [f_nickname] is [None] when the object
    has no such key. *)
Record Fields := mkFields {
  f_username : option string;
  f_password : option string;
  f_nickname : option (option string)
}.

(** What the action returns: [json({ error, fields }, { status })] or the
    redirect of [createUserSession(userId, redirectTo)], which carries the
    session cookie of [userId]. *)
Inductive ActionResult :=
| Failed (error : string) (fields : option Fields) (status : Z)
| SessionCreated (userId : uuid) (redirectTo : string).

Definition action (bcryptHash : string -> N -> string)
  (bcryptCompare : string -> string -> bool)
  (now : timestamp) (newId : uuid) (salt : N) (formData : FormData)
  : Db ActionResult :=
  let isRegistration := fieldIs "register" (formType formData) in
  let nickname := if isRegistration then nickname formData else Some "" in
  let fields :=
    {| f_username := username formData;
       f_password := password formData;
       f_nickname := None |} in
  match truthy (username formData), truthy (password formData) with
  | Some username, Some password =>
      if isRegistration then
        match truthy nickname with
        | None => ret (Failed "请填写昵称" (Some fields) 400)
        | Some nickname =>
            result <- register bcryptHash now newId salt username password nickname ;;
            match result with
            | RegisterFailed error =>
                ret (Failed
                       match error with
                       | USERNAME_TAKEN => "用户名已被占用"
                       | NICKNAME_TAKEN => "昵称已被占用"
                       | FAILED_TO_CREATE_USER => "注册失败"
                       end
                       (Some {| f_username := Some username;
                                f_password := Some password;
                                f_nickname := Some (Some nickname) |})
                       400)
            | Registered u => ret (SessionCreated (su_id u) "/my-notes")
            end
        end
      else
        found <- login bcryptCompare username password ;;
        match found with
        | None => ret (Failed "用户名或密码错误" (Some fields) 400)
        | Some u => ret (SessionCreated (su_id u) "/my-notes")
        end
  | _, _ => ret (Failed "请填写用户名和密码" (Some fields) 400)
  end.

End LoginPage.

(** The fields the edit page submits.  [nf_media] pairs each entry of
    [mediaUrls[]] with its entry of [mediaTypes[]]: the publish and the edit
    page append the two together, with the type [image] or [video]. *)
Record NoteForm := mkNoteForm {
  nf_title : option string;
  nf_content : option string;
  nf_location : option string;
  nf_media : list (string * MediaType)
}.

(** [errors] of [ActionData]. *)
Record NoteFormErrors := mkNoteFormErrors {
  err_title : option string;
  err_content : option string;
  err_images : option string;
  err_general : option string
}.

(** [formData] of [ActionData]. *)
Record NoteFormEcho := mkNoteFormEcho {
  echo_title : option string;
  echo_content : option string;
  echo_location : option string
}.

Definition echo (form : NoteForm) : NoteFormEcho :=
  {| echo_title := nf_title form;
     echo_content := nf_content form;
     echo_location := nf_location form |}.

(** [mediaUrls.map((url, index) => ({ type: mediaTypes[index], url,
    order: index }))] *)
Definition mediaArray (media : list (string * MediaType)) : list MediaInput :=
  mapIndex
    (fun m index => {| mi_type := snd m; mi_url := fst m; mi_order := Some index |})
    media.

(** What the two actions return: [json({ errors, formData }, { status })]
    or a redirect. *)
Inductive NoteFormResult :=
| FormRejected (errors : NoteFormErrors) (formData : NoteFormEcho) (status : Z)
| RedirectToMyNotes
| RedirectToNote (id : uuid).

(** The publish page (the route that imports [createNote]).  [location] is
    a string: the form of the page always holds the field. *)
Module Publish.

Record FormData := mkFormData {
  title : option string;
  content : option string;
  location : string;
  media : list (string * MediaType)
}.

Definition echoOf (formData : FormData) : NoteFormEcho :=
  {| echo_title := title formData;
     echo_content := content formData;
     echo_location := Some (location formData) |}.

Definition validate (formData : FormData) : NoteFormErrors :=
  {| err_title := if blankField (title formData) then Some "请输入游记标题" else None;
     err_content := if blankField (content formData) then Some "请输入游记内容" else None;
     err_images :=
       match media formData with
       | [] => Some "请至少上传一张图片或一个视频"
       | _ :: _ => None
       end;
     err_general := None |}.

(** [Object.keys(errors).length > 0] *)
Definition hasErrors (errors : NoteFormErrors) : bool :=
  match err_title errors, err_content errors, err_images errors, err_general errors with
  | None, None, None, None => false
  | _, _, _, _ => true
  end.

Definition generalError (message : string) : NoteFormErrors :=
  {| err_title := None; err_content := None; err_images := None;
     err_general := Some message |}.

Definition action (now : timestamp) (newId : uuid) (session : option uuid)
  (formData : FormData) : Db (RouteResult NoteFormResult) :=
  requireLoggedInUser session (fun user =>
    let errors := validate formData in
    if hasErrors errors then ret (Json (FormRejected errors (echoOf formData) 400))
    else
      tryCatch
        (noteResult <- createNote now newId
                         {| cn_userId := su_id user;
                            cn_title := default "" (title formData);
                            cn_content := default "" (content formData);
                            cn_location := Some (location formData);
                            cn_media := mediaArray (media formData) |} ;;
         match noteResult with
         | None => throw (JsError "Failed to create note")
         | Some _ => ret (Json RedirectToMyNotes)
         end)
        (fun _ =>
           ret (Json (FormRejected (generalError "游记发布失败，请稍后重试")
                        (echoOf formData) 500)))).

End Publish.

(** [app/routes/_user.edit.$id.tsx] *)
Module EditNote.

Record LoaderData := mkLoaderData {
  note : NoteWithRelations;
  user : SessionUser
}.

(** [note.userId !== user.id && user.role !== 'admin'] *)
Definition forbidden (user : SessionUser) (n : TravelNote) : bool :=
  negb (N.eqb (note_userId n) (su_id user))
  && negb (UserRole_eqb (su_role user) admin).

Definition loader (id : option uuid) (session : option uuid)
  : Db (RouteResult LoaderData) :=
  requireLoggedInUser session (fun user =>
    match id with
    | None => ret (ThrownResponse "游记ID未提供" 400)
    | Some id =>
        found <- getNoteById id ;;
        match found with
        | None => ret (ThrownResponse "游记未找到" 404)
        | Some n =>
            if forbidden user (nwr_note n) then
              ret (ThrownResponse "您没有权限编辑此游记" 403)
            else ret (Json {| note := n; user := user |})
        end
    end).

(** [mediaUrls.length === 0 ||
     !mediaUrls.some((url, i) => mediaTypes[i] === 'image')] *)
Definition noImage (media : list (string * MediaType)) : bool :=
  match media with
  | [] => true
  | _ :: _ =>
      negb (existsb
              (fun m => match snd m with image => true | video => false end) media)
  end.

Definition validate (form : NoteForm) : NoteFormErrors :=
  {| err_title := if blankField (nf_title form) then Some "请输入游记标题" else None;
     err_content := if blankField (nf_content form) then Some "请输入游记内容" else None;
     err_images := if noImage (nf_media form) then Some "请至少上传一张图片" else None;
     err_general := None |}.

(** The result of [updateNote] is an object in every case, so the test
    [if (!updateResult)] never throws. *)
Definition action (now : timestamp) (id : option uuid) (session : option uuid)
  (form : NoteForm) : Db (RouteResult NoteFormResult) :=
  requireLoggedInUser session (fun user =>
    match id with
    | None => ret (ThrownResponse "游记ID未提供" 400)
    | Some id =>
        found <- getNoteById id ;;
        match found with
        | None => ret (ThrownResponse "游记未找到" 404)
        | Some existingNote =>
            if forbidden user (nwr_note existingNote) then
              ret (ThrownResponse "您没有权限编辑此游记" 403)
            else
              let errors := validate form in
              if Publish.hasErrors errors then
                ret (Json (FormRejected errors (echo form) 400))
              else
                tryCatch
                  (updateNote now
                     {| un_id := id;
                        un_userId := note_userId (nwr_note existingNote);
                        un_title := default "" (nf_title form);
                        un_content := default "" (nf_content form);
                        un_location := nf_location form;
                        un_media := mediaArray (nf_media form) |} ;;;
                   ret (Json (RedirectToNote id)))
                  (fun _ =>
                     ret (Json (FormRejected
                                  (Publish.generalError "游记更新失败，请稍后重试")
                                  (echo form) 500)))
        end
    end).

End EditNote.

(** [app/routes/_user.settings.tsx] *)
Module Settings.

Definition loader (session : option uuid) : Db (RouteResult SessionUser) :=
  user <- getLoggedInUser session ;;
  match user with
  | None => ret (Redirect "/login?redirectTo=/settings")
  | Some u => ret (Json u)
  end.

(** [avatarUrl || user.avatarUrl] *)
Definition avatarOr (avatarUrl : option string) (current : option string)
  : option string :=
  match truthy avatarUrl with
  | Some url => Some url
  | None => current
  end.

Definition action (now : timestamp) (session : option uuid)
  (nickname avatarUrl : option string) : Db (RouteResult Success) :=
  user <- getLoggedInUser session ;;
  match user with
  | None => ret (JsonError "未登录" 401)
  | Some u =>
      match nickname with
      | None => ret (JsonError "昵称不能为空" 400)
      | Some nickname =>
          if isBlank nickname then ret (JsonError "昵称不能为空" 400)
          else
            tryCatch
              (updateUserProfile now (su_id u) nickname
                 (avatarOr avatarUrl (su_avatarUrl u)) ;;;
               ret (Json success_true))
              (fun _ => ret (JsonError "更新资料失败，请稍后再试" 500))
      end
  end.

End Settings.

(** The media carousel of the note page: the index of the medium on show,
    for a note with [length] media. *)
Module Carousel.

(** [prev === 0 ? note.media.length - 1 : prev - 1] *)
Definition goToPrevious (length prev : Z) : Z :=
  if prev =? 0 then length - 1 else prev - 1.

(** [prev === note.media.length - 1 ? 0 : prev + 1] *)
Definition goToNext (length prev : Z) : Z :=
  if prev =? length - 1 then 0 else prev + 1.

End Carousel.

(** ** More predicates and inputs *)


(** What [updateNote] and [createNote] store for an entry of the media
    list: its type, its URL and its order. *)
Definition mediaColumns (m : NoteMedia) : MediaType * string * Z :=
  (media_mediaType m, media_url m, media_order m).

Definition valuesColumns (r : NoteMediaValues) : MediaType * string * Z :=
  (mv_mediaType r, mv_url r, mv_order r).

(** The columns of a note that a change of status or a logical delete
    leaves alone. *)
Definition noteText (n : TravelNote) : uuid * uuid * string * string * option string * timestamp :=
  (note_id n, note_userId n, note_title n, note_content n, note_location n,
   note_createdAt n).

(** [s] occurs in [t]. *)
Definition contains (s t : string) : Prop :=
  exists before after, t = (before ++ s ++ after)%string.

(** A character that LIKE reads as itself. *)
Definition plainChar (c : ascii) : bool :=
  negb (Ascii.eqb c "%" || Ascii.eqb c "_" || Ascii.eqb c "\").

Fixpoint plainText (s : string) : bool :=
  match s with
  | EmptyString => true
  | String c s' => plainChar c && plainText s'
  end.

Module Scenarios.

(** A stand-in for bcrypt in the examples: the hash is the password behind
    a prefix. *)
Definition hash (password : string) (salt : N) : string :=
  ("$2a$10$" ++ password)%string.

Definition compare (password hashed : string) : bool :=
  String.eqb hashed ("$2a$10$" ++ password)%string.

Definition registration : LoginPage.FormData :=
  {| LoginPage.username := Some "user3";
     LoginPage.password := Some "password123";
     LoginPage.formType := Some "register";
     LoginPage.nickname := Some "hiker" |}.

(** Two pictures and a video, as the publish page submits them. *)
Definition story : Publish.FormData :=
  {| Publish.title := Some "Lijiang";
     Publish.content := Some "...";
     Publish.location := "Yunnan, Lijiang";
     Publish.media := [("a.jpg", image); ("b.jpg", image); ("c.mp4", video)] |}.

Definition untitled : Publish.FormData :=
  {| Publish.title := Some "   ";
     Publish.content := Some "...";
     Publish.location := "";
     Publish.media := [("a.jpg", image)] |}.

Definition revision : NoteForm :=
  {| nf_title := Some "Sanya beaches, revised";
     nf_content := Some "Six days between three bays.";
     nf_location := None;
     nf_media := [("sanya-3.jpg", image)] |}.

(** A revision whose title does not fit [varchar(255)]. *)
Definition longTitle : string :=
  let x16 := "0123456789abcdef" in
  let x64 := (x16 ++ x16 ++ x16 ++ x16)%string in
  (x64 ++ x64 ++ x64 ++ x64)%string.

Definition oversized : NoteForm :=
  {| nf_title := Some longTitle;
     nf_content := Some "Six days between three bays.";
     nf_location := None;
     nf_media := [("sanya-3.jpg", image)] |}.

(** The seeded database with a fourth note, whose title has a character of
    three bytes. *)
Definition withWideTitle : Database :=
  snd (createNote 3500 104
         {| cn_userId := 2; cn_title := "a游b"; cn_content := "...";
            cn_location := None; cn_media := [] |} Seed.db).

(** user2 gives note 102 a title that ends in 300 spaces. *)
Definition paddedEdit : UpdateNoteArgs :=
  {| un_id := 102; un_userId := 2; un_title := Examples.padded;
     un_content := "Six days between three bays.";
     un_location := None; un_media := [] |}.

(** An edit of note 103 whose only media entry does not fit its column. *)
Definition overflowingEdit : UpdateNoteArgs :=
  {| un_id := 103; un_userId := 1; un_title := "Zhangjiajie, again";
     un_content := "Now with matching pictures.";
     un_location := None;
     un_media :=
       [{| mi_type := image; mi_url := "a.jpg"; mi_order := Some 2147483648 |}] |}.

End Scenarios.

(** * Properties *)

(** ** Lists and ordering *)

Section Ordering.

Context {A : Type}.
Variable le : A -> A -> bool.

Lemma insertBy_Permutation x l : Permutation (insertBy le x l) (x :: l).
Proof.
  induction l as [|y l IH]; simpl.
  - apply Permutation_refl.
  - destruct (le x y).
    + apply Permutation_refl.
    + eapply Permutation_trans; [apply perm_skip, IH | apply perm_swap].
Qed.

Lemma sortBy_Permutation l : Permutation (sortBy le l) l.
Proof.
  induction l as [|x l IH]; simpl.
  - apply perm_nil.
  - eapply Permutation_trans; [apply insertBy_Permutation | apply perm_skip, IH].
Qed.

Lemma In_sortBy x l : In x (sortBy le l) <-> In x l.
Proof.
  split; apply Permutation_in.
  - apply sortBy_Permutation.
  - apply Permutation_sym, sortBy_Permutation.
Qed.

Lemma length_sortBy l : List.length (sortBy le l) = List.length l.
Proof. apply Permutation_length, sortBy_Permutation. Qed.

End Ordering.

Lemma In_firstn {A} (x : A) k l : In x (firstn k l) -> In x l.
Proof.
  revert l. induction k as [|k IH]; intros [|y l]; simpl; try tauto.
  intros [H|H]; [left; exact H | right; apply IH, H].
Qed.

Lemma In_skipn {A} (x : A) k l : In x (skipn k l) -> In x l.
Proof.
  revert l. induction k as [|k IH]; intros [|y l]; simpl; try tauto.
  intros H. right. apply IH, H.
Qed.

Lemma In_limitOffset {A} (x : A) limit offset l :
  In x (limitOffset limit offset l) -> In x l.
Proof.
  unfold limitOffset. destruct (limit <? 0); intros H.
  - eapply In_skipn, H.
  - eapply In_skipn, In_firstn, H.
Qed.

Section OrderedByColumn.

Context {A : Type}.
Variable column : A -> Z.

Lemma insertBy_asc_sorted x l :
  StronglySorted (ascending column) l ->
  StronglySorted (ascending column) (insertBy (asc column) x l).
Proof.
  induction 1 as [|y l Hl IH Hy]; simpl.
  - repeat constructor.
  - unfold asc at 1. destruct (Z.leb_spec (column x) (column y)) as [Hxy|Hxy].
    + constructor; [constructor; assumption|].
      constructor; [exact Hxy|].
      eapply Forall_impl; [|exact Hy]. unfold ascending. intros z Hz. lia.
    + constructor; [exact IH|].
      eapply Permutation_Forall; [apply Permutation_sym, insertBy_Permutation|].
      constructor; [unfold ascending; lia | assumption].
Qed.

Lemma sortBy_asc_sorted l : StronglySorted (ascending column) (sortBy (asc column) l).
Proof.
  induction l as [|x l IH]; simpl.
  - constructor.
  - now apply insertBy_asc_sorted.
Qed.

Lemma insertBy_desc_sorted x l :
  StronglySorted (descending column) l ->
  StronglySorted (descending column) (insertBy (desc column) x l).
Proof.
  induction 1 as [|y l Hl IH Hy]; simpl.
  - repeat constructor.
  - unfold desc at 1. destruct (Z.leb_spec (column y) (column x)) as [Hxy|Hxy].
    + constructor; [constructor; assumption|].
      constructor; [exact Hxy|].
      eapply Forall_impl; [|exact Hy]. unfold descending. intros z Hz. lia.
    + constructor; [exact IH|].
      eapply Permutation_Forall; [apply Permutation_sym, insertBy_Permutation|].
      constructor; [unfold descending; lia | assumption].
Qed.

Lemma sortBy_desc_sorted l : StronglySorted (descending column) (sortBy (desc column) l).
Proof.
  induction l as [|x l IH]; simpl.
  - constructor.
  - now apply insertBy_desc_sorted.
Qed.

End OrderedByColumn.

(** ** Rows and statements *)

Lemma numberFrom_length {A B} (f : A -> Z -> B) i l :
  List.length (numberFrom f i l) = List.length l.
Proof.
  revert i. induction l as [|x l IH]; intros i; simpl; [reflexivity | now rewrite IH].
Qed.

Lemma numberFrom_Forall {A B} (Q : A -> Prop) (P : B -> Prop) (f : A -> Z -> B) i l :
  (forall x j, Q x -> P (f x j)) -> Forall Q l -> Forall P (numberFrom f i l).
Proof.
  intros Hf Hl. revert i.
  induction Hl as [|x l Hx Hl IH]; intros i; simpl; constructor; auto.
Qed.

Lemma mediaRows_noteId id media :
  Forall (fun r => mv_noteId r = id) (mediaRows id media).
Proof.
  unfold mediaRows, mapIndex.
  apply numberFrom_Forall with (Q := fun _ => True).
  - reflexivity.
  - apply Forall_forall. trivial.
Qed.

Lemma mediaRows_length id media :
  List.length (mediaRows id media) = List.length media.
Proof. apply numberFrom_length. Qed.

Lemma numberFrom_fst {A B C} (g : B -> C) (h : A -> C) (f : A -> Z -> B) i l :
  (forall x j, g (f x j) = h x) -> map g (numberFrom f i l) = map h l.
Proof.
  intros Hf. revert i. induction l as [|x l IH]; intros i; simpl; [reflexivity|].
  now rewrite Hf, IH.
Qed.

Lemma mediaRows_urls id media : map mv_url (mediaRows id media) = map mi_url media.
Proof. apply numberFrom_fst. reflexivity. Qed.

Lemma newNoteMedia_noteId now lastId id rows :
  Forall (fun r => mv_noteId r = id) rows ->
  Forall (fun m => media_noteId m = id) (newNoteMedia now lastId rows).
Proof.
  unfold newNoteMedia. apply numberFrom_Forall. intros r j Hr. exact Hr.
Qed.

Lemma newNoteMedia_length now lastId rows :
  List.length (newNoteMedia now lastId rows) = List.length rows.
Proof. apply numberFrom_length. Qed.

Lemma find_fresh_app id rows row :
  existsb (fun n => N.eqb (note_id n) id) rows = false ->
  note_id row = id ->
  find (fun n => N.eqb (note_id n) id) (rows ++ [row]) = Some row.
Proof.
  intros Hfresh Hid. induction rows as [|r rows IH]; simpl in *.
  - now rewrite Hid, N.eqb_refl.
  - apply orb_false_iff in Hfresh as [Hr Hrows]. rewrite Hr. now apply IH.
Qed.

Lemma existsb_app_last {A} (f : A -> bool) l x :
  f x = true -> existsb f (l ++ [x]) = true.
Proof.
  intros H. rewrite existsb_app. simpl. rewrite H.
  apply orb_true_iff. right. reflexivity.
Qed.

(** An update through [updateRows] that keeps the ids rewrites the first row
    with a given id into the first row with that id. *)
Lemma find_updateRows now set id rows :
  (forall n, note_id (set n) = note_id n) ->
  find (fun n => N.eqb (note_id n) id)
    (updateRows now set (fun n => N.eqb (note_id n) id) rows)
  = option_map (fun n => onUpdate now (set n))
      (find (fun n => N.eqb (note_id n) id) rows).
Proof.
  intros Hset. induction rows as [|r rows IH]; simpl; [reflexivity|].
  destruct (N.eqb (note_id r) id) eqn:Hr.
  - simpl. rewrite Hset, Hr. reflexivity.
  - rewrite Hr. exact IH.
Qed.

(** It leaves the rows with another id as they are. *)
Lemma find_updateRows_other now set id id' rows :
  (forall n, note_id (set n) = note_id n) ->
  id' <> id ->
  find (fun n => N.eqb (note_id n) id')
    (updateRows now set (fun n => N.eqb (note_id n) id) rows)
  = find (fun n => N.eqb (note_id n) id') rows.
Proof.
  intros Hset Hne. induction rows as [|r rows IH]; simpl; [reflexivity|].
  destruct (N.eqb_spec (note_id r) id) as [Hr|Hr].
  - cbn [note_id onUpdate]. rewrite Hset.
    destruct (N.eqb_spec (note_id r) id'); [congruence | exact IH].
  - now rewrite IH.
Qed.

(** Without a matching row an update changes nothing. *)
Lemma updateRows_no_match now set cond rows :
  existsb cond rows = false -> updateRows now set cond rows = rows.
Proof.
  induction rows as [|r rows IH]; simpl; intros H; [reflexivity|].
  apply orb_false_iff in H as [Hr Hrows]. rewrite Hr, IH by assumption. reflexivity.
Qed.

Lemma updateRows_Forall (P : TravelNote -> Prop) now set cond rows :
  (forall n, cond n = true -> P n -> P (onUpdate now (set n))) ->
  Forall P rows -> Forall P (updateRows now set cond rows).
Proof.
  intros Hset. induction 1 as [|r rows Hr Hrows IH]; simpl; constructor; auto.
  destruct (cond r) eqn:Hc; auto.
Qed.

Lemma findOwnedNote_hasNote id userId db n :
  findOwnedNote id userId db = Some n -> hasNote id db = true.
Proof.
  unfold findOwnedNote, hasNote. intros H.
  apply find_some in H as [Hin Hn]. apply andb_true_iff in Hn as [Hid _].
  apply existsb_exists. eauto.
Qed.

Lemma hasNote_find id db :
  hasNote id db = true ->
  exists n, find (fun n => N.eqb (note_id n) id) (travelNotes db) = Some n.
Proof.
  unfold hasNote. intros H. apply existsb_exists in H as [n [Hin Hn]].
  destruct (find (fun n => N.eqb (note_id n) id) (travelNotes db)) as [n'|] eqn:Hf.
  - eauto.
  - apply (find_none _ _ Hf) in Hin. congruence.
Qed.

Lemma insertMediaList_notes now id media db out db' :
  insertMediaList now id media db = (out, db') ->
  users db' = users db /\ travelNotes db' = travelNotes db.
Proof.
  unfold insertMediaList, insertNoteMedia, ret.
  destruct media as [|m media].
  - intros [= _ <-]. auto.
  - destruct (negb _); [intros [= _ <-]; auto|].
    destruct (negb _); [intros [= _ <-]; auto|].
    destruct (negb _); intros [= _ <-]; auto.
Qed.

Lemma database_eta db :
  {| users := users db;
     travelNotes := travelNotes db;
     noteMedia := noteMedia db;
     noteMedia_id_seq := noteMedia_id_seq db |} = db.
Proof. destruct db; reflexivity. Qed.

Lemma getNoteById_eq id db :
  getNoteById id db
  = (Returned
       (option_map (withRelations db)
          (find (fun n => N.eqb (note_id n) id) (travelNotes db))),
     db).
Proof. reflexivity. Qed.

(** ** [createNote] *)

(** What [createNote] leaves behind and returns, by the checks its two
    inserts pass.  Shared by the properties of [createNote] below. *)
Lemma createNote_cases now newId args db :
  let (out, db') := createNote now newId args db in
  users db' = users db /\
  if noteInsertable newId args db then
    exists row : TravelNote,
      travelNotes db' = (travelNotes db ++ [row])%list /\
      note_id row = newId /\ note_status row = pending /\
      note_rejectionReason row = None /\
      if mediaInsertable newId args then
        out = Returned (Some (withRelations db' row)) /\
        exists stored,
          noteMedia db' = (noteMedia db ++ stored)%list /\
          List.length stored = List.length (cn_media args) /\
          Forall (fun m => media_noteId m = newId) stored
      else
        out = Returned None /\ noteMedia db' = noteMedia db
  else
    out = Returned None /\ db' = db.
Proof.
  unfold createNote, tryCatch, bind, insertTravelNotes, noteInsertable.
  cbn [v_title v_content v_location v_userId optionalText default].
  change (default "" (cn_location args))
    with (match cn_location args with Some l => l | None => "" end).
  destruct (storable _) eqn:Htexts; simpl; [|auto].
  destruct (varchar255 (cn_title args)) as [title|] eqn:Htitle; simpl; [|auto].
  destruct (hasNote newId db) eqn:Hfresh; simpl; [auto|].
  destruct (hasUser (cn_userId args) db) eqn:Huser; simpl; [|auto].
  unfold mediaInsertable, insertMediaList.
  destruct (cn_media args) as [|m media] eqn:Hmedia.
  - simpl. split; [reflexivity|]. eexists. split; [reflexivity|]. repeat split.
    + unfold getNoteById, tryCatch, query; simpl.
      erewrite find_fresh_app; [reflexivity | exact Hfresh | reflexivity].
    + exists []. rewrite app_nil_r. repeat split. constructor.
  - unfold insertNoteMedia. rewrite mediaRows_urls.
    destruct (storable (map mi_url (m :: media))) eqn:Hurls; cbn [negb andb];
      [|cbn [users travelNotes noteMedia fst snd];
        split; [reflexivity|]; eexists; split; [reflexivity|]; repeat split].
    destruct (forallb (fun r => int4 (mv_order r)) (mediaRows newId (m :: media)))
      eqn:Hrange; cbn [negb].
    + match goal with |- context [forallb ?f (mediaRows newId (m :: media))] =>
        assert (Hfk : forallb f (mediaRows newId (m :: media)) = true) end.
      { apply forallb_forall. intros r Hr.
        assert (Hid : mv_noteId r = newId).
        { revert r Hr. apply Forall_forall, mediaRows_noteId. }
        rewrite Hid. unfold hasNote. cbn [travelNotes].
        apply existsb_app_last, N.eqb_refl. }
      rewrite Hfk. cbn [negb users travelNotes noteMedia fst snd].
      split; [reflexivity|]. eexists. split; [reflexivity|]. repeat split.
      * unfold getNoteById, tryCatch, query. cbn [travelNotes].
        erewrite find_fresh_app; [reflexivity | exact Hfresh | reflexivity].
      * eexists. split; [reflexivity|]. split.
        -- now rewrite newNoteMedia_length, mediaRows_length.
        -- apply newNoteMedia_noteId, mediaRows_noteId.
    + cbn [users travelNotes noteMedia fst snd].
      split; [reflexivity|]. eexists. split; [reflexivity|]. repeat split.
Qed.

(** C7.  Every successful [createNote] adds one note to the database, with
    the id the database drew, and that note, which is the note returned and
    the note [getNoteById] then finds, has the status pending.  The caller
    cannot supply a status: [createNote] has no such argument and inserts
    the constant. *)
Theorem createNote_status_pending now newId args db r db' :
  createNote now newId args db = (Returned (Some r), db') ->
  note_status (nwr_note r) = pending
  /\ note_id (nwr_note r) = newId
  /\ hasNote newId db = false
  /\ travelNotes db' = (travelNotes db ++ [nwr_note r])%list
  /\ fst (getNoteById newId db') = Returned (Some r).
Proof.
  intros Hcreate. pose proof (createNote_cases now newId args db) as H.
  rewrite Hcreate in H. destruct H as [_ H].
  destruct (noteInsertable newId args db) eqn:Hnote; [|destruct H; discriminate].
  destruct H as [row [Hnotes [Hid [Hstatus [_ H]]]]].
  destruct (mediaInsertable newId args); destruct H as [Hout _]; [|discriminate].
  injection Hout as ->. cbn [nwr_note withRelations].
  assert (Hfresh : hasNote newId db = false).
  { unfold noteInsertable in Hnote.
    apply andb_true_iff in Hnote as [Hnote _].
    apply andb_true_iff in Hnote as [_ Hfresh].
    now destruct (hasNote newId db). }
  split; [exact Hstatus|]. split; [exact Hid|]. split; [exact Hfresh|].
  split; [exact Hnotes|].
  rewrite getNoteById_eq. cbn [fst]. rewrite Hnotes.
  now rewrite (find_fresh_app newId (travelNotes db) row Hfresh Hid).
Qed.

Lemma createNote_status_pending_witness :
  exists r db',
    createNote 3000 200 Examples.unordered Seed.db = (Returned (Some r), db')
    /\ note_status (nwr_note r) = pending
    /\ note_id (nwr_note r) = 200%N
    /\ hasNote 200 Seed.db = false
    /\ travelNotes db' = (travelNotes Seed.db ++ [nwr_note r])%list
    /\ fst (getNoteById 200 db') = Returned (Some r).
Proof.
  eexists. eexists.
  assert (H : createNote 3000 200 Examples.unordered Seed.db
              = (Returned (Some _), _)) by (vm_compute; reflexivity).
  split; [exact H|].
  exact (createNote_status_pending 3000 200 Examples.unordered Seed.db _ _ H).
Defined.



(** ** [updateNote] *)

(** What [updateNote] returns and leaves behind.  [existing] is the row the
    ownership check finds, [current] the first row with the id. *)
Lemma updateNote_cases now args db :
  let (out, db') := updateNote now args db in
  match out with
  | Returned (UpdateNote found) =>
      exists existing current title,
        findOwnedNote (un_id args) (un_userId args) db = Some existing
        /\ find (fun n => N.eqb (note_id n) (un_id args)) (travelNotes db) = Some current
        /\ varchar255 (un_title args) = Some title
        /\ found
           = Some (withRelations db' (titled title (editedNote args existing now current)))
        /\ travelNotes db'
           = updateRows now (fun n => titled title (editedNote args existing now n))
               (fun n => N.eqb (note_id n) (un_id args)) (travelNotes db)
  | Returned (UpdateError NOTE_NOT_FOUND) =>
      findOwnedNote (un_id args) (un_userId args) db = None /\ db' = db
  | Returned (UpdateError _) => True
  | Thrown _ => False
  end.
Proof.
  unfold updateNote, tryCatch, bind, query.
  destruct (findOwnedNote (un_id args) (un_userId args) db) as [existing|] eqn:Hown;
    [|simpl; auto].
  unfold updateTravelNotes, fitted.
  destruct (storable _); [|simpl; exact I]. cbn [negb].
  destruct (hasNote_find _ _ (findOwnedNote_hasNote _ _ _ _ Hown)) as [current Hcur].
  destruct (varchar255 (un_title args)) as [title|] eqn:Htitle; cbn [option_map].
  2:{ pose proof (findOwnedNote_hasNote _ _ _ _ Hown) as Hexists.
      unfold hasNote in Hexists. rewrite Hexists. simpl. exact I. }
  destruct (filter _ (travelNotes db)) as [|f fs] eqn:Hfilter.
  { exfalso. apply find_some in Hcur as [Hin Hid].
    assert (Hf : In current
                   (filter (fun n => N.eqb (note_id n) (un_id args)) (travelNotes db)))
      by (apply filter_In; auto).
    rewrite Hfilter in Hf. exact Hf. }
  cbn [map]. unfold deleteNoteMedia.
  match goal with |- context [insertMediaList now (un_id args) (un_media args) ?d] =>
    destruct (insertMediaList now (un_id args) (un_media args) d) as [o db2] eqn:Hins end.
  apply insertMediaList_notes in Hins as [_ Hnotes]. cbn [travelNotes] in Hnotes.
  destruct o as [[]|e]; [|simpl; exact I].
  unfold getNoteById, tryCatch, query, ret. rewrite Hnotes.
  rewrite find_updateRows by reflexivity. rewrite Hcur. cbn [option_map].
  exists existing, current, title. repeat split.
Qed.

(** An update that keeps the ids keeps the set of ids. *)
Lemma hasId_updateRows now set cond id rows :
  (forall n, note_id (set n) = note_id n) ->
  existsb (fun n => N.eqb (note_id n) id) (updateRows now set cond rows)
  = existsb (fun n => N.eqb (note_id n) id) rows.
Proof.
  intros Hset. induction rows as [|r rows IH]; simpl; [reflexivity|].
  rewrite IH. destruct (cond r); [|reflexivity].
  cbn [note_id onUpdate]. now rewrite Hset.
Qed.


(** A title of at most 255 characters is stored as it is. *)
Lemma varchar255_fits s stored :
  varchar255 s = Some stored -> (charLength s <= 255)%nat -> stored = s.
Proof.
  unfold varchar255. intros H Hfits.
  apply Nat.leb_le in Hfits. rewrite Hfits in H. congruence.
Qed.

(** C1, as the code has it.  After a successful [updateNote] the note in the
    database, which is the note returned, has the supplied title as its
    column stores it (the title itself when it has at most 255 characters)
    and the supplied content, the status pending, and [updatedAt] set to the
    time of the call.  The location is overwritten when a non-empty location
    is supplied; with no location or the empty string the location the note
    had is kept.  No other note changes. *)
Theorem updateNote_success now args db found db' :
  updateNote now args db = (Returned (UpdateNote found), db') ->
  exists existing r,
    findOwnedNote (un_id args) (un_userId args) db = Some existing
    /\ found = Some r
    /\ fst (getNoteById (un_id args) db') = Returned (Some r)
    /\ note_id (nwr_note r) = un_id args
    /\ varchar255 (un_title args) = Some (note_title (nwr_note r))
    /\ ((charLength (un_title args) <= 255)%nat ->
        note_title (nwr_note r) = un_title args)
    /\ note_content (nwr_note r) = un_content args
    /\ (forall l, un_location args = Some l -> l <> "" ->
        note_location (nwr_note r) = Some l)
    /\ (un_location args = None \/ un_location args = Some "" ->
        note_location (nwr_note r) = note_location existing)
    /\ note_status (nwr_note r) = pending
    /\ note_updatedAt (nwr_note r) = now
    /\ (forall n, In n (travelNotes db) -> note_id n <> un_id args ->
        In n (travelNotes db')).
Proof.
  intros Hupdate. pose proof (updateNote_cases now args db) as H.
  rewrite Hupdate in H.
  destruct H as [existing [current [title [Hown [Hcur [Htitle [Hfound Hnotes]]]]]]].
  exists existing, (withRelations db' (titled title (editedNote args existing now current))).
  split; [exact Hown|]. split; [exact Hfound|].
  split.
  { rewrite getNoteById_eq. cbn [fst]. rewrite Hnotes.
    rewrite find_updateRows by reflexivity. rewrite Hcur. reflexivity. }
  cbn.
  split; [apply find_some in Hcur as [_ Hid]; now apply N.eqb_eq in Hid|].
  split; [exact Htitle|].
  split; [intros Hfits; apply (varchar255_fits _ _ Htitle Hfits)|].
  split; [reflexivity|].
  split; [intros l -> Hl; destruct l; [congruence | reflexivity]|].
  split; [intros [-> | ->]; reflexivity|].
  split; [reflexivity|]. split; [reflexivity|].
  intros n Hn Hid. rewrite Hnotes. unfold updateRows. apply in_map_iff.
  exists n. split; [|exact Hn].
  destruct (N.eqb_spec (note_id n) (un_id args)); [contradiction | reflexivity].
Qed.

Lemma updateNote_success_witness :
  exists found db',
    updateNote 3000 Examples.resubmit Seed.db = (Returned (UpdateNote found), db')
    /\ exists existing r,
        findOwnedNote 103 1 Seed.db = Some existing
        /\ found = Some r
        /\ fst (getNoteById 103 db') = Returned (Some r)
        /\ note_id (nwr_note r) = 103%N
        /\ varchar255 "Zhangjiajie, again" = Some (note_title (nwr_note r))
        /\ ((charLength "Zhangjiajie, again" <= 255)%nat ->
            note_title (nwr_note r) = "Zhangjiajie, again")
        /\ note_content (nwr_note r) = "Now with matching pictures."
        /\ (forall l, Some "" = Some l -> l <> "" -> note_location (nwr_note r) = Some l)
        /\ (Some "" = None \/ Some "" = Some "" ->
            note_location (nwr_note r) = note_location existing)
        /\ note_status (nwr_note r) = pending
        /\ note_updatedAt (nwr_note r) = 3000
        /\ (forall n, In n (travelNotes Seed.db) -> note_id n <> 103%N ->
            In n (travelNotes db')).
Proof.
  eexists. eexists.
  assert (H : updateNote 3000 Examples.resubmit Seed.db
              = (Returned (UpdateNote _), _)) by (vm_compute; reflexivity).
  split; [exact H|].
  exact (updateNote_success 3000 Examples.resubmit Seed.db _ _ H).
Defined.

(** A title that is too long by spaces only is cut: of the 12 characters
    and 300 spaces that user2 supplies for note 102, the note keeps the
    first 255 characters. *)
Lemma updateNote_cuts_padded_title :
  match updateNote 3000 Scenarios.paddedEdit Seed.db with
  | (Returned (UpdateNote (Some r)), db') =>
      charLength (un_title Scenarios.paddedEdit) = 312%nat
      /\ note_title (nwr_note r) = takeChars 255 (un_title Scenarios.paddedEdit)
      /\ note_title (nwr_note r) <> un_title Scenarios.paddedEdit
      /\ fst (getNoteById 102 db') = Returned (Some r)
  | _ => False
  end.
Proof. vm_compute. repeat split. discriminate. Qed.

(** C1, as stated, fails.  The owner of the rejected note 103 edits it and
    submits an empty location: the update succeeds, the note keeps its
    location instead of taking the supplied one, and it keeps its rejection
    reason. *)
Lemma updateNote_keeps_location_and_reason :
  match fst (updateNote 3000 Examples.resubmit Seed.db) with
  | Returned (UpdateNote (Some r)) =>
      un_location Examples.resubmit = Some ""
      /\ note_location (nwr_note r) = Some "Hunan, Zhangjiajie"
      /\ note_rejectionReason (nwr_note r) = Some "content does not match the pictures"
  | _ => False
  end.
Proof. vm_compute. repeat split. Qed.

(** ** The rejection reason and the status *)

Lemma forallb_updateRows (p : TravelNote -> bool) now set cond rows :
  (forall n, cond n = true -> p n = true -> p (onUpdate now (set n)) = true) ->
  forallb p rows = true -> forallb p (updateRows now set cond rows) = true.
Proof.
  intros Hset. induction rows as [|r rows IH]; simpl; [reflexivity|].
  intros H. apply andb_true_iff in H as [Hr Hrows].
  apply andb_true_iff. split; [|auto].
  destruct (cond r) eqn:Hc; auto.
Qed.

(** [createNote] keeps the invariant: the row it adds is pending and has no
    reason. *)
Lemma createNote_reasonInvariant now newId args db :
  reasonInvariant db = true ->
  reasonInvariant (snd (createNote now newId args db)) = true.
Proof.
  intros Hinv. pose proof (createNote_cases now newId args db) as H.
  destruct (createNote now newId args db) as [out db']. cbn [snd].
  destruct H as [_ H].
  destruct (noteInsertable newId args db); [|destruct H as [_ ->]; exact Hinv].
  destruct H as [row [Hnotes [_ [Hstatus [Hreason _]]]]].
  unfold reasonInvariant. rewrite Hnotes, forallb_app. cbn [forallb].
  unfold reasonInvariant in Hinv. rewrite Hinv.
  unfold reasonMatchesStatus. rewrite Hstatus, Hreason. reflexivity.
Qed.

(** Both logical deletes keep it: they touch neither column. *)
Lemma deleteNote_reasonInvariant now id userId db :
  reasonInvariant db = true ->
  reasonInvariant (snd (deleteNote now id userId db)) = true.
Proof.
  intros Hinv. unfold deleteNote, tryCatch, bind, query, updateTravelNotes.
  destruct (findOwnedNote id userId db); [|exact Hinv].
  cbn. apply forallb_updateRows; [|exact Hinv]. intros n _ Hn. exact Hn.
Qed.

Lemma adminDeleteNote_reasonInvariant now noteId db :
  reasonInvariant db = true ->
  reasonInvariant (snd (adminDeleteNote now noteId db)) = true.
Proof.
  intros Hinv. unfold adminDeleteNote, bind, updateTravelNotes. cbn.
  apply forallb_updateRows; [|exact Hinv]. intros n _ Hn. exact Hn.
Qed.

(** [updateNoteStatus] keeps it when a rejection comes with a reason. *)
Lemma updateNoteStatus_reasonInvariant now noteId status reason db :
  (status = rejected -> reason <> None) ->
  reasonInvariant db = true ->
  reasonInvariant (snd (updateNoteStatus now noteId status reason db)) = true.
Proof.
  intros Hreason Hinv. unfold updateNoteStatus, bind, updateTravelNotes.
  destruct (storable _); [|exact Hinv]. cbn.
  apply forallb_updateRows; [|exact Hinv]. intros n _ _.
  unfold reasonMatchesStatus. cbn.
  destruct status; try reflexivity.
  destruct reason; [reflexivity | now elim Hreason].
Qed.

(** Returning a value after a statement leaves the database as the
    statement left it. *)
Lemma snd_then_ret {A B} (m : Db A) (b : B) db :
  snd ((m ;;; ret b) db) = snd (m db).
Proof. unfold bind, ret. destruct (m db) as [[a|e] db']; reflexivity. Qed.

Lemma then_ret_returns {A B} (m : Db A) (b b' : B) db db' :
  (m ;;; ret b) db = (Returned b', db') -> b' = b.
Proof.
  unfold bind, ret. destruct (m db) as [[a|e] db1]; [|discriminate].
  now intros [= <- _].
Qed.

(** So does every request to the review action, which refuses a rejection
    without a reason. *)
Lemma action_reasonInvariant now user formData db :
  reasonInvariant db = true ->
  reasonInvariant (snd (AdminIndex.action now user formData db)) = true.
Proof.
  intros Hinv. unfold AdminIndex.action.
  destruct (AdminIndex.noteId formData) as [id|]; [|exact Hinv].
  destruct (fieldIs "approve" _).
  { rewrite snd_then_ret.
    apply (updateNoteStatus_reasonInvariant now id approved None db);
      [discriminate | exact Hinv]. }
  destruct (fieldIs "reject" _).
  { destruct (truthy (AdminIndex.rejectionReason formData)) as [reason|];
      [|exact Hinv].
    rewrite snd_then_ret.
    apply (updateNoteStatus_reasonInvariant now id rejected (Some reason) db);
      [discriminate | exact Hinv]. }
  destruct (fieldIs "delete" _); [|exact Hinv].
  destruct (negb _); [exact Hinv|].
  rewrite snd_then_ret.
  apply (adminDeleteNote_reasonInvariant now id db Hinv).
Qed.

(** C4.  The invariant holds for every note of the seeded database, and it
    is lost when the owner edits the rejected note 103: [updateNote] sets the
    status to pending and leaves [rejectionReason] as it was, although
    [updateNoteStatus] clears the reason for every status other than
    rejected. *)
Theorem updateNote_breaks_reasonInvariant :
  reasonInvariant Seed.db = true
  /\ match updateNote 3000 Examples.resubmit Seed.db with
     | (Returned (UpdateNote (Some r)), db') =>
         note_status (nwr_note r) = pending
         /\ note_rejectionReason (nwr_note r) = Some "content does not match the pictures"
         /\ reasonMatchesStatus (nwr_note r) = false
         /\ reasonInvariant db' = false
     | _ => False
     end.
Proof. vm_compute. repeat split. Qed.

(** The service alone also loses it when it is asked to reject without a
    reason; only the guard of the review action keeps such a call away. *)
Lemma updateNoteStatus_rejected_without_reason :
  let (out, db') := updateNoteStatus 3000 102 rejected None Seed.db in
  out = Returned success_true /\ reasonInvariant db' = false.
Proof. vm_compute. split; reflexivity. Qed.

(** ** The review action *)

Lemma updateNoteStatus_eq now noteId status reason db :
  updateNoteStatus now noteId status reason db
  = if storable (optionalText (reasonSent status reason)) then
      (Returned success_true,
       {| users := users db;
          travelNotes :=
            updateRows now (reviewedNote status reason now)
              (fun n => N.eqb (note_id n) noteId) (travelNotes db);
          noteMedia := noteMedia db;
          noteMedia_id_seq := noteMedia_id_seq db |})
    else (Thrown (DatabaseError character_not_in_repertoire), db).
Proof.
  unfold updateNoteStatus, bind, updateTravelNotes.
  destruct (storable _); reflexivity.
Qed.

(** A reason is sent whole unless it holds U+0000. *)
Lemma storable_reason r : storable (optionalText (Some r)) = negb (hasNul r).
Proof. cbn. apply andb_true_r. Qed.

(** With a status other than rejected no reason is sent. *)
Lemma updateNoteStatus_other now noteId status reason db :
  status <> rejected ->
  updateNoteStatus now noteId status reason db
  = (Returned success_true,
     {| users := users db;
        travelNotes :=
          updateRows now (reviewedNote status reason now)
            (fun n => N.eqb (note_id n) noteId) (travelNotes db);
        noteMedia := noteMedia db;
        noteMedia_id_seq := noteMedia_id_seq db |}).
Proof.
  intros Hstatus. rewrite updateNoteStatus_eq.
  destruct status; [reflexivity | reflexivity | congruence].
Qed.

Lemma adminDeleteNote_eq now noteId db :
  adminDeleteNote now noteId db
  = (Returned success_true,
     {| users := users db;
        travelNotes :=
          updateRows now markDeleted (fun n => N.eqb (note_id n) noteId) (travelNotes db);
        noteMedia := noteMedia db;
        noteMedia_id_seq := noteMedia_id_seq db |}).
Proof. reflexivity. Qed.

(** What the review action does with a reject request that carries a
    reason. *)
Lemma reject_eq now user id r db :
  r <> "" ->
  AdminIndex.action now user (Examples.rejectForm id (Some r)) db
  = if hasNul r then (Thrown (DatabaseError character_not_in_repertoire), db)
    else
      (Returned (Json success_true),
       {| users := users db;
          travelNotes :=
            updateRows now (reviewedNote rejected (Some r) now)
              (fun n => N.eqb (note_id n) id) (travelNotes db);
          noteMedia := noteMedia db;
          noteMedia_id_seq := noteMedia_id_seq db |}).
Proof.
  intros Hr. unfold AdminIndex.action, Examples.rejectForm.
  cbn [AdminIndex.noteId AdminIndex._action AdminIndex.rejectionReason fieldIs].
  change (String.eqb "reject" "approve") with false.
  change (String.eqb "reject" "reject") with true. cbv iota.
  assert (Htruthy : truthy (Some r) = Some r) by (destruct r; [congruence | reflexivity]).
  rewrite Htruthy. unfold bind at 1. rewrite updateNoteStatus_eq.
  cbn [reasonSent]. rewrite storable_reason.
  destruct (hasNul r); reflexivity.
Qed.

(** C5, as the code has it.  A reject request whose reason is missing or
    empty is answered with the 400 error and leaves the database as it was.
    With a reason that the database can store, and a note of that id in the
    database, the request succeeds: [getNoteById] then returns the note as
    rejected with exactly that reason, and no other note has changed.  A
    reason that holds the character U+0000 is refused by the database: the
    action throws and nothing is stored. *)
Theorem reject_requires_reason now user id reason db :
  (reason = None \/ reason = Some "" ->
   AdminIndex.action now user (Examples.rejectForm id reason) db
   = (Returned (JsonError "拒绝原因不能为空" 400), db))
  /\ (forall r n,
        reason = Some r -> r <> "" -> hasNul r = false ->
        fst (getNoteById id db) = Returned (Some n) ->
        exists db' n',
          AdminIndex.action now user (Examples.rejectForm id reason) db
          = (Returned (Json success_true), db')
          /\ fst (getNoteById id db') = Returned (Some n')
          /\ note_status (nwr_note n') = rejected
          /\ note_rejectionReason (nwr_note n') = Some r
          /\ forall other, other <> id ->
               fst (getNoteById other db') = fst (getNoteById other db))
  /\ (forall r,
        reason = Some r -> hasNul r = true ->
        AdminIndex.action now user (Examples.rejectForm id reason) db
        = (Thrown (DatabaseError character_not_in_repertoire), db)).
Proof.
  split; [|split].
  - intros [-> | ->]; reflexivity.
  - intros r n -> Hr Hnul Hfound.
    rewrite getNoteById_eq in Hfound. cbn [fst] in Hfound.
    destruct (find (fun n0 => N.eqb (note_id n0) id) (travelNotes db)) as [n0|] eqn:Hfind;
      [|discriminate].
    rewrite (reject_eq now user id r db Hr), Hnul.
    eexists. eexists. split; [reflexivity|].
    rewrite getNoteById_eq. cbn [fst travelNotes].
    rewrite find_updateRows by reflexivity. rewrite Hfind. cbn [option_map].
    split; [reflexivity|]. split; [reflexivity|]. split; [reflexivity|].
    intros other Hother. rewrite !getNoteById_eq. cbn [fst travelNotes].
    rewrite find_updateRows_other by (reflexivity || congruence).
    unfold withRelations, mediaOf, findUser. cbn [noteMedia users]. reflexivity.
  - intros r -> Hnul.
    assert (Hr : r <> "") by (intros ->; discriminate).
    now rewrite (reject_eq now user id r db Hr), Hnul.
Qed.

Lemma reject_requires_reason_witness :
  AdminIndex.action 3000 Examples.reviewer (Examples.rejectForm 102 (Some "")) Seed.db
  = (Returned (JsonError "拒绝原因不能为空" 400), Seed.db)
  /\ (exists db' n',
        AdminIndex.action 3000 Examples.reviewer
          (Examples.rejectForm 102 (Some "blurry pictures")) Seed.db
        = (Returned (Json success_true), db')
        /\ fst (getNoteById 102 db') = Returned (Some n')
        /\ note_status (nwr_note n') = rejected
        /\ note_rejectionReason (nwr_note n') = Some "blurry pictures"
        /\ forall other, other <> 102%N ->
             fst (getNoteById other db') = fst (getNoteById other Seed.db))
  /\ AdminIndex.action 3000 Examples.reviewer
       (Examples.rejectForm 102 (Some Examples.withNul)) Seed.db
     = (Thrown (DatabaseError character_not_in_repertoire), Seed.db).
Proof.
  split; [|split].
  - apply (reject_requires_reason 3000 Examples.reviewer 102 (Some "") Seed.db).
    right. reflexivity.
  - apply (proj1 (proj2 (reject_requires_reason 3000 Examples.reviewer 102
                           (Some "blurry pictures") Seed.db))
             "blurry pictures" (withRelations Seed.db Seed.note2)).
    + reflexivity.
    + discriminate.
    + reflexivity.
    + reflexivity.
  - apply (proj2 (proj2 (reject_requires_reason 3000 Examples.reviewer 102
                           (Some Examples.withNul) Seed.db))
             Examples.withNul).
    + reflexivity.
    + reflexivity.
Defined.

(** C5, as stated, fails: a supplied reason is not always persisted.  The
    reviewer rejects the pending note 102 with a reason that holds the
    character U+0000; the database refuses the text, the action throws, and
    the note is still pending and without a reason. *)
Lemma reject_reason_not_persisted :
  let (out, db') :=
    AdminIndex.action 3000 Examples.reviewer
      (Examples.rejectForm 102 (Some Examples.withNul)) Seed.db in
  Examples.withNul <> ""
  /\ out = Thrown (DatabaseError character_not_in_repertoire)
  /\ match fst (getNoteById 102 db') with
     | Returned (Some n) =>
         note_status (nwr_note n) = pending /\ note_rejectionReason (nwr_note n) = None
     | _ => False
     end.
Proof. vm_compute. repeat split. discriminate. Qed.

(** C10, as the code has it.  For every note id, [adminDeleteNote] returns
    the success result, and so does [updateNoteStatus] unless it is asked to
    reject with a reason that holds the character U+0000: the database then
    refuses the statement and the error is thrown to the caller.  Neither
    function looks the note up: when no note has the id the database is left
    as it was, and the result is the one a note with the id would give. *)
Theorem admin_updates_report_success now noteId db :
  (forall status reason,
     (status = rejected -> forall r, reason = Some r -> hasNul r = false) ->
     fst (updateNoteStatus now noteId status reason db) = Returned success_true)
  /\ (forall r,
        hasNul r = true ->
        updateNoteStatus now noteId rejected (Some r) db
        = (Thrown (DatabaseError character_not_in_repertoire), db))
  /\ fst (adminDeleteNote now noteId db) = Returned success_true
  /\ (hasNote noteId db = false ->
      (forall status reason, snd (updateNoteStatus now noteId status reason db) = db)
      /\ snd (adminDeleteNote now noteId db) = db)
  /\ (forall n,
        find (fun n => N.eqb (note_id n) noteId) (travelNotes db) = Some n ->
        (forall status,
           status <> rejected ->
           find (fun n => N.eqb (note_id n) noteId)
             (travelNotes (snd (updateNoteStatus now noteId status None db)))
           = Some (reviewedNote status None now n))
        /\ find (fun n => N.eqb (note_id n) noteId)
             (travelNotes (snd (adminDeleteNote now noteId db)))
           = Some (onUpdate now (markDeleted n))).
Proof.
  split; [|split; [|split; [|split]]].
  - intros status reason Hreason. rewrite updateNoteStatus_eq.
    destruct status; try reflexivity.
    destruct reason as [r|]; [|reflexivity].
    cbn [reasonSent]. rewrite storable_reason, (Hreason eq_refl r eq_refl). reflexivity.
  - intros r Hnul. rewrite updateNoteStatus_eq. cbn [reasonSent].
    now rewrite storable_reason, Hnul.
  - reflexivity.
  - intros Hnone. unfold hasNote in Hnone. split.
    + intros status reason. rewrite updateNoteStatus_eq.
      destruct (storable _); [|reflexivity]. cbn [snd].
      rewrite updateRows_no_match by exact Hnone. apply database_eta.
    + rewrite adminDeleteNote_eq. cbn [snd].
      rewrite updateRows_no_match by exact Hnone. apply database_eta.
  - intros n Hfind. split.
    + intros status Hstatus. rewrite updateNoteStatus_eq.
      assert (Hsent : reasonSent status None = None) by (destruct status; reflexivity).
      rewrite Hsent. cbn [optionalText storable forallb snd travelNotes].
      rewrite find_updateRows by reflexivity. now rewrite Hfind.
    + rewrite adminDeleteNote_eq. cbn [snd travelNotes].
      rewrite find_updateRows by reflexivity. now rewrite Hfind.
Qed.

Lemma admin_updates_report_success_witness :
  hasNote 999 Seed.db = false
  /\ fst (updateNoteStatus 3000 999 approved None Seed.db) = Returned success_true
  /\ fst (updateNoteStatus 3000 999 rejected (Some "blurry pictures") Seed.db)
     = Returned success_true
  /\ fst (adminDeleteNote 3000 999 Seed.db) = Returned success_true
  /\ snd (updateNoteStatus 3000 999 approved None Seed.db) = Seed.db
  /\ snd (adminDeleteNote 3000 999 Seed.db) = Seed.db.
Proof.
  pose proof (admin_updates_report_success 3000 999 Seed.db) as [Hs [_ [Hd [Hnone _]]]].
  assert (Hfresh : hasNote 999 Seed.db = false) by reflexivity.
  destruct (Hnone Hfresh) as [Hs' Hd'].
  split; [exact Hfresh|].
  split; [apply Hs; discriminate|].
  split; [apply Hs; intros _ r [= <-]; reflexivity|].
  split; [exact Hd|].
  split; [apply Hs' | exact Hd'].
Defined.

(** C10, as stated, fails: not every call returns a success result.  Asked
    to reject with a reason that holds the character U+0000, for an id that
    no note has, [updateNoteStatus] throws the error of the database. *)
Lemma updateNoteStatus_throws :
  hasNote 999 Seed.db = false
  /\ updateNoteStatus 3000 999 rejected (Some Examples.withNul) Seed.db
     = (Thrown (DatabaseError character_not_in_repertoire), Seed.db).
Proof. vm_compute. split; reflexivity. Qed.

(** ** Visibility of a single note *)

Lemma getLoggedInUser_eq session db :
  getLoggedInUser session db = (fst (getLoggedInUser session db), db).
Proof. destruct session; reflexivity. Qed.

Lemma getLoggedInUser_returns session db :
  exists caller, fst (getLoggedInUser session db) = Returned caller.
Proof. destruct session; eexists; reflexivity. Qed.

Lemma NoteStatus_eqb_eq a b : NoteStatus_eqb a b = true <-> a = b.
Proof. destruct a, b; simpl; split; congruence. Qed.

Lemma UserRole_eqb_eq a b : UserRole_eqb a b = true <-> a = b.
Proof. destruct a, b; simpl; split; congruence. Qed.

(** The test of the loader hides exactly the notes that are not approved
    from the callers that are neither owner nor admin. *)
Lemma hidden_spec caller n :
  NoteDetail.hidden caller n = true
  <-> note_status n <> approved /\ ~ ownerOrAdmin caller n.
Proof.
  unfold NoteDetail.hidden, ownerOrAdmin.
  destruct (NoteStatus_eqb (note_status n) approved) eqn:Hstatus; cbn [negb andb].
  - apply NoteStatus_eqb_eq in Hstatus. split; [discriminate | tauto].
  - assert (Hne : note_status n <> approved).
    { intros H. apply NoteStatus_eqb_eq in H. congruence. }
    destruct caller as [u|]; [|split; auto].
    destruct (N.eqb_spec (su_id u) (note_userId n)) as [Hid|Hid]; cbn [negb andb].
    + split; [discriminate | tauto].
    + destruct (UserRole_eqb (su_role u) admin) eqn:Hrole; cbn [negb].
      * apply UserRole_eqb_eq in Hrole. split; [discriminate | tauto].
      * split; [|reflexivity]. intros _. split; [exact Hne|].
        intros [H|H]; [contradiction|].
        apply UserRole_eqb_eq in H. congruence.
Qed.

(** C6.  For a note that is not approved, the loader of the note page
    answers a caller who is neither its owner nor an admin (an anonymous
    caller included) with the 403 response, and gives the note to its owner
    and to an admin. *)
Theorem note_visibility db id session caller n :
  fst (getLoggedInUser session db) = Returned caller ->
  fst (getNoteById id db) = Returned (Some n) ->
  note_status (nwr_note n) <> approved ->
  (ownerOrAdmin caller (nwr_note n) ->
   exists data,
     fst (NoteDetail.loader (Some id) session db) = Returned (Json data)
     /\ NoteDetail.note data = n)
  /\ (~ ownerOrAdmin caller (nwr_note n) ->
      fst (NoteDetail.loader (Some id) session db)
      = Returned (ThrownResponse "该游记尚未审核通过，无法查看" 403)).
Proof.
  intros Hcaller Hnote Hstatus.
  assert (Hloader :
    fst (NoteDetail.loader (Some id) session db)
    = if NoteDetail.hidden caller (nwr_note n)
      then Returned (ThrownResponse "该游记尚未审核通过，无法查看" 403)
      else Returned
             (Json {| NoteDetail.note := n;
                      NoteDetail.isAuthor :=
                        match caller with
                        | Some u => N.eqb (su_id u) (note_userId (nwr_note n))
                        | None => false
                        end |})).
  { unfold NoteDetail.loader, bind.
    rewrite getLoggedInUser_eq, Hcaller.
    rewrite getNoteById_eq in *. cbn [fst] in Hnote. injection Hnote as ->.
    destruct (NoteDetail.hidden caller (nwr_note n)); reflexivity. }
  rewrite Hloader.
  destruct (NoteDetail.hidden caller (nwr_note n)) eqn:Hhidden.
  - apply hidden_spec in Hhidden as [_ Hnot]. split; [contradiction | reflexivity].
  - split.
    + intros _. eexists. split; reflexivity.
    + intros Hnot. assert (NoteDetail.hidden caller (nwr_note n) = true)
        by (apply hidden_spec; auto).
      congruence.
Qed.

(** The pending note 102 of user2: its owner and the admin get it, user1,
    the auditor and an anonymous caller get the 403 response. *)
Lemma note_visibility_witness :
  (exists data,
     fst (NoteDetail.loader (Some 102%N) (Some 2%N) Seed.db) = Returned (Json data)
     /\ NoteDetail.note data = withRelations Seed.db Seed.note2)
  /\ (exists data,
        fst (NoteDetail.loader (Some 102%N) (Some 3%N) Seed.db) = Returned (Json data)
        /\ NoteDetail.note data = withRelations Seed.db Seed.note2)
  /\ fst (NoteDetail.loader (Some 102%N) (Some 1%N) Seed.db)
     = Returned (ThrownResponse "该游记尚未审核通过，无法查看" 403)
  /\ fst (NoteDetail.loader (Some 102%N) (Some 4%N) Seed.db)
     = Returned (ThrownResponse "该游记尚未审核通过，无法查看" 403)
  /\ fst (NoteDetail.loader (Some 102%N) None Seed.db)
     = Returned (ThrownResponse "该游记尚未审核通过，无法查看" 403).
Proof.
  assert (Hnote : fst (getNoteById 102 Seed.db)
                  = Returned (Some (withRelations Seed.db Seed.note2))) by reflexivity.
  assert (Hstatus : note_status (nwr_note (withRelations Seed.db Seed.note2)) <> approved)
    by discriminate.
  split; [|split; [|split; [|split]]].
  - apply (note_visibility Seed.db 102 (Some 2%N) _ _ eq_refl Hnote Hstatus).
    left. reflexivity.
  - apply (note_visibility Seed.db 102 (Some 3%N) _ _ eq_refl Hnote Hstatus).
    right. reflexivity.
  - apply (note_visibility Seed.db 102 (Some 1%N) _ _ eq_refl Hnote Hstatus).
    intros [H|H]; discriminate.
  - apply (note_visibility Seed.db 102 (Some 4%N) _ _ eq_refl Hnote Hstatus).
    intros [H|H]; discriminate.
  - apply (note_visibility Seed.db 102 None _ _ eq_refl Hnote Hstatus).
    intros [].
Defined.

(** ** Listings and logically deleted notes *)

Lemma getPublishedNotes_rows limit offset db notes db' r :
  getPublishedNotes limit offset db = (Returned notes, db') ->
  In r notes ->
  exists n,
    r = withRelations db n /\ In n (travelNotes db)
    /\ note_status n = approved /\ note_isDeleted n = false.
Proof.
  unfold getPublishedNotes, tryCatch, paged, throw, ret, query.
  destruct (default 0 offset <? 0); [intros [= <- _] []|].
  intros [= <- _] Hin.
  apply In_limitOffset, in_map_iff in Hin as [n [<- Hn]].
  apply In_sortBy, filter_In in Hn as [Hn Hcond].
  apply andb_true_iff in Hcond as [Hstatus Hdeleted].
  exists n. split; [reflexivity|]. split; [exact Hn|].
  split; [now apply NoteStatus_eqb_eq|].
  destruct (note_isDeleted n); [discriminate | reflexivity].
Qed.

Lemma getNotesForReview_rows args db page db' r :
  getNotesForReview args db = (Returned page, db') ->
  In r (rp_notes page) ->
  exists n,
    r = selectReviewRow db n /\ In n (travelNotes db) /\ note_isDeleted n = false.
Proof.
  unfold getNotesForReview, bind, paged, throw, ret, query.
  destruct (_ <? 0); [discriminate|].
  intros [= <- _] Hin. cbn [rp_notes] in Hin.
  apply In_limitOffset, in_map_iff in Hin as [n [<- Hn]].
  apply In_sortBy, filter_In in Hn as [Hn Hcond].
  unfold whereConditions in Hcond.
  apply andb_true_iff in Hcond as [Hcond _].
  apply andb_true_iff in Hcond as [Hdeleted _].
  exists n. split; [reflexivity|]. split; [exact Hn|].
  destruct (note_isDeleted n); [discriminate | reflexivity].
Qed.

Lemma myNotes_rows session db notes db' r :
  MyNotes.loader session db = (Returned (Json notes), db') ->
  In r notes ->
  note_isDeleted (nwr_note r) = false.
Proof.
  unfold MyNotes.loader, requireLoggedInUser, bind.
  rewrite getLoggedInUser_eq.
  destruct (fst (getLoggedInUser session db)) as [[u|]|e]; try discriminate.
  unfold getUserNotes, tryCatch, query, ret.
  intros [= <- _] Hin. apply filter_In in Hin as [_ Hactive].
  destruct (note_isDeleted (nwr_note r)); [discriminate | reflexivity].
Qed.

(** C2, as the code has it.  A note with [isDeleted = true] is in no page of
    [getPublishedNotes], in no page of [getNotesForReview], and not in the
    list the page of the user's own notes shows, whatever its status.  That
    page filters the result of [getUserNotes]; [getUserNotes] itself does
    not. *)
Theorem deleted_note_not_listed db n :
  note_isDeleted n = true ->
  (forall limit offset notes db',
     getPublishedNotes limit offset db = (Returned notes, db') ->
     ~ In (withRelations db n) notes)
  /\ (forall args page db',
        getNotesForReview args db = (Returned page, db') ->
        ~ In (selectReviewRow db n) (rp_notes page))
  /\ (forall session notes db',
        MyNotes.loader session db = (Returned (Json notes), db') ->
        ~ In (withRelations db n) notes).
Proof.
  intros Hdeleted. split; [|split].
  - intros limit offset notes db' Hlist Hin.
    destruct (getPublishedNotes_rows _ _ _ _ _ _ Hlist Hin) as [n' [Heq [_ [_ Hn']]]].
    apply (f_equal nwr_note) in Heq. cbn in Heq. congruence.
  - intros args page db' Hlist Hin.
    destruct (getNotesForReview_rows _ _ _ _ _ Hlist Hin) as [n' [Heq [_ Hn']]].
    apply (f_equal rv_isDeleted) in Heq. cbn in Heq. congruence.
  - intros session notes db' Hlist Hin.
    pose proof (myNotes_rows _ _ _ _ _ Hlist Hin) as H. cbn in H. congruence.
Qed.

(** Note 103 after its owner deleted it: absent from the first page of the
    published notes, from the review list and from the owner's page. *)
Lemma deleted_note_not_listed_witness :
  let db := Examples.afterOwnerDelete in
  let n := markDeleted (onUpdate 3000 Seed.note3) in
  In n (travelNotes db)
  /\ ~ In (withRelations db n)
         [withRelations db Seed.note1]
  /\ ~ In (selectReviewRow db n)
         [selectReviewRow db Seed.note2; selectReviewRow db Seed.note1]
  /\ ~ In (withRelations db n)
         [withRelations db Seed.note1].
Proof.
  intros db n.
  destruct (deleted_note_not_listed db n eq_refl) as [Hpublished [Hreview Hmine]].
  split; [right; right; left; reflexivity|].
  split; [|split].
  - apply (Hpublished None None _ db). reflexivity.
  - apply (Hreview {| ra_status := None; ra_page := None; ra_limit := None;
                      ra_search := None |}
             {| rp_notes := [selectReviewRow db Seed.note2; selectReviewRow db Seed.note1];
                rp_pagination :=
                  {| pg_page := 1; pg_limit := 10; pg_total := 2;
                     pg_totalPages := Some 1 |} |} db).
    reflexivity.
  - apply (Hmine (Some 1%N) _ db). reflexivity.
Defined.

(** C2, as stated, fails for [getUserNotes]: it selects by owner only, and
    the note 103 that user1 deleted is still in its result. *)
Lemma getUserNotes_lists_deleted :
  let db := Examples.afterOwnerDelete in
  exists n notes,
    In n (travelNotes db)
    /\ note_isDeleted n = true
    /\ fst (getUserNotes 1 db) = Returned notes
    /\ In (withRelations db n) notes.
Proof.
  exists (markDeleted (onUpdate 3000 Seed.note3)). eexists.
  split; [right; right; left; reflexivity|].
  split; [reflexivity|].
  split; [reflexivity|].
  left. reflexivity.
Qed.

(** ** The order of the media *)

(** [getNoteDetails] returns the media in ascending [order]: the same rows
    as [media: true] gives, sorted. *)
Lemma getNoteDetails_media_sorted noteId db d db' :
  getNoteDetails noteId db = (Returned d, db') ->
  StronglySorted (ascending media_order) (nd_media d)
  /\ Permutation (nd_media d) (mediaOf noteId db).
Proof.
  unfold getNoteDetails, bind, query, throw.
  destruct (find (fun n => N.eqb (note_id n) noteId) (travelNotes db)) as [n|] eqn:Hfind;
    [|discriminate].
  intros [= <- _]. cbn [nd_media].
  apply find_some in Hfind as [_ Hid]. apply N.eqb_eq in Hid. rewrite Hid.
  split; [apply sortBy_asc_sorted | apply sortBy_Permutation].
Qed.

(** [getNoteById] returns them as they are stored. *)
Lemma getNoteById_media id db r :
  fst (getNoteById id db) = Returned (Some r) ->
  nwr_media r = mediaOf id db.
Proof.
  rewrite getNoteById_eq. cbn [fst].
  destruct (find (fun n => N.eqb (note_id n) id) (travelNotes db)) as [n|] eqn:Hfind;
    [|discriminate].
  intros [= <-]. cbn [nwr_media withRelations].
  apply find_some in Hfind as [_ Hid]. apply N.eqb_eq in Hid. now rewrite Hid.
Qed.

(** C3.  [createNote] with the media list [a(order=2), b(order=0),
    c(order=1)]: the note it returns, which is what [getNoteById] returns
    for the new id, has the media in the order [a, b, c] of the insert, not
    in the order [b, c, a] of the [order] column.  [getNoteDetails], which
    asks for [asc(noteMedia.order)], returns [b, c, a]. *)
Theorem getNoteById_media_not_sorted :
  match createNote 3000 200 Examples.unordered Seed.db with
  | (Returned (Some r), db') =>
      fst (getNoteById 200 db') = Returned (Some r)
      /\ map media_url (nwr_media r) = ["a.jpg"; "b.jpg"; "c.mp4"]
      /\ map media_order (nwr_media r) = [2; 0; 1]
      /\ match fst (getNoteDetails 200 db') with
         | Returned d => map media_url (nd_media d) = ["b.jpg"; "c.mp4"; "a.jpg"]
         | Thrown _ => False
         end
  | _ => False
  end.
Proof. vm_compute. repeat split. Qed.

(** ** Popular destinations *)

Lemma sameLocation_eq a b : Index.sameLocation a b = true <-> a = b.
Proof.
  destruct a as [x|], b as [y|]; simpl; try (split; congruence).
  rewrite String.eqb_eq. split; congruence.
Qed.

Lemma sameLocation_refl a : Index.sameLocation a a = true.
Proof. now apply sameLocation_eq. Qed.

Lemma groupCount_addToGroup l l' groups :
  groupCount l (Index.addToGroup l' groups)
  = groupCount l groups + (if Index.sameLocation l' l then 1 else 0).
Proof.
  unfold groupCount. induction groups as [|g groups IH]; simpl.
  - destruct (Index.sameLocation l' l); reflexivity.
  - destruct (Index.sameLocation (Index.location g) l') eqn:Hg; simpl.
    + apply sameLocation_eq in Hg. subst l'.
      destruct (Index.sameLocation (Index.location g) l); simpl; lia.
    + destruct (Index.sameLocation (Index.location g) l) eqn:Hgl; simpl.
      * destruct (Index.sameLocation l' l) eqn:Hl; [|lia].
        apply sameLocation_eq in Hgl, Hl. subst.
        rewrite sameLocation_refl in Hg. discriminate.
      * exact IH.
Qed.

Lemma groupCount_fold l rows groups :
  groupCount l (fold_left (fun gs n => Index.addToGroup (note_location n) gs) rows groups)
  = groupCount l groups + notesAt l rows.
Proof.
  revert groups. induction rows as [|n rows IH]; intros groups; simpl.
  - unfold notesAt. simpl. lia.
  - rewrite IH, groupCount_addToGroup. unfold notesAt. simpl.
    destruct (Index.sameLocation (note_location n) l); simpl List.length; lia.
Qed.

Lemma addToGroup_locations l groups :
  map Index.location (Index.addToGroup l groups)
  = if existsb (fun g => Index.sameLocation (Index.location g) l) groups
    then map Index.location groups else (map Index.location groups ++ [l])%list.
Proof.
  induction groups as [|g groups IH]; simpl; [reflexivity|].
  destruct (Index.sameLocation (Index.location g) l) eqn:Hg; simpl; [reflexivity|].
  rewrite IH. destruct (existsb _ groups); reflexivity.
Qed.

Lemma addToGroup_NoDup l groups :
  NoDup (map Index.location groups) ->
  NoDup (map Index.location (Index.addToGroup l groups)).
Proof.
  intros Hnd. rewrite addToGroup_locations.
  destruct (existsb _ groups) eqn:Hex; [exact Hnd|].
  apply NoDup_app; [exact Hnd | repeat constructor; intros [] |].
  intros x Hx [Heq|[]]. subst x.
  apply in_map_iff in Hx as [g [Hg Hin]].
  assert (existsb (fun g => Index.sameLocation (Index.location g) l) groups = true).
  { apply existsb_exists. exists g. split; [exact Hin|]. now apply sameLocation_eq. }
  congruence.
Qed.

Lemma NoDup_fold rows groups :
  NoDup (map Index.location groups) ->
  NoDup (map Index.location
           (fold_left (fun gs n => Index.addToGroup (note_location n) gs) rows groups)).
Proof.
  revert groups. induction rows as [|n rows IH]; intros groups Hnd; simpl; [exact Hnd|].
  apply IH, addToGroup_NoDup, Hnd.
Qed.

Lemma groupCount_In g groups :
  NoDup (map Index.location groups) -> In g groups ->
  groupCount (Index.location g) groups = Index.count g.
Proof.
  unfold groupCount. induction groups as [|h groups IH]; simpl; [tauto|].
  intros Hnd [->|Hin].
  - now rewrite sameLocation_refl.
  - inversion Hnd as [|? ? Hh Hnd']; subst.
    destruct (Index.sameLocation (Index.location h) (Index.location g)) eqn:Hhg; [|auto].
    apply sameLocation_eq in Hhg. exfalso. apply Hh. rewrite Hhg.
    apply in_map, Hin.
Qed.

Lemma groupByLocation_count rows g :
  In g (Index.groupByLocation rows) -> Index.count g = notesAt (Index.location g) rows.
Proof.
  intros Hin. unfold Index.groupByLocation in *.
  rewrite <- (groupCount_In g _ (NoDup_fold rows [] (NoDup_nil _)) Hin).
  rewrite groupCount_fold. reflexivity.
Qed.

Lemma groupByLocation_complete rows n :
  In n rows -> In (note_location n) (map Index.location (Index.groupByLocation rows)).
Proof.
  intros Hin.
  assert (H : 0 < groupCount (note_location n) (Index.groupByLocation rows)).
  { unfold Index.groupByLocation. rewrite groupCount_fold.
    unfold groupCount, notesAt. simpl.
    assert (In n (filter (fun m => Index.sameLocation (note_location m) (note_location n))
                    rows))
      by (apply filter_In; split; [exact Hin | apply sameLocation_refl]).
    destruct (filter _ rows); [contradiction | simpl; lia]. }
  unfold groupCount in H.
  destruct (find _ (Index.groupByLocation rows)) as [g|] eqn:Hfind; [|lia].
  apply find_some in Hfind as [Hg Hloc]. apply sameLocation_eq in Hloc.
  rewrite <- Hloc. apply in_map, Hg.
Qed.

Lemma StronglySorted_firstn {A} (R : A -> A -> Prop) k l :
  StronglySorted R l -> StronglySorted R (firstn k l).
Proof.
  intros Hl. revert k. induction Hl as [|x l Hl IH Hx]; intros [|k]; simpl; try constructor.
  - apply IH.
  - apply Forall_forall. intros y Hy. apply In_firstn in Hy.
    revert y Hy. now apply Forall_forall.
Qed.

Lemma NoDup_firstn {A} k (l : list A) : NoDup l -> NoDup (firstn k l).
Proof.
  intros Hl. revert k. induction Hl as [|x l Hx Hl IH]; intros [|k]; simpl; try constructor.
  - intros Hin. apply Hx. eapply In_firstn, Hin.
  - apply IH.
Qed.

(** What the aggregation returns: at most six groups, in descending order
    of their counts, one per location, each counting every approved note of
    its location. *)
Lemma popularDestinations_spec db groups :
  fst (Index.popularDestinations db) = Returned groups ->
  (List.length groups <= 6)%nat
  /\ StronglySorted (descending Index.count) groups
  /\ NoDup (map Index.location groups)
  /\ forall g, In g groups ->
       Index.count g
       = notesAt (Index.location g)
           (filter (fun n => NoteStatus_eqb (note_status n) approved) (travelNotes db)).
Proof.
  unfold Index.popularDestinations, query.
  set (approvedNotes := filter _ (travelNotes db)).
  set (sorted := sortBy (desc Index.count) (Index.groupByLocation approvedNotes)).
  cbn [fst]. intros H.
  assert (Hgroups : groups = firstn 6 sorted) by congruence.
  clear H. subst groups.
  split; [apply firstn_le_length|].
  split; [apply StronglySorted_firstn, sortBy_desc_sorted|].
  split.
  - rewrite <- firstn_map. apply NoDup_firstn.
    eapply Permutation_NoDup.
    + apply Permutation_sym, Permutation_map, sortBy_Permutation.
    + apply NoDup_fold. constructor.
  - intros g Hg. apply groupByLocation_count.
    apply In_firstn in Hg. now apply In_sortBy in Hg.
Qed.

(** C8.  After the admin deleted the approved note 101, the home page lists
    no published note, and its popular destinations still count the deleted
    note: the aggregation selects by status only, while [getPublishedNotes]
    in the same loader also requires [isDeleted = false]. *)
Theorem popularDestinations_counts_deleted :
  let db := Examples.afterAdminDelete in
  map (fun n => (note_id n, note_status n, note_isDeleted n)) (travelNotes db)
  = [(101%N, approved, true); (102%N, pending, false); (103%N, rejected, false)]
  /\ fst (getPublishedNotes (Some 20) None db) = Returned []
  /\ fst (Index.popularDestinations db)
     = Returned [{| Index.location := Some "Yunnan, Lijiang"; Index.count := 1 |}].
Proof. vm_compute. repeat split. Qed.

(** * Further properties *)

(** ** Ownership *)

Lemma findOwnedNote_none id userId db :
  (forall n, In n (travelNotes db) -> note_id n = id -> note_userId n <> userId) ->
  findOwnedNote id userId db = None.
Proof.
  intros Hnone. unfold findOwnedNote.
  destruct (find _ (travelNotes db)) as [n|] eqn:Hfind; [|reflexivity].
  apply find_some in Hfind as [Hin Hn]. apply andb_true_iff in Hn as [Hid Huser].
  apply N.eqb_eq in Hid, Huser. now elim (Hnone n Hin Hid).
Qed.

(** The first note with an id, when the caller owns it, is the note the
    ownership check finds. *)
Lemma findOwnedNote_first id userId db n :
  find (fun n => N.eqb (note_id n) id) (travelNotes db) = Some n ->
  note_userId n = userId ->
  findOwnedNote id userId db = Some n.
Proof.
  unfold findOwnedNote. induction (travelNotes db) as [|r rows IH]; simpl; [discriminate|].
  destruct (N.eqb (note_id r) id) eqn:Hr; simpl.
  - intros [= ->] <-. now rewrite N.eqb_refl.
  - exact IH.
Qed.

Lemma deleteNote_not_found now id userId db :
  findOwnedNote id userId db = None ->
  deleteNote now id userId db = (Returned (DeleteError NOTE_NOT_FOUND), db).
Proof.
  intros Hnone. unfold deleteNote, tryCatch, bind, query. now rewrite Hnone.
Qed.

(** X1.  [deleteNote] and [updateNote] answer [NOTE_NOT_FOUND] and leave
    the database as it was when no note with the id belongs to the caller,
    whether the id is unknown or the note is someone else's. *)
Theorem not_owned_changes_nothing now id userId db :
  (forall n, In n (travelNotes db) -> note_id n = id -> note_userId n <> userId) ->
  deleteNote now id userId db = (Returned (DeleteError NOTE_NOT_FOUND), db)
  /\ forall title content location media,
       updateNote now
         {| un_id := id; un_userId := userId; un_title := title;
            un_content := content; un_location := location; un_media := media |} db
       = (Returned (UpdateError NOTE_NOT_FOUND), db).
Proof.
  intros Hnone. apply findOwnedNote_none in Hnone. split.
  - now apply deleteNote_not_found.
  - intros title content location media.
    unfold updateNote, tryCatch, bind, query. cbn [un_id un_userId]. now rewrite Hnone.
Qed.

(** user2 does not own note 103, and nobody owns note 999. *)
Lemma not_owned_changes_nothing_witness :
  deleteNote 3000 103 2 Seed.db = (Returned (DeleteError NOTE_NOT_FOUND), Seed.db)
  /\ deleteNote 3000 999 1 Seed.db = (Returned (DeleteError NOTE_NOT_FOUND), Seed.db)
  /\ updateNote 3000
       {| un_id := 103; un_userId := 2; un_title := "mine now";
          un_content := "..."; un_location := None; un_media := [] |} Seed.db
     = (Returned (UpdateError NOTE_NOT_FOUND), Seed.db).
Proof.
  assert (H1 : forall n, In n (travelNotes Seed.db) -> note_id n = 103%N ->
                         note_userId n <> 2%N).
  { intros n [<-|[<-|[<-|[]]]]; discriminate. }
  assert (H2 : forall n, In n (travelNotes Seed.db) -> note_id n = 999%N ->
                         note_userId n <> 1%N).
  { intros n [<-|[<-|[<-|[]]]]; discriminate. }
  split; [apply (not_owned_changes_nothing 3000 103 2 Seed.db H1)|].
  split; [apply (not_owned_changes_nothing 3000 999 1 Seed.db H2)|].
  apply (not_owned_changes_nothing 3000 103 2 Seed.db H1).
Defined.

Lemma find_updateRows_owned now set id userId rows :
  (forall n, note_id (set n) = note_id n) ->
  (forall n, note_userId (set n) = note_userId n) ->
  find (fun n => N.eqb (note_id n) id && N.eqb (note_userId n) userId)
    (updateRows now set (fun n => N.eqb (note_id n) id) rows)
  = option_map (fun n => onUpdate now (set n))
      (find (fun n => N.eqb (note_id n) id && N.eqb (note_userId n) userId) rows).
Proof.
  intros Hid Huser. induction rows as [|r rows IH]; simpl; [reflexivity|].
  destruct (N.eqb (note_id r) id) eqn:Hr; simpl.
  - rewrite Hid, Huser, Hr. simpl.
    destruct (N.eqb (note_userId r) userId); [reflexivity | exact IH].
  - rewrite Hr. simpl. exact IH.
Qed.

Lemma deleteNote_eq now id userId db n :
  findOwnedNote id userId db = Some n ->
  deleteNote now id userId db
  = (Returned DeleteSuccess,
     {| users := users db;
        travelNotes :=
          updateRows now markDeleted (fun n => N.eqb (note_id n) id) (travelNotes db);
        noteMedia := noteMedia db;
        noteMedia_id_seq := noteMedia_id_seq db |}).
Proof.
  intros Hown. unfold deleteNote, tryCatch, bind, query. rewrite Hown. reflexivity.
Qed.

(** X2.  The owner's [deleteNote] succeeds and only hides the note:
    [getNoteById] still returns it, now with [isDeleted = true], with the
    status, the rejection reason, the text and the media it had.  Deleting
    it again succeeds as well. *)
Theorem deleteNote_only_hides now id userId db r :
  fst (getNoteById id db) = Returned (Some r) ->
  note_userId (nwr_note r) = userId ->
  exists db' r',
    deleteNote now id userId db = (Returned DeleteSuccess, db')
    /\ fst (getNoteById id db') = Returned (Some r')
    /\ note_isDeleted (nwr_note r') = true
    /\ note_status (nwr_note r') = note_status (nwr_note r)
    /\ note_rejectionReason (nwr_note r') = note_rejectionReason (nwr_note r)
    /\ noteText (nwr_note r') = noteText (nwr_note r)
    /\ nwr_media r' = nwr_media r
    /\ noteMedia db' = noteMedia db
    /\ forall later, fst (deleteNote later id userId db') = Returned DeleteSuccess.
Proof.
  intros Hfound Hown. rewrite getNoteById_eq in Hfound. cbn [fst] in Hfound.
  destruct (find (fun n => N.eqb (note_id n) id) (travelNotes db)) as [n|] eqn:Hfind;
    [|discriminate].
  injection Hfound as <-. cbn [nwr_note withRelations] in Hown.
  pose proof (findOwnedNote_first _ _ _ _ Hfind Hown) as Howned.
  eexists. eexists. split; [apply (deleteNote_eq now id userId db n Howned)|].
  rewrite getNoteById_eq. cbn [fst travelNotes].
  rewrite find_updateRows by reflexivity. rewrite Hfind. cbn [option_map].
  split; [reflexivity|]. repeat (split; [reflexivity|]).
  intros later. erewrite deleteNote_eq; [reflexivity|].
  unfold findOwnedNote. cbn [travelNotes].
  rewrite find_updateRows_owned by reflexivity.
  unfold findOwnedNote in Howned. rewrite Howned. reflexivity.
Qed.

Lemma deleteNote_only_hides_witness :
  exists db' r',
    deleteNote 3000 103 1 Seed.db = (Returned DeleteSuccess, db')
    /\ fst (getNoteById 103 db') = Returned (Some r')
    /\ note_isDeleted (nwr_note r') = true
    /\ note_status (nwr_note r') = rejected
    /\ note_rejectionReason (nwr_note r') = Some "content does not match the pictures"
    /\ noteText (nwr_note r') = noteText Seed.note3
    /\ nwr_media r' = mediaOf 103 Seed.db
    /\ noteMedia db' = noteMedia Seed.db
    /\ forall later, fst (deleteNote later 103 1 db') = Returned DeleteSuccess.
Proof.
  exact (deleteNote_only_hides 3000 103 1 Seed.db (withRelations Seed.db Seed.note3)
           eq_refl eq_refl).
Defined.

(** ** Edits and the media of a note *)

Lemma filter_filter_negb {A} (f : A -> bool) l :
  filter f (filter (fun x => negb (f x)) l) = [].
Proof.
  induction l as [|x l IH]; simpl; [reflexivity|].
  destruct (f x) eqn:Hx; simpl; [exact IH | now rewrite Hx].
Qed.

Lemma filter_all {A} (f : A -> bool) l : Forall (fun x => f x = true) l -> filter f l = l.
Proof.
  induction 1 as [|x l Hx Hl IH]; simpl; [reflexivity | now rewrite Hx, IH].
Qed.

Lemma filter_none {A} (f : A -> bool) l : Forall (fun x => f x = false) l -> filter f l = [].
Proof.
  induction 1 as [|x l Hx Hl IH]; simpl; [reflexivity | now rewrite Hx].
Qed.

Lemma filter_other_id id id' (l : list NoteMedia) :
  id' <> id ->
  filter (fun m => N.eqb (media_noteId m) id')
    (filter (fun m => negb (N.eqb (media_noteId m) id)) l)
  = filter (fun m => N.eqb (media_noteId m) id') l.
Proof.
  intros Hne. induction l as [|m l IH]; simpl; [reflexivity|].
  destruct (N.eqb_spec (media_noteId m) id) as [Hm|Hm]; simpl.
  - rewrite IH. destruct (N.eqb_spec (media_noteId m) id'); [congruence | reflexivity].
  - now rewrite IH.
Qed.

Lemma newNoteMedia_columns now lastId rows :
  map mediaColumns (newNoteMedia now lastId rows) = map valuesColumns rows.
Proof.
  unfold newNoteMedia. generalize (lastId + 1). induction rows as [|r rows IH]; intros i; simpl.
  - reflexivity.
  - now rewrite IH.
Qed.

(** What [updateNote] does for a note of the caller, by the checks of the
    database: the update of the note is refused and nothing is written; or
    the note is rewritten and its media are deleted, and then the new media
    are refused; or they are stored and the note is read back. *)
Lemma updateNote_eq now args db existing :
  findOwnedNote (un_id args) (un_userId args) db = Some existing ->
  updateNote now args db
  = match (if noteUpdatable args existing then varchar255 (un_title args) else None) with
    | None => (Returned (UpdateError UPDATE_FAILED), db)
    | Some title =>
        let notes :=
          updateRows now (fun n => titled title (editedNote args existing now n))
            (fun n => N.eqb (note_id n) (un_id args)) (travelNotes db) in
        let kept :=
          filter (fun m => negb (N.eqb (media_noteId m) (un_id args))) (noteMedia db) in
        if mediaReplaceable args then
          let db' :=
            {| users := users db;
               travelNotes := notes;
               noteMedia :=
                 kept ++ newNoteMedia now (noteMedia_id_seq db)
                           (mediaRows (un_id args) (un_media args));
               noteMedia_id_seq :=
                 noteMedia_id_seq db + Z.of_nat (List.length (un_media args)) |} in
          (Returned
             (UpdateNote
                (option_map (withRelations db')
                   (find (fun n => N.eqb (note_id n) (un_id args)) notes))),
           db')
        else
          (Returned (UpdateError UPDATE_FAILED),
           {| users := users db;
              travelNotes := notes;
              noteMedia := kept;
              noteMedia_id_seq := noteMedia_id_seq db |})
    end.
Proof.
  intros Hown. pose proof (findOwnedNote_hasNote _ _ _ _ Hown) as Hexists.
  unfold noteUpdatable, mediaReplaceable.
  unfold updateNote, tryCatch, bind, query. rewrite Hown.
  unfold updateTravelNotes, fitted.
  destruct (storable (un_title args :: _)); cbn [negb andb]; [|reflexivity].
  destruct (varchar255 (un_title args)) as [title|]; cbn [option_map].
  2:{ unfold hasNote in Hexists. now rewrite Hexists. }
  destruct (hasNote_find _ _ Hexists) as [current Hcur].
  destruct (filter _ (travelNotes db)) as [|f fs] eqn:Hfilter.
  { exfalso. apply find_some in Hcur as [Hin Hid].
    assert (Hf : In current
                   (filter (fun n => N.eqb (note_id n) (un_id args)) (travelNotes db)))
      by (apply filter_In; auto).
    rewrite Hfilter in Hf. exact Hf. }
  cbn [map]. unfold deleteNoteMedia, insertMediaList.
  destruct (un_media args) as [|m media] eqn:Hlist.
  - cbn. unfold ret, getNoteById, tryCatch, query. cbn.
    now rewrite app_nil_r, Z.add_0_r.
  - unfold insertNoteMedia. rewrite mediaRows_urls.
    destruct (storable (map mi_url (m :: media))); cbn [negb andb]; [|reflexivity].
    destruct (forallb (fun r => int4 (mv_order r)) (mediaRows (un_id args) (m :: media)));
      cbn [negb]; [|reflexivity].
    match goal with |- context [forallb ?f (mediaRows (un_id args) (m :: media))] =>
      assert (Hfk : forallb f (mediaRows (un_id args) (m :: media)) = true) end.
    { apply forallb_forall. intros r Hr.
      assert (Hid : mv_noteId r = un_id args).
      { revert r Hr. apply Forall_forall, mediaRows_noteId. }
      rewrite Hid. unfold hasNote. cbn [travelNotes].
      rewrite hasId_updateRows by reflexivity. exact Hexists. }
    rewrite Hfk. cbn [negb]. unfold ret, getNoteById, tryCatch, query.
    cbn [users travelNotes noteMedia noteMedia_id_seq].
    now rewrite mediaRows_length.
Qed.

(** What a successful [updateNote] leaves in the table of media: the rows of
    the other notes, then the rows of the new media list. *)
Lemma updateNote_media now args db found db' :
  updateNote now args db = (Returned (UpdateNote found), db') ->
  users db' = users db
  /\ noteMedia db'
     = (filter (fun m => negb (N.eqb (media_noteId m) (un_id args))) (noteMedia db)
        ++ newNoteMedia now (noteMedia_id_seq db)
             (mediaRows (un_id args) (un_media args)))%list.
Proof.
  intros Hupdate. pose proof (updateNote_cases now args db) as H.
  rewrite Hupdate in H. destruct H as [existing [_ [_ [Hown _]]]].
  rewrite (updateNote_eq now args db existing Hown) in Hupdate.
  destruct (if noteUpdatable args existing then _ else _) as [title|]; [|discriminate].
  cbv zeta in Hupdate.
  destruct (mediaReplaceable args); [|discriminate].
  injection Hupdate as _ <-. split; reflexivity.
Qed.

(** X3.  A successful [updateNote] replaces the media of the note: the
    note comes back with exactly one row per entry of the new list, in the
    order of the list, each with the type, the URL and the order of its
    entry (the index when the entry has no order).  The media of every other
    note stay as they were. *)
Theorem updateNote_replaces_media now args db found db' :
  updateNote now args db = (Returned (UpdateNote found), db') ->
  exists r,
    found = Some r
    /\ map mediaColumns (nwr_media r)
       = map valuesColumns (mediaRows (un_id args) (un_media args))
    /\ List.length (nwr_media r) = List.length (un_media args)
    /\ forall id, id <> un_id args -> mediaOf id db' = mediaOf id db.
Proof.
  intros Hupdate.
  destruct (updateNote_media _ _ _ _ _ Hupdate) as [_ Hmedia].
  pose proof (updateNote_cases now args db) as H. rewrite Hupdate in H.
  destruct H as [existing [current [title [_ [Hcur [_ [-> _]]]]]]].
  apply find_some in Hcur as [_ Hid]. apply N.eqb_eq in Hid.
  eexists. split; [reflexivity|].
  cbn [nwr_media withRelations note_id editedNote titled].
  assert (Hnew : mediaOf (note_id current) db'
                 = newNoteMedia now (noteMedia_id_seq db)
                     (mediaRows (un_id args) (un_media args))).
  { unfold mediaOf. rewrite Hmedia, Hid, filter_app, filter_filter_negb. cbn [app].
    apply filter_all.
    eapply Forall_impl; [|apply newNoteMedia_noteId, mediaRows_noteId].
    cbn. intros m ->. apply N.eqb_refl. }
  rewrite Hnew. split; [apply newNoteMedia_columns|].
  split; [now rewrite newNoteMedia_length, mediaRows_length|].
  intros id Hne. unfold mediaOf. rewrite Hmedia, filter_app.
  rewrite filter_other_id by exact Hne.
  rewrite (filter_none _ (newNoteMedia _ _ _)); [apply app_nil_r|].
  eapply Forall_impl; [|apply newNoteMedia_noteId, mediaRows_noteId].
  cbn. intros m ->. now apply N.eqb_neq, not_eq_sym.
Qed.

Lemma updateNote_replaces_media_witness :
  exists found db' r,
    updateNote 3000 Examples.resubmit Seed.db = (Returned (UpdateNote found), db')
    /\ found = Some r
    /\ map mediaColumns (nwr_media r) = [(image, "b.jpg", 0)]
    /\ List.length (nwr_media r) = 1%nat
    /\ mediaOf 101 db' = mediaOf 101 Seed.db.
Proof.
  eexists. eexists.
  assert (H : updateNote 3000 Examples.resubmit Seed.db
              = (Returned (UpdateNote _), _)) by (vm_compute; reflexivity).
  destruct (updateNote_replaces_media 3000 Examples.resubmit Seed.db _ _ H)
    as [r [Hfound [Hcolumns [Hlength Hothers]]]].
  exists r. split; [exact H|]. split; [exact Hfound|].
  split; [exact Hcolumns|]. split; [exact Hlength|].
  apply Hothers. discriminate.
Defined.

(** X4.  An edit keeps what it does not set: the note comes back with the
    owner, the creation time and the deleted flag it had, so editing a
    deleted note does not bring it back. *)
Theorem updateNote_keeps now args db r found db' :
  fst (getNoteById (un_id args) db) = Returned (Some r) ->
  updateNote now args db = (Returned (UpdateNote found), db') ->
  exists r',
    found = Some r'
    /\ note_userId (nwr_note r') = note_userId (nwr_note r)
    /\ note_createdAt (nwr_note r') = note_createdAt (nwr_note r)
    /\ note_isDeleted (nwr_note r') = note_isDeleted (nwr_note r)
    /\ nwr_user r' = nwr_user r.
Proof.
  intros Hbefore Hupdate.
  destruct (updateNote_media _ _ _ _ _ Hupdate) as [Husers _].
  pose proof (updateNote_cases now args db) as H. rewrite Hupdate in H.
  destruct H as [existing [current [title [_ [Hcur [_ [-> _]]]]]]].
  rewrite getNoteById_eq in Hbefore. cbn [fst] in Hbefore.
  rewrite Hcur in Hbefore. injection Hbefore as <-.
  eexists. split; [reflexivity|]. cbn.
  repeat (split; [reflexivity|]).
  unfold findUser. now rewrite Husers.
Qed.

(** The owner edits note 103 after deleting it. *)
Lemma updateNote_keeps_witness :
  exists found db' r',
    updateNote 3000 Examples.resubmit Examples.afterOwnerDelete
    = (Returned (UpdateNote found), db')
    /\ found = Some r'
    /\ note_userId (nwr_note r') = 1%N
    /\ note_createdAt (nwr_note r') = 2002
    /\ note_isDeleted (nwr_note r') = true
    /\ nwr_user r' = Some (authorColumns Seed.user1).
Proof.
  eexists. eexists.
  assert (H : updateNote 3000 Examples.resubmit Examples.afterOwnerDelete
              = (Returned (UpdateNote _), _)) by (vm_compute; reflexivity).
  destruct (updateNote_keeps 3000 Examples.resubmit Examples.afterOwnerDelete
              (withRelations Examples.afterOwnerDelete
                 (markDeleted (onUpdate 3000 Seed.note3))) _ _ eq_refl H)
    as [r' [Hfound Hkept]].
  exists r'. split; [exact H|]. split; [exact Hfound|]. exact Hkept.
Defined.

(** X5.  [updateNote] is not atomic either.  For a note of the caller
    whose new texts the database accepts (no character U+0000 in the title,
    the content and the location; a title of at most 255 characters, or
    longer by spaces only), when the new media list is refused (an [order]
    outside the range of [integer], or U+0000 in a URL), the result is
    [UPDATE_FAILED], but the note is already rewritten and pending and its
    former media are already deleted: it is left with no media. *)
Theorem updateNote_media_refused now args db existing :
  findOwnedNote (un_id args) (un_userId args) db = Some existing ->
  noteUpdatable args existing = true ->
  mediaReplaceable args = false ->
  exists db' r,
    updateNote now args db = (Returned (UpdateError UPDATE_FAILED), db')
    /\ mediaOf (un_id args) db' = []
    /\ fst (getNoteById (un_id args) db') = Returned (Some r)
    /\ varchar255 (un_title args) = Some (note_title (nwr_note r))
    /\ note_content (nwr_note r) = un_content args
    /\ note_status (nwr_note r) = pending
    /\ nwr_media r = [].
Proof.
  intros Hown Hnote Hmedia.
  destruct (hasNote_find _ _ (findOwnedNote_hasNote _ _ _ _ Hown)) as [current Hcur].
  rewrite (updateNote_eq now args db existing Hown), Hnote, Hmedia.
  assert (Htitle : exists title, varchar255 (un_title args) = Some title).
  { apply andb_true_iff in Hnote as [_ Hnote].
    destruct (varchar255 (un_title args)) as [title|]; [eauto | discriminate]. }
  destruct Htitle as [title Htitle]. rewrite Htitle. cbv zeta.
  eexists. eexists. split; [reflexivity|].
  assert (Hnone : forall l : list NoteMedia,
            filter (fun m => N.eqb (media_noteId m) (un_id args))
              (filter (fun m => negb (N.eqb (media_noteId m) (un_id args))) l) = [])
    by (intros l; apply (filter_filter_negb (fun m => N.eqb (media_noteId m) (un_id args)))).
  split; [apply Hnone|].
  rewrite getNoteById_eq. cbn [fst travelNotes].
  rewrite find_updateRows by reflexivity. rewrite Hcur. cbn [option_map].
  split; [reflexivity|]. cbn [nwr_note nwr_media withRelations].
  repeat (split; [reflexivity|]).
  apply find_some in Hcur as [_ Hid]. apply N.eqb_eq in Hid.
  cbn [note_id onUpdate editedNote titled]. rewrite Hid. apply Hnone.
Qed.

Lemma updateNote_media_refused_witness :
  exists db' r,
    updateNote 3000 Scenarios.overflowingEdit Seed.db
    = (Returned (UpdateError UPDATE_FAILED), db')
    /\ mediaOf 103 db' = []
    /\ fst (getNoteById 103 db') = Returned (Some r)
    /\ varchar255 "Zhangjiajie, again" = Some (note_title (nwr_note r))
    /\ note_content (nwr_note r) = "Now with matching pictures."
    /\ note_status (nwr_note r) = pending
    /\ nwr_media r = [].
Proof.
  exact (updateNote_media_refused 3000 Scenarios.overflowingEdit Seed.db Seed.note3
           eq_refl eq_refl eq_refl).
Defined.

(** ** Changes of status *)

(** X6.  [updateNoteStatus] with a status other than rejected: the note
    comes back with that status, without a rejection reason whatever it had
    before, and with [updatedAt] set to the time of the call; its text, its
    deleted flag and its media are as before, and so is every other note. *)
Theorem updateNoteStatus_clears_reason now noteId status reason db r :
  fst (getNoteById noteId db) = Returned (Some r) ->
  status <> rejected ->
  exists db' r',
    updateNoteStatus now noteId status reason db = (Returned success_true, db')
    /\ fst (getNoteById noteId db') = Returned (Some r')
    /\ note_status (nwr_note r') = status
    /\ note_rejectionReason (nwr_note r') = None
    /\ note_updatedAt (nwr_note r') = now
    /\ noteText (nwr_note r') = noteText (nwr_note r)
    /\ note_isDeleted (nwr_note r') = note_isDeleted (nwr_note r)
    /\ nwr_media r' = nwr_media r
    /\ forall id, id <> noteId -> fst (getNoteById id db') = fst (getNoteById id db).
Proof.
  intros Hfound Hstatus. rewrite getNoteById_eq in Hfound. cbn [fst] in Hfound.
  destruct (find (fun n => N.eqb (note_id n) noteId) (travelNotes db)) as [n|] eqn:Hfind;
    [|discriminate].
  injection Hfound as <-.
  eexists. eexists. split; [apply updateNoteStatus_other; exact Hstatus|].
  rewrite getNoteById_eq. cbn [fst travelNotes].
  rewrite find_updateRows by reflexivity. rewrite Hfind. cbn [option_map].
  split; [reflexivity|]. cbn [nwr_note withRelations].
  split; [reflexivity|].
  split; [destruct status; [reflexivity | reflexivity | congruence]|].
  repeat (split; [reflexivity|]).
  intros id Hne. rewrite !getNoteById_eq. cbn [fst travelNotes].
  rewrite find_updateRows_other by (reflexivity || exact Hne). reflexivity.
Qed.

(** The owner's rejected note 103 is approved on a second review. *)
Lemma updateNoteStatus_clears_reason_witness :
  exists db' r',
    updateNoteStatus 3000 103 approved None Seed.db = (Returned success_true, db')
    /\ fst (getNoteById 103 db') = Returned (Some r')
    /\ note_status (nwr_note r') = approved
    /\ note_rejectionReason (nwr_note r') = None
    /\ note_updatedAt (nwr_note r') = 3000
    /\ noteText (nwr_note r') = noteText Seed.note3
    /\ note_isDeleted (nwr_note r') = false
    /\ nwr_media r' = mediaOf 103 Seed.db
    /\ forall id, id <> 103%N -> fst (getNoteById id db') = fst (getNoteById id Seed.db).
Proof.
  apply (updateNoteStatus_clears_reason 3000 103 approved None Seed.db
           (withRelations Seed.db Seed.note3) eq_refl).
  discriminate.
Defined.

(** ** The published notes *)

Lemma StronglySorted_map {A B} (R : B -> B -> Prop) (f : A -> B) l :
  StronglySorted (fun a b => R (f a) (f b)) l -> StronglySorted R (map f l).
Proof.
  induction 1 as [|x l Hl IH Hx]; simpl; constructor; [exact IH|].
  apply Forall_map. exact Hx.
Qed.

Lemma StronglySorted_skipn {A} (R : A -> A -> Prop) k l :
  StronglySorted R l -> StronglySorted R (skipn k l).
Proof.
  intros Hl. revert k. induction Hl as [|x l Hl IH Hx]; intros [|k]; simpl;
    try constructor; auto.
Qed.

Lemma StronglySorted_limitOffset {A} (R : A -> A -> Prop) limit offset l :
  StronglySorted R l -> StronglySorted R (limitOffset limit offset l).
Proof.
  intros Hl. unfold limitOffset.
  destruct (limit <? 0); [|apply StronglySorted_firstn]; now apply StronglySorted_skipn.
Qed.

Lemma length_limitOffset {A} limit offset (l : list A) :
  0 <= limit -> (List.length (limitOffset limit offset l) <= Z.to_nat limit)%nat.
Proof.
  intros Hlimit. unfold limitOffset.
  destruct (Z.ltb_spec limit 0); [lia | apply firstn_le_length].
Qed.

Lemma limitOffset_all {A} limit (l : list A) :
  Z.of_nat (List.length l) <= limit \/ limit < 0 -> limitOffset limit 0 l = l.
Proof.
  intros H. unfold limitOffset. cbn [Z.to_nat skipn].
  destruct (Z.ltb_spec limit 0); [reflexivity | apply firstn_all2; lia].
Qed.

(** X7.  [getPublishedNotes] never throws and never writes.  Its result is
    sorted newest first and holds only notes that are approved and not
    deleted.  With a limit that is not negative it holds at most [limit]
    notes (10 when none is given).  A negative offset, which the database
    refuses, gives the empty list.  A negative limit is not sent to the
    database: with it, and without an offset, the result holds every
    approved note that is not deleted. *)
Theorem getPublishedNotes_page limit offset db :
  exists notes,
    getPublishedNotes limit offset db = (Returned notes, db)
    /\ StronglySorted (descending (fun r => note_createdAt (nwr_note r))) notes
    /\ Forall (fun r => note_status (nwr_note r) = approved
                        /\ note_isDeleted (nwr_note r) = false) notes
    /\ (0 <= default 10 limit ->
        (List.length notes <= Z.to_nat (default 10%Z limit))%nat)
    /\ (default 0 offset < 0 -> notes = [])
    /\ (default 10 limit < 0 -> default 0 offset = 0 ->
        forall n, In n (travelNotes db) ->
                  note_status n = approved -> note_isDeleted n = false ->
                  In (withRelations db n) notes).
Proof.
  assert (Hrows : forall notes db',
            getPublishedNotes limit offset db = (Returned notes, db') ->
            Forall (fun r => note_status (nwr_note r) = approved
                             /\ note_isDeleted (nwr_note r) = false) notes).
  { intros notes db' Hlist. apply Forall_forall. intros r Hr.
    destruct (getPublishedNotes_rows _ _ _ _ _ _ Hlist Hr) as [n [-> [_ H]]]. exact H. }
  revert Hrows. unfold getPublishedNotes, tryCatch, paged, throw, ret, query.
  destruct (Z.ltb_spec (default 0 offset) 0) as [Hoffset|Hoffset].
  { intros _. exists []. split; [reflexivity|]. split; [constructor|].
    split; [constructor|]. split; [intros _; simpl; lia|].
    split; [reflexivity | lia]. }
  intros Hrows. eexists. split; [reflexivity|].
  split.
  { apply StronglySorted_limitOffset, StronglySorted_map.
    apply (sortBy_desc_sorted note_createdAt). }
  split; [apply (Hrows _ db eq_refl)|].
  split; [apply length_limitOffset|].
  split; [lia|].
  intros Hlimit -> n Hin Hstatus Hdeleted.
  rewrite limitOffset_all by (right; exact Hlimit).
  apply in_map, In_sortBy, filter_In. split; [exact Hin|].
  now rewrite Hstatus, Hdeleted.
Qed.

(** The limit -1 on the seeded database, which holds one approved note. *)
Lemma getPublishedNotes_page_witness :
  exists notes,
    getPublishedNotes (Some (-1)) None Seed.db = (Returned notes, Seed.db)
    /\ In (withRelations Seed.db Seed.note1) notes.
Proof.
  destruct (getPublishedNotes_page (Some (-1)) None Seed.db)
    as [notes [Hlist [_ [_ [_ [_ Hall]]]]]].
  exists notes. split; [exact Hlist|].
  apply Hall; [reflexivity | reflexivity | left; reflexivity | reflexivity | reflexivity].
Defined.


(** ** The review action, continued *)




(** X9.  The delete request of the review action.  From a user whose role
    is not admin it is answered with the 403 error and changes nothing.
    From an admin it succeeds: the note is then on no page of
    [getPublishedNotes], whatever its status, while [getNoteById] still
    returns it, with [isDeleted = true]. *)
Theorem admin_delete_hides now user id db r :
  fst (getNoteById id db) = Returned (Some r) ->
  let request :=
    {| AdminIndex._action := Some "delete";
       AdminIndex.noteId := Some id;
       AdminIndex.rejectionReason := None |} in
  (AdminIndex.role user <> "admin" ->
   AdminIndex.action now user request db
   = (Returned (JsonError "没有权限执行此操作" 403), db))
  /\ (AdminIndex.role user = "admin" ->
      exists db' r',
        AdminIndex.action now user request db = (Returned (Json success_true), db')
        /\ fst (getNoteById id db') = Returned (Some r')
        /\ note_isDeleted (nwr_note r') = true
        /\ note_status (nwr_note r') = note_status (nwr_note r)
        /\ forall limit offset notes db'',
             getPublishedNotes limit offset db' = (Returned notes, db'') ->
             ~ In r' notes).
Proof.
  intros Hfound request. unfold AdminIndex.action, request.
  cbn [AdminIndex.noteId AdminIndex._action fieldIs].
  change (String.eqb "delete" "approve") with false.
  change (String.eqb "delete" "reject") with false.
  change (String.eqb "delete" "delete") with true. cbv iota.
  split.
  - intros Hrole. apply String.eqb_neq in Hrole. now rewrite Hrole.
  - intros Hrole. apply String.eqb_eq in Hrole. rewrite Hrole. cbn [negb].
    rewrite getNoteById_eq in Hfound. cbn [fst] in Hfound.
    destruct (find (fun n => N.eqb (note_id n) id) (travelNotes db)) as [n|] eqn:Hfind;
      [|discriminate].
    injection Hfound as <-.
    unfold bind at 1. rewrite adminDeleteNote_eq. unfold ret.
    eexists. eexists. split; [reflexivity|].
    rewrite getNoteById_eq. cbn [fst travelNotes].
    rewrite find_updateRows by reflexivity. rewrite Hfind. cbn [option_map].
    split; [reflexivity|]. split; [reflexivity|]. split; [reflexivity|].
    intros limit offset notes db'' Hlist Hin.
    destruct (getPublishedNotes_rows _ _ _ _ _ _ Hlist Hin) as [n' [Heq [_ [_ Hn']]]].
    apply (f_equal (fun r => note_isDeleted (nwr_note r))) in Heq. cbn in Heq. congruence.
Qed.

Lemma admin_delete_hides_witness :
  AdminIndex.action 3000 Examples.reviewer
    {| AdminIndex._action := Some "delete";
       AdminIndex.noteId := Some 101%N;
       AdminIndex.rejectionReason := None |} Seed.db
  = (Returned (JsonError "没有权限执行此操作" 403), Seed.db)
  /\ exists db' r',
       AdminIndex.action 3000 {| AdminIndex.role := "admin" |}
         {| AdminIndex._action := Some "delete";
            AdminIndex.noteId := Some 101%N;
            AdminIndex.rejectionReason := None |} Seed.db
       = (Returned (Json success_true), db')
       /\ fst (getNoteById 101 db') = Returned (Some r')
       /\ note_isDeleted (nwr_note r') = true
       /\ note_status (nwr_note r') = approved
       /\ forall limit offset notes db'',
            getPublishedNotes limit offset db' = (Returned notes, db'') ->
            ~ In r' notes.
Proof.
  split.
  - apply (admin_delete_hides 3000 Examples.reviewer 101 Seed.db
             (withRelations Seed.db Seed.note1) eq_refl).
    discriminate.
  - apply (admin_delete_hides 3000 {| AdminIndex.role := "admin" |} 101 Seed.db
             (withRelations Seed.db Seed.note1) eq_refl).
    reflexivity.
Defined.

(** X10.  Whenever the review action answers with an error (no note id, an
    unknown action, a rejection without a reason, a delete without the admin
    role), it has written nothing. *)
Theorem action_error_changes_nothing now user formData db error status db' :
  AdminIndex.action now user formData db = (Returned (JsonError error status), db') ->
  db' = db.
Proof.
  unfold AdminIndex.action.
  destruct (AdminIndex.noteId formData) as [id|]; [|intros [= _ _ <-]; reflexivity].
  destruct (fieldIs "approve" _);
    [intros H; apply then_ret_returns in H; discriminate|].
  destruct (fieldIs "reject" _).
  { destruct (truthy _);
      [intros H; apply then_ret_returns in H; discriminate
      |intros [= _ _ <-]; reflexivity]. }
  destruct (fieldIs "delete" _); [|intros [= _ _ <-]; reflexivity].
  destruct (negb _);
    [intros [= _ _ <-]; reflexivity
    |intros H; apply then_ret_returns in H; discriminate].
Qed.

(** An action the review page does not know. *)
Lemma action_error_changes_nothing_witness :
  snd (AdminIndex.action 3000 Examples.reviewer
         {| AdminIndex._action := Some "publish";
            AdminIndex.noteId := Some 101%N;
            AdminIndex.rejectionReason := None |} Seed.db)
  = Seed.db.
Proof.
  apply (action_error_changes_nothing 3000 Examples.reviewer
           {| AdminIndex._action := Some "publish";
              AdminIndex.noteId := Some 101%N;
              AdminIndex.rejectionReason := None |} Seed.db "未知操作" 400).
  reflexivity.
Defined.

(** ** The review list *)

Lemma getNotesForReview_eq args db :
  let limit := default 10 (ra_limit args) in
  let offset := (default 1 (ra_page args) - 1) * limit in
  let matching := filter (whereConditions args db) (travelNotes db) in
  getNotesForReview args db
  = if offset <? 0 then
      (Thrown (DatabaseError invalid_row_count_in_result_offset_clause), db)
    else
      (Returned
         {| rp_notes :=
              limitOffset limit offset
                (map (selectReviewRow db) (sortBy (desc note_createdAt) matching));
            rp_pagination :=
              {| pg_page := default 1 (ra_page args);
                 pg_limit := limit;
                 pg_total := Z.of_nat (List.length matching);
                 pg_totalPages := totalPages (Z.of_nat (List.length matching)) limit |} |},
       db).
Proof.
  cbv zeta. unfold getNotesForReview, bind, paged, throw, ret, query.
  destruct (_ <? 0); reflexivity.
Qed.

(** X11.  A page of [getNotesForReview].  The call writes nothing; the
    page is sorted newest first and, with a limit that is not negative,
    holds at most [limit] rows (10 when none is given); every row is a note
    that is not deleted, has the requested status when one is requested,
    and, when a search text is given, has a title or an author nickname
    that matches the pattern [%text%]; [total] counts all the notes that
    match, whatever the page.  A negative limit is not sent to the database:
    with it page 1 holds every note that matches. *)
Theorem getNotesForReview_page args db page db' :
  getNotesForReview args db = (Returned page, db') ->
  db' = db
  /\ (0 <= default 10 (ra_limit args) ->
      (List.length (rp_notes page) <= Z.to_nat (default 10%Z (ra_limit args)))%nat)
  /\ (default 10 (ra_limit args) < 0 -> default 1 (ra_page args) = 1 ->
      Z.of_nat (List.length (rp_notes page)) = pg_total (rp_pagination page))
  /\ StronglySorted (descending rv_createdAt) (rp_notes page)
  /\ pg_total (rp_pagination page)
     = Z.of_nat (List.length (filter (whereConditions args db) (travelNotes db)))
  /\ forall row, In row (rp_notes page) ->
       rv_isDeleted row = false
       /\ (forall status, ra_status args = Some status -> rv_status row = status)
       /\ (forall text, truthy (ra_search args) = Some text ->
           like ("%" ++ text ++ "%") (rv_title row) = true
           \/ exists author,
                rv_author row = Some author
                /\ like ("%" ++ text ++ "%") (ra_nickname author) = true).
Proof.
  pose proof (getNotesForReview_eq args db) as Heq. cbv zeta in Heq. rewrite Heq.
  destruct (_ <? 0); [discriminate|].
  intros [= <- <-]. cbn [rp_notes rp_pagination pg_total].
  split; [reflexivity|]. split; [apply length_limitOffset|].
  split.
  { intros Hlimit ->. change ((1 - 1) * default 10 (ra_limit args)) with 0.
    rewrite limitOffset_all by (right; exact Hlimit).
    now rewrite length_map, length_sortBy. }
  split.
  { apply StronglySorted_limitOffset, StronglySorted_map.
    apply (sortBy_desc_sorted note_createdAt). }
  split; [reflexivity|].
  intros row Hrow.
  apply In_limitOffset, in_map_iff in Hrow as [n [<- Hn]].
  apply In_sortBy, filter_In in Hn as [_ Hcond].
  unfold whereConditions in Hcond.
  apply andb_true_iff in Hcond as [Hcond Hsearch].
  apply andb_true_iff in Hcond as [Hdeleted Hstatus].
  cbn [rv_isDeleted rv_status rv_title rv_author selectReviewRow].
  split; [destruct (note_isDeleted n); [discriminate | reflexivity]|].
  split.
  - intros status Hs. rewrite Hs in Hstatus. now apply NoteStatus_eqb_eq.
  - intros text Ht. rewrite Ht in Hsearch.
    apply orb_true_iff in Hsearch as [Htitle|Hnick]; [left; exact Htitle|].
    right. destruct (findUser (note_userId n) db) as [u|]; [|discriminate].
    eexists. split; [reflexivity | exact Hnick].
Qed.

(** The rejected notes whose title or author matches "a": note 103.  And,
    with the limit -1, the notes that match "a_b": the note with the title
    of three characters and note 102, "Sanya beaches". *)
Lemma getNotesForReview_page_witness :
  let args := {| ra_status := Some rejected; ra_page := None; ra_limit := None;
                 ra_search := Some "a" |} in
  let wide := {| ra_status := None; ra_page := None; ra_limit := Some (-1);
                 ra_search := Some "a_b" |} in
  (exists page,
     getNotesForReview args Seed.db = (Returned page, Seed.db)
     /\ map rv_id (rp_notes page) = [103%N]
     /\ (List.length (rp_notes page) <= 10)%nat
     /\ pg_total (rp_pagination page) = 1
     /\ forall row, In row (rp_notes page) ->
          rv_isDeleted row = false /\ rv_status row = rejected)
  /\ (exists page,
        getNotesForReview wide Scenarios.withWideTitle
        = (Returned page, Scenarios.withWideTitle)
        /\ map rv_title (rp_notes page) = ["a游b"; "Sanya beaches"]
        /\ Z.of_nat (List.length (rp_notes page)) = pg_total (rp_pagination page)).
Proof.
  intros args wide. split.
  - eexists.
    assert (H : getNotesForReview args Seed.db = (Returned _, Seed.db)) by reflexivity.
    destruct (getNotesForReview_page args Seed.db _ _ H)
      as [_ [Hlength [_ [_ [Htotal Hrows]]]]].
    split; [exact H|]. split; [reflexivity|].
    split; [apply Hlength; cbn; lia|].
    split; [exact Htotal|].
    intros row Hrow. destruct (Hrows row Hrow) as [Hdeleted [Hstatus _]].
    split; [exact Hdeleted | apply Hstatus; reflexivity].
  - eexists.
    assert (H : getNotesForReview wide Scenarios.withWideTitle
                = (Returned _, Scenarios.withWideTitle)) by (vm_compute; reflexivity).
    destruct (getNotesForReview_page wide Scenarios.withWideTitle _ _ H)
      as [_ [_ [Hall _]]].
    split; [exact H|]. split; [reflexivity|].
    apply Hall; cbn; [lia | reflexivity].
Defined.




(** ** Search texts *)

Lemma like_nil t : like "" t = true <-> t = "".
Proof. destruct t; simpl; split; congruence. Qed.

Lemma like_percent p t :
  like (String "%" p) t = true
  <-> exists before rest, t = (before ++ rest)%string /\ like p rest = true.
Proof.
  change (like (String "%" p))
    with (fix any (s : string) : bool :=
            like p s || match s with EmptyString => false | String _ s' => any s' end).
  induction t as [|c t IH].
  - rewrite orb_false_r. split.
    + intros H. exists "", "". split; [reflexivity | exact H].
    + intros [before [rest [Heq H]]].
      destruct before; [|discriminate]. simpl in Heq. now subst rest.
  - rewrite orb_true_iff. split.
    + intros [H|H].
      * exists "", (String c t). split; [reflexivity | exact H].
      * apply IH in H as [before [rest [-> H]]].
        exists (String c before), rest. split; [reflexivity | exact H].
    + intros [before [rest [Heq H]]]. destruct before as [|d before].
      * simpl in Heq. subst rest. left. exact H.
      * injection Heq as -> ->. right. apply IH. eauto.
Qed.

Lemma like_plain c p t :
  plainChar c = true ->
  like (String c p) t
  = match t with
    | EmptyString => false
    | String e t' => Ascii.eqb c e && like p t'
    end.
Proof.
  unfold plainChar. rewrite negb_true_iff, !orb_false_iff. intros [[H1 H2] H3].
  cbn [like]. rewrite H1, H2, H3. reflexivity.
Qed.

Lemma like_plain_prefix s p t :
  plainText s = true ->
  like (s ++ p) t = true <-> exists rest, t = (s ++ rest)%string /\ like p rest = true.
Proof.
  intros Hs. revert t. induction s as [|c s IH]; intros t.
  - simpl. split; [eauto | intros [rest [-> H]]; exact H].
  - cbn [plainText] in Hs. apply andb_true_iff in Hs as [Hc Hs].
    change (String c s ++ p)%string with (String c (s ++ p)).
    rewrite (like_plain _ _ _ Hc). destruct t as [|e t].
    + split; [discriminate | intros [rest [H _]]; discriminate].
    + rewrite andb_true_iff, (IH Hs), Ascii.eqb_eq. split.
      * intros [-> [rest [-> H]]]. exists rest. split; [reflexivity | exact H].
      * intros [rest [Heq H]]. injection Heq as -> ->. eauto.
Qed.

Lemma append_empty t : (t ++ "")%string = t.
Proof. induction t as [|c t IH]; simpl; [reflexivity | now rewrite IH]. Qed.

Lemma like_any t : like "%" t = true.
Proof.
  apply like_percent. exists t, "". split; [now rewrite append_empty | reflexivity].
Qed.

(** The pattern [%text%] of a text without [%], [_] and backslash matches a
    string if and only if the text occurs in it. *)
Lemma like_contains text t :
  plainText text = true ->
  like ("%" ++ text ++ "%") t = true <-> contains text t.
Proof.
  intros Hplain. unfold contains.
  change ("%" ++ text ++ "%")%string with (String "%" (text ++ "%")).
  rewrite like_percent. split.
  - intros [before [rest [-> H]]].
    apply (like_plain_prefix _ _ _ Hplain) in H as [after [-> _]]. eauto.
  - intros [before [after ->]]. exists before, (text ++ after)%string.
    split; [reflexivity|]. apply (like_plain_prefix _ _ _ Hplain).
    exists after. split; [reflexivity | apply like_any].
Qed.

Lemma like_wildcards t :
  like ("%" ++ "%" ++ "%") t = true
  /\ (like ("%" ++ "_" ++ "%") t = true <-> t <> "").
Proof.
  split.
  - change ("%" ++ "%" ++ "%")%string with (String "%" "%%").
    apply like_percent. exists "", t. split; [reflexivity|].
    change "%%" with (String "%" "%").
    apply like_percent. exists "", t. split; [reflexivity | apply like_any].
  - change ("%" ++ "_" ++ "%")%string with (String "%" "_%").
    rewrite like_percent. split.
    + intros [before [rest [-> H]]]. destruct rest; [discriminate|].
      destruct before; discriminate.
    + intros Ht. destruct t as [|c t]; [congruence|].
      exists "", (String c t). split; [reflexivity|]. cbn. apply like_any.
Qed.

(** X13.  The search of the review list, for a text without [%], [_] and
    backslash: a note matches if and only if it is not deleted, has the
    requested status when one is requested, and the text occurs, with the
    case it has, in the title of the note or in the nickname of its
    author.  The content and the location are not searched. *)
Theorem search_matches_substring args db n text :
  truthy (ra_search args) = Some text ->
  plainText text = true ->
  whereConditions args db n = true
  <-> note_isDeleted n = false
      /\ (forall status, ra_status args = Some status -> note_status n = status)
      /\ (contains text (note_title n)
          \/ exists u, findUser (note_userId n) db = Some u
                       /\ contains text (user_nickname u)).
Proof.
  intros Hsearch Hplain. unfold whereConditions. rewrite Hsearch.
  rewrite !andb_true_iff, orb_true_iff, (like_contains _ _ Hplain).
  assert (Hdeleted : Bool.eqb (note_isDeleted n) false = true <-> note_isDeleted n = false)
    by (destruct (note_isDeleted n); simpl; split; congruence).
  assert (Hstatus : match ra_status args with
                    | Some status => NoteStatus_eqb (note_status n) status
                    | None => true
                    end = true
                    <-> forall status, ra_status args = Some status -> note_status n = status).
  { destruct (ra_status args) as [status|].
    - rewrite NoteStatus_eqb_eq. split; [intros -> s [= <-]; reflexivity | auto].
    - split; [discriminate | reflexivity]. }
  assert (Hauthor : match findUser (note_userId n) db with
                    | Some u => like ("%" ++ text ++ "%") (user_nickname u)
                    | None => false
                    end = true
                    <-> exists u, findUser (note_userId n) db = Some u
                                  /\ contains text (user_nickname u)).
  { destruct (findUser (note_userId n) db) as [u|].
    - rewrite (like_contains _ _ Hplain). split; [eauto|].
      intros [u' [[= <-] H]]. exact H.
    - split; [discriminate | intros [u [H _]]; discriminate]. }
  rewrite Hdeleted, Hstatus, Hauthor. tauto.
Qed.

(** In the seeded database the search "jiang" finds the note "Lijiang old
    town"; the search "Yunnan", which occurs in its location only, does
    not. *)
Lemma search_matches_substring_witness :
  let search text :=
    {| ra_status := None; ra_page := None; ra_limit := None; ra_search := Some text |} in
  whereConditions (search "jiang") Seed.db Seed.note1 = true
  /\ contains "jiang" (note_title Seed.note1)
  /\ whereConditions (search "Yunnan") Seed.db Seed.note1 = false.
Proof.
  intros search.
  pose proof (search_matches_substring (search "jiang") Seed.db Seed.note1 "jiang"
                eq_refl eq_refl) as Hfound.
  split; [reflexivity|]. split; [|reflexivity].
  destruct (proj1 Hfound eq_refl) as [_ [_ [Htitle|[u [Hu Hnick]]]]]; [exact Htitle|].
  injection Hu as <-. apply (like_contains "jiang" _ eq_refl) in Hnick. discriminate Hnick.
Defined.

(** X14.  The search text is put into the pattern as it is, so [%] and [_]
    in it are wildcards and not characters to find: the search [%] selects
    the same notes as no search at all, and so does the search [_] among
    the notes whose title is not empty. *)
Theorem search_wildcards args db n :
  let unfiltered :=
    {| ra_status := ra_status args; ra_page := ra_page args; ra_limit := ra_limit args;
       ra_search := None |} in
  (ra_search args = Some "%" ->
   whereConditions args db n = whereConditions unfiltered db n)
  /\ (ra_search args = Some "_" -> note_title n <> "" ->
      whereConditions args db n = whereConditions unfiltered db n).
Proof.
  cbv zeta. unfold whereConditions. cbn [ra_status ra_search truthy].
  split.
  - intros ->. cbn [truthy]. now rewrite (proj1 (like_wildcards (note_title n))).
  - intros -> Htitle. cbn [truthy].
    now rewrite (proj2 (proj2 (like_wildcards (note_title n))) Htitle).
Qed.

Lemma search_wildcards_witness :
  let search text :=
    {| ra_status := None; ra_page := None; ra_limit := None; ra_search := text |} in
  whereConditions (search (Some "%")) Seed.db Seed.note1
  = whereConditions (search None) Seed.db Seed.note1
  /\ whereConditions (search (Some "_")) Seed.db Seed.note1
     = whereConditions (search None) Seed.db Seed.note1.
Proof.
  intros search. split.
  - apply (proj1 (search_wildcards (search (Some "%")) Seed.db Seed.note1)). reflexivity.
  - apply (proj2 (search_wildcards (search (Some "_")) Seed.db Seed.note1)).
    + reflexivity.
    + discriminate.
Defined.

(** ** Details of a note *)

(** X15.  [getNoteDetails] throws the error "游记不存在" when no note has the
    id.  Otherwise it returns the note with the full row of its author and
    with its media sorted by ascending [order]: the same rows [getNoteById]
    returns, rearranged. *)
Theorem getNoteDetails_result noteId db :
  (fst (getNoteById noteId db) = Returned None ->
   getNoteDetails noteId db = (Thrown (JsError "游记不存在"), db))
  /\ (forall r,
        fst (getNoteById noteId db) = Returned (Some r) ->
        exists d,
          getNoteDetails noteId db = (Returned d, db)
          /\ nd_note d = nwr_note r
          /\ nd_user d = findUser (note_userId (nwr_note r)) db
          /\ Permutation (nd_media d) (nwr_media r)
          /\ StronglySorted (ascending media_order) (nd_media d)).
Proof.
  rewrite getNoteById_eq. cbn [fst].
  unfold getNoteDetails, bind, query, throw.
  destruct (find (fun n => N.eqb (note_id n) noteId) (travelNotes db)) as [n|].
  - split; [discriminate|]. intros r [= <-].
    eexists. split; [reflexivity|]. cbn.
    repeat (split; [reflexivity|]).
    split; [apply sortBy_Permutation | apply sortBy_asc_sorted].
  - split; [reflexivity | discriminate].
Qed.

Lemma getNoteDetails_result_witness :
  getNoteDetails 999 Seed.db = (Thrown (JsError "游记不存在"), Seed.db)
  /\ exists d,
       getNoteDetails 101 Seed.db = (Returned d, Seed.db)
       /\ nd_note d = Seed.note1
       /\ nd_user d = Some Seed.user1
       /\ Permutation (nd_media d) (mediaOf 101 Seed.db)
       /\ StronglySorted (ascending media_order) (nd_media d).
Proof.
  split.
  - apply (getNoteDetails_result 999 Seed.db). reflexivity.
  - apply (proj2 (getNoteDetails_result 101 Seed.db) (withRelations Seed.db Seed.note1)).
    reflexivity.
Defined.

(** ** The home page *)

(** X16.  The home page.  Its loader always answers, with or without a
    session, and writes nothing.  It shows at most 20 notes, every one of
    them approved and not deleted, and at most six destinations, in
    descending order of their counts, one per location, each with the
    number of approved notes of its location; [user] is the logged-in user
    or [null]. *)
Theorem home_page session db :
  exists data,
    Index.loader session db = (Returned (Json data), db)
    /\ fst (getLoggedInUser session db) = Returned (Index.ld_user data)
    /\ (List.length (Index.ld_travelNotes data) <= 20)%nat
    /\ Forall (fun r => note_status (nwr_note r) = approved
                        /\ note_isDeleted (nwr_note r) = false)
         (Index.ld_travelNotes data)
    /\ (List.length (Index.ld_popularDestinations data) <= 6)%nat
    /\ StronglySorted (descending Index.count) (Index.ld_popularDestinations data)
    /\ NoDup (map Index.location (Index.ld_popularDestinations data))
    /\ forall g, In g (Index.ld_popularDestinations data) ->
         Index.count g
         = notesAt (Index.location g)
             (filter (fun n => NoteStatus_eqb (note_status n) approved) (travelNotes db)).
Proof.
  destruct (getLoggedInUser_returns session db) as [caller Hcaller].
  assert (Hnotes : exists notes, getPublishedNotes (Some 20) None db = (Returned notes, db)
                                 /\ (List.length notes <= 20)%nat).
  { eexists. split; [reflexivity|]. apply (length_limitOffset 20 0). lia. }
  destruct Hnotes as [notes [Hnotes Hlength]].
  assert (Hgroups : exists groups, Index.popularDestinations db = (Returned groups, db))
    by (eexists; reflexivity).
  destruct Hgroups as [groups Hgroups].
  exists {| Index.ld_travelNotes := notes;
            Index.ld_popularDestinations := groups;
            Index.ld_user := caller |}.
  cbn [Index.ld_travelNotes Index.ld_popularDestinations Index.ld_user].
  split.
  { unfold Index.loader, bind. rewrite getLoggedInUser_eq, Hcaller, Hnotes, Hgroups.
    reflexivity. }
  split; [exact Hcaller|]. split; [exact Hlength|].
  split.
  { apply Forall_forall. intros r Hr.
    destruct (getPublishedNotes_rows _ _ _ _ _ _ Hnotes Hr) as [n [-> [_ H]]]. exact H. }
  apply popularDestinations_spec. now rewrite Hgroups.
Qed.

(** ** The page of the user's own notes *)

Lemma StronglySorted_filter {A} (R : A -> A -> Prop) (f : A -> bool) l :
  StronglySorted R l -> StronglySorted R (filter f l).
Proof.
  induction 1 as [|x l Hl IH Hx]; simpl; [constructor|].
  destruct (f x); [|exact IH]. constructor; [exact IH|].
  apply Forall_forall. intros y Hy. apply filter_In in Hy as [Hy _].
  revert y Hy. now apply Forall_forall.
Qed.

(** X17.  The page of the user's own notes shows exactly the notes of the
    logged-in user that are not deleted, newest first; without a session it
    redirects to the login page.  It reads only. *)
Theorem myNotes_lists_own session db :
  (fst (getLoggedInUser session db) = Returned None ->
   MyNotes.loader session db = (Returned (Redirect "/login?redirectTo=%2Flogin"), db))
  /\ (forall u,
        fst (getLoggedInUser session db) = Returned (Some u) ->
        exists notes,
          MyNotes.loader session db = (Returned (Json notes), db)
          /\ StronglySorted (descending (fun r => note_createdAt (nwr_note r))) notes
          /\ forall n,
               In (withRelations db n) notes
               <-> In n (travelNotes db)
                   /\ note_userId n = su_id u /\ note_isDeleted n = false).
Proof.
  unfold MyNotes.loader, requireLoggedInUser, bind.
  rewrite getLoggedInUser_eq.
  destruct (fst (getLoggedInUser session db)) as [[u|]|e]; cbn [fst].
  - split; [discriminate|]. intros u' [= <-].
    unfold getUserNotes, tryCatch, query, ret.
    eexists. split; [reflexivity|]. split.
    + apply StronglySorted_filter, StronglySorted_map.
      apply (sortBy_desc_sorted note_createdAt).
    + intros n. rewrite filter_In, in_map_iff. cbn [nwr_note withRelations]. split.
      * intros [[n' [Heq Hn']] Hactive].
        apply (f_equal nwr_note) in Heq. cbn in Heq. subst n'.
        apply In_sortBy, filter_In in Hn' as [Hin Howner].
        apply N.eqb_eq in Howner.
        repeat split; [exact Hin | exact Howner |].
        destruct (note_isDeleted n); [discriminate | reflexivity].
      * intros [Hin [Howner Hdeleted]]. split; [|now rewrite Hdeleted].
        exists n. split; [reflexivity|].
        apply In_sortBy, filter_In. split; [exact Hin | now apply N.eqb_eq].
  - split; [reflexivity | discriminate].
  - split; discriminate.
Qed.

(** user1 after deleting note 103: only note 101 is left on the page. *)
Lemma myNotes_lists_own_witness :
  let db := Examples.afterOwnerDelete in
  MyNotes.loader None db = (Returned (Redirect "/login?redirectTo=%2Flogin"), db)
  /\ exists notes,
       MyNotes.loader (Some 1%N) db = (Returned (Json notes), db)
       /\ In (withRelations db Seed.note1) notes
       /\ ~ In (withRelations db (markDeleted (onUpdate 3000 Seed.note3))) notes.
Proof.
  intros db. split.
  - apply (myNotes_lists_own None db). reflexivity.
  - destruct (proj2 (myNotes_lists_own (Some 1%N) db) (withoutPassword Seed.user1) eq_refl)
      as [notes [Hloader [_ Hnotes]]].
    exists notes. split; [exact Hloader|]. split.
    + apply Hnotes. split; [left; reflexivity|]. split; reflexivity.
    + intros H. apply Hnotes in H as [_ [_ H]]. discriminate H.
Defined.

(** X18.  A request to delete a note that is not the caller's, or that does
    not exist, is answered with the 500 error of a failed delete and changes
    nothing; the owner's request succeeds and the note leaves the page. *)
Theorem myNotes_delete now session db u id :
  fst (getLoggedInUser session db) = Returned (Some u) ->
  (findOwnedNote id (su_id u) db = None ->
   MyNotes.action now session (Some "delete") (Some id) db
   = (Returned (JsonError "删除游记失败" 500), db))
  /\ (forall n,
        findOwnedNote id (su_id u) db = Some n ->
        exists db',
          MyNotes.action now session (Some "delete") (Some id) db
          = (Returned (Json success_true), db')
          /\ forall notes db'',
               MyNotes.loader session db' = (Returned (Json notes), db'') ->
               forall r, In r notes -> note_id (nwr_note r) <> id).
Proof.
  intros Huser.
  assert (Haction :
    MyNotes.action now session (Some "delete") (Some id) db
    = let (o, db') := deleteNote now id (su_id u) db in
      match o with
      | Returned (DeleteError _) => (Returned (JsonError "删除游记失败" 500), db')
      | Returned DeleteSuccess => (Returned (Json success_true), db')
      | Thrown e => (Thrown e, db')
      end).
  { unfold MyNotes.action, requireLoggedInUser, bind.
    rewrite getLoggedInUser_eq, Huser. cbn [fieldIs].
    change (String.eqb "delete" "delete") with true. cbv beta iota.
    destruct (deleteNote now id (su_id u) db) as [[[e|]|e] db']; reflexivity. }
  rewrite Haction. clear Haction. split.
  - intros Hnone. now rewrite (deleteNote_not_found _ _ _ _ Hnone).
  - intros n Hown. rewrite (deleteNote_eq _ _ _ _ _ Hown).
    eexists. split; [reflexivity|].
    intros notes db'' Hloader r Hr Hid.
    pose proof (myNotes_rows _ _ _ _ _ Hloader Hr) as Hactive.
    revert Hloader. unfold MyNotes.loader, requireLoggedInUser, bind.
    rewrite getLoggedInUser_eq.
    match goal with |- context [fst (getLoggedInUser session ?d)] =>
      destruct (fst (getLoggedInUser session d)) as [[u'|]|e]; try discriminate end.
    unfold getUserNotes, tryCatch, query, ret. intros [= <- _].
    apply filter_In in Hr as [Hr _]. apply in_map_iff in Hr as [n' [<- Hn']].
    apply In_sortBy, filter_In in Hn' as [Hn' _]. cbn [travelNotes] in Hn'.
    cbn [nwr_note withRelations] in Hid, Hactive.
    unfold updateRows in Hn'. apply in_map_iff in Hn' as [n0 [Heq _]].
    destruct (N.eqb_spec (note_id n0) id) as [H0|H0]; subst n'.
    + discriminate Hactive.
    + contradiction.
Qed.

Lemma myNotes_delete_witness :
  MyNotes.action 3000 (Some 2%N) (Some "delete") (Some 103%N) Seed.db
  = (Returned (JsonError "删除游记失败" 500), Seed.db)
  /\ exists db',
       MyNotes.action 3000 (Some 1%N) (Some "delete") (Some 103%N) Seed.db
       = (Returned (Json success_true), db')
       /\ forall notes db'',
            MyNotes.loader (Some 1%N) db' = (Returned (Json notes), db'') ->
            forall r, In r notes -> note_id (nwr_note r) <> 103%N.
Proof.
  split.
  - apply (myNotes_delete 3000 (Some 2%N) Seed.db (withoutPassword Seed.user2) 103 eq_refl).
    reflexivity.
  - apply (proj2 (myNotes_delete 3000 (Some 1%N) Seed.db (withoutPassword Seed.user1) 103
                    eq_refl) Seed.note3).
    reflexivity.
Defined.

(** ** The note page, continued *)

(** X19.  The other answers of the note page.  Without an id it throws the
    400 response, for an unknown id the 404 response.  An approved note is
    given to every caller, logged in or not, and also when it is deleted:
    the loader does not look at [isDeleted].  [isAuthor] tells whether the
    caller owns the note. *)
Theorem note_page_answers db session :
  NoteDetail.loader None session db = (Returned (ThrownResponse "游记ID未提供" 400), db)
  /\ (forall id,
        fst (getNoteById id db) = Returned None ->
        NoteDetail.loader (Some id) session db
        = (Returned (ThrownResponse "游记未找到" 404), db))
  /\ (forall id r,
        fst (getNoteById id db) = Returned (Some r) ->
        note_status (nwr_note r) = approved ->
        exists data,
          NoteDetail.loader (Some id) session db = (Returned (Json data), db)
          /\ NoteDetail.note data = r
          /\ (NoteDetail.isAuthor data = true
              <-> exists u, fst (getLoggedInUser session db) = Returned (Some u)
                            /\ su_id u = note_userId (nwr_note r))).
Proof.
  split; [reflexivity|]. split.
  - intros id Hnone. unfold NoteDetail.loader, bind.
    rewrite getLoggedInUser_eq.
    destruct (getLoggedInUser_returns session db) as [caller ->].
    rewrite getNoteById_eq in *. cbn [fst] in Hnone. injection Hnone as ->. reflexivity.
  - intros id r Hfound Hstatus. unfold NoteDetail.loader, bind.
    rewrite getLoggedInUser_eq.
    destruct (getLoggedInUser_returns session db) as [caller ->].
    rewrite getNoteById_eq in *. cbn [fst] in Hfound. injection Hfound as ->.
    unfold NoteDetail.hidden. rewrite Hstatus. cbn [NoteStatus_eqb negb andb].
    eexists. split; [reflexivity|]. split; [reflexivity|].
    cbn [NoteDetail.isAuthor]. destruct caller as [u|].
    + rewrite N.eqb_eq. split.
      * intros Hu. exists u. split; [reflexivity | exact Hu].
      * intros [u' [[= <-] Hu]]. exact Hu.
    + split; [discriminate | intros [u' [Hu _]]; discriminate].
Qed.

(** The approved note 101 after the admin deleted it, asked for by an
    anonymous caller. *)
Lemma note_page_answers_witness :
  let db := Examples.afterAdminDelete in
  NoteDetail.loader (Some 999%N) None db
  = (Returned (ThrownResponse "游记未找到" 404), db)
  /\ exists data,
       NoteDetail.loader (Some 101%N) None db = (Returned (Json data), db)
       /\ note_isDeleted (nwr_note (NoteDetail.note data)) = true.
Proof.
  intros db.
  destruct (note_page_answers db None) as [_ [Hmissing Happroved]].
  split; [apply Hmissing; reflexivity|].
  destruct (Happroved 101%N (withRelations db (markDeleted (onUpdate 3000 Seed.note1)))
              eq_refl eq_refl) as [data [Hloader [Hnote _]]].
  exists data. split; [exact Hloader|]. now rewrite Hnote.
Defined.

(** X20.  The carousel of the note page stays on the media of the note:
    from an index of the media list, the next and the previous index are
    indices of the list again, each step wrapping around at its end, and
    the two steps undo each other. *)
Theorem carousel_steps length i :
  0 <= i < length ->
  0 <= Carousel.goToNext length i < length
  /\ 0 <= Carousel.goToPrevious length i < length
  /\ Carousel.goToPrevious length (Carousel.goToNext length i) = i
  /\ Carousel.goToNext length (Carousel.goToPrevious length i) = i
  /\ Carousel.goToNext length (length - 1) = 0
  /\ Carousel.goToPrevious length 0 = length - 1.
Proof.
  intros Hi. unfold Carousel.goToNext, Carousel.goToPrevious.
  repeat match goal with
         | |- context [?a =? ?b] => destruct (Z.eqb_spec a b)
         end; lia.
Qed.

Lemma carousel_steps_witness :
  0 <= Carousel.goToNext 3 2 < 3
  /\ 0 <= Carousel.goToPrevious 3 2 < 3
  /\ Carousel.goToPrevious 3 (Carousel.goToNext 3 2) = 2
  /\ Carousel.goToNext 3 (Carousel.goToPrevious 3 2) = 2
  /\ Carousel.goToNext 3 (3 - 1) = 0
  /\ Carousel.goToPrevious 3 0 = 3 - 1.
Proof. apply (carousel_steps 3 2). lia. Defined.

(** ** The publish page *)

Lemma getLoggedInUser_hasUser session db u :
  fst (getLoggedInUser session db) = Returned (Some u) ->
  exists id row,
    session = Some id /\ findUser id db = Some row
    /\ u = withoutPassword row /\ su_id u = id /\ hasUser id db = true.
Proof.
  destruct session as [id|]; [|discriminate].
  unfold getLoggedInUser, query. cbn [fst]. unfold findUser.
  destruct (find _ (users db)) as [row|] eqn:Hfind; [|discriminate].
  intros [= <-]. exists id, row.
  pose proof (find_some _ _ Hfind) as [Hin Hid]. apply N.eqb_eq in Hid.
  split; [reflexivity|]. split; [exact Hfind|]. split; [reflexivity|].
  split; [exact Hid|].
  unfold hasUser. apply existsb_exists. exists row. split; [exact Hin|].
  now apply N.eqb_eq.
Qed.












(** X21.  The publish page checks the form before it writes.  For a
    logged-in user, a form with a blank title, a blank content or no media
    is answered with the 400 response that names each failed check, and
    nothing is written; without a session the action redirects to the login
    page. *)
Theorem publish_validates now newId session db formData :
  (fst (getLoggedInUser session db) = Returned None ->
   Publish.action now newId session formData db
   = (Returned (Redirect "/login?redirectTo=%2Flogin"), db))
  /\ (forall u,
        fst (getLoggedInUser session db) = Returned (Some u) ->
        blankField (Publish.title formData) = true
        \/ blankField (Publish.content formData) = true
        \/ Publish.media formData = [] ->
        exists errors,
          Publish.action now newId session formData db
          = (Returned (Json (FormRejected errors (Publish.echoOf formData) 400)), db)
          /\ (err_title errors <> None <-> blankField (Publish.title formData) = true)
          /\ (err_content errors <> None <-> blankField (Publish.content formData) = true)
          /\ (err_images errors <> None <-> Publish.media formData = [])).
Proof.
  unfold Publish.action, requireLoggedInUser, bind.
  rewrite getLoggedInUser_eq.
  destruct (fst (getLoggedInUser session db)) as [[u|]|e]; cbn [fst].
  - split; [discriminate|]. intros u' _ Hinvalid.
    assert (Herrors : Publish.hasErrors (Publish.validate formData) = true).
    { unfold Publish.hasErrors, Publish.validate. cbn.
      destruct Hinvalid as [H|[H|H]]; rewrite H;
        repeat match goal with |- context [if ?b then _ else _] => destruct b end;
        try reflexivity; destruct (Publish.media formData); reflexivity. }
    rewrite Herrors. eexists. split; [reflexivity|].
    unfold Publish.validate. cbn.
    destruct (blankField (Publish.title formData)),
      (blankField (Publish.content formData)), (Publish.media formData);
      repeat split; intros; congruence.
  - split; [reflexivity | discriminate].
  - split; discriminate.
Qed.

(** user1 submits a title of three spaces. *)
Lemma publish_validates_witness :
  exists errors,
    Publish.action 3000 200 (Some 1%N) Scenarios.untitled Seed.db
    = (Returned (Json (FormRejected errors (Publish.echoOf Scenarios.untitled) 400)),
       Seed.db)
    /\ err_title errors = Some "请输入游记标题"
    /\ err_content errors = None
    /\ err_images errors = None.
Proof.
  destruct (proj2 (publish_validates 3000 200 (Some 1%N) Seed.db Scenarios.untitled)
              (withoutPassword Seed.user1) eq_refl (or_introl eq_refl))
    as [errors [Haction _]].
  exists errors. split; [exact Haction|].
  injection Haction as <-. repeat split.
Defined.




(** ** The edit page *)

Lemma editNote_action_eq now id session db u r form :
  fst (getLoggedInUser session db) = Returned (Some u) ->
  fst (getNoteById id db) = Returned (Some r) ->
  EditNote.action now (Some id) session form db
  = if EditNote.forbidden u (nwr_note r) then
      (Returned (ThrownResponse "您没有权限编辑此游记" 403), db)
    else if Publish.hasErrors (EditNote.validate form) then
      (Returned (Json (FormRejected (EditNote.validate form) (echo form) 400)), db)
    else
      let (out, db') :=
        updateNote now
          {| un_id := id;
             un_userId := note_userId (nwr_note r);
             un_title := default "" (nf_title form);
             un_content := default "" (nf_content form);
             un_location := nf_location form;
             un_media := mediaArray (nf_media form) |} db in
      match out with
      | Returned _ => (Returned (Json (RedirectToNote id)), db')
      | Thrown _ =>
          (Returned (Json (FormRejected (Publish.generalError "游记更新失败，请稍后重试")
                             (echo form) 500)), db')
      end.
Proof.
  intros Huser Hfound. unfold EditNote.action, requireLoggedInUser, bind at 1.
  rewrite getLoggedInUser_eq, Huser. cbv beta iota.
  unfold bind at 1. rewrite getNoteById_eq in *. cbn [fst] in Hfound.
  injection Hfound as ->.
  destruct (EditNote.forbidden u (nwr_note r)); [reflexivity|].
  destruct (Publish.hasErrors (EditNote.validate form)); [reflexivity|].
  unfold tryCatch, bind.
  destruct (updateNote now _ db) as [[res|e] db']; reflexivity.
Qed.

Lemma forbidden_spec u n :
  EditNote.forbidden u n = true <-> note_userId n <> su_id u /\ su_role u <> admin.
Proof.
  unfold EditNote.forbidden. rewrite andb_true_iff, !negb_true_iff, N.eqb_neq.
  assert (Hrole : UserRole_eqb (su_role u) admin = false <-> su_role u <> admin).
  { rewrite <- UserRole_eqb_eq. destruct (UserRole_eqb _ _); split; congruence. }
  now rewrite Hrole.
Qed.

(** X23.  Only the owner and an admin may edit.  For a logged-in user who
    is neither, both the loader and the action of the edit page throw the 403
    response, whatever the form holds, and nothing is written. *)
Theorem edit_forbidden now id session db u r form :
  fst (getLoggedInUser session db) = Returned (Some u) ->
  fst (getNoteById id db) = Returned (Some r) ->
  note_userId (nwr_note r) <> su_id u ->
  su_role u <> admin ->
  EditNote.loader (Some id) session db
  = (Returned (ThrownResponse "您没有权限编辑此游记" 403), db)
  /\ EditNote.action now (Some id) session form db
     = (Returned (ThrownResponse "您没有权限编辑此游记" 403), db).
Proof.
  intros Huser Hfound Howner Hrole.
  assert (Hforbidden : EditNote.forbidden u (nwr_note r) = true)
    by (apply forbidden_spec; auto).
  split.
  - unfold EditNote.loader, requireLoggedInUser, bind at 1.
    rewrite getLoggedInUser_eq, Huser. cbv beta iota.
    unfold bind. rewrite getNoteById_eq in *. cbn [fst] in Hfound.
    injection Hfound as ->. now rewrite Hforbidden.
  - rewrite (editNote_action_eq now id session db u r form Huser Hfound).
    now rewrite Hforbidden.
Qed.

(** The auditor and user2 try to edit note 103 of user1. *)
Lemma edit_forbidden_witness :
  EditNote.loader (Some 103%N) (Some 4%N) Seed.db
  = (Returned (ThrownResponse "您没有权限编辑此游记" 403), Seed.db)
  /\ EditNote.action 3000 (Some 103%N) (Some 2%N) Scenarios.revision Seed.db
     = (Returned (ThrownResponse "您没有权限编辑此游记" 403), Seed.db).
Proof.
  split.
  - apply (edit_forbidden 3000 103 (Some 4%N) Seed.db (withoutPassword Seed.auditor_)
             (withRelations Seed.db Seed.note3) Scenarios.revision eq_refl eq_refl);
      discriminate.
  - apply (edit_forbidden 3000 103 (Some 2%N) Seed.db (withoutPassword Seed.user2)
             (withRelations Seed.db Seed.note3) Scenarios.revision eq_refl eq_refl);
      discriminate.
Defined.

Lemma updateNote_returns now args db :
  exists res db', updateNote now args db = (Returned res, db').
Proof.
  pose proof (updateNote_cases now args db) as H.
  destruct (updateNote now args db) as [[res|e] db']; [eauto | contradiction].
Qed.

(** When the database refuses the update of the note, [updateNote] returns
    [UPDATE_FAILED] and nothing is written. *)
Lemma updateNote_refused now args db existing :
  findOwnedNote (un_id args) (un_userId args) db = Some existing ->
  noteUpdatable args existing = false ->
  updateNote now args db = (Returned (UpdateError UPDATE_FAILED), db).
Proof.
  intros Hown Hnote. now rewrite (updateNote_eq now args db existing Hown), Hnote.
Qed.

(** X24.  The edit page does not report a failed update.  For the owner or
    an admin and a form that passes the checks of the page, the action
    redirects to the note whatever [updateNote] returns, the note or an error
    object.  When the database refuses the update of the note (a title of
    more than 255 characters that are not all spaces after the 255th, or the
    character U+0000 in the title, the content or the location),
    [updateNote] returns [UPDATE_FAILED], nothing is written, and the
    redirect is returned all the same. *)
Theorem edit_always_redirects now id session db u r form :
  fst (getLoggedInUser session db) = Returned (Some u) ->
  fst (getNoteById id db) = Returned (Some r) ->
  note_userId (nwr_note r) = su_id u \/ su_role u = admin ->
  Publish.hasErrors (EditNote.validate form) = false ->
  let args :=
    {| un_id := id;
       un_userId := note_userId (nwr_note r);
       un_title := default "" (nf_title form);
       un_content := default "" (nf_content form);
       un_location := nf_location form;
       un_media := mediaArray (nf_media form) |} in
  exists result db',
    updateNote now args db = (Returned result, db')
    /\ EditNote.action now (Some id) session form db
       = (Returned (Json (RedirectToNote id)), db')
    /\ (noteUpdatable args (nwr_note r) = false ->
        result = UpdateError UPDATE_FAILED /\ db' = db).
Proof.
  intros Huser Hfound Hallowed Hvalid args.
  assert (Hforbidden : EditNote.forbidden u (nwr_note r) = false).
  { destruct (EditNote.forbidden u (nwr_note r)) eqn:H; [|reflexivity].
    apply forbidden_spec in H. tauto. }
  rewrite (editNote_action_eq now id session db u r form Huser Hfound).
  rewrite Hforbidden, Hvalid. fold args.
  destruct (updateNote_returns now args db) as [res [db' Hupdate]].
  rewrite Hupdate. exists res, db'. split; [reflexivity|]. split; [reflexivity|].
  intros Hrefused.
  rewrite getNoteById_eq in Hfound. cbn [fst] in Hfound.
  destruct (find (fun n => N.eqb (note_id n) id) (travelNotes db)) as [n|] eqn:Hfind;
    [|discriminate].
  injection Hfound as <-.
  pose proof (findOwnedNote_first id (note_userId n) db n Hfind eq_refl) as Hown.
  rewrite (updateNote_refused now args db n Hown Hrefused) in Hupdate.
  injection Hupdate as <- <-. split; reflexivity.
Qed.

(** user2 saves note 102 with a title of 256 characters. *)
Lemma edit_always_redirects_witness :
  EditNote.action 3000 (Some 102%N) (Some 2%N) Scenarios.oversized Seed.db
  = (Returned (Json (RedirectToNote 102)), Seed.db)
  /\ exists args,
       updateNote 3000 args Seed.db = (Returned (UpdateError UPDATE_FAILED), Seed.db).
Proof.
  destruct (edit_always_redirects 3000 102 (Some 2%N) Seed.db (withoutPassword Seed.user2)
              (withRelations Seed.db Seed.note2) Scenarios.oversized
              eq_refl eq_refl (or_introl eq_refl) eq_refl)
    as [result [db' [Hupdate [Haction Hrefused]]]].
  destruct (Hrefused eq_refl) as [-> ->].
  split; [exact Haction | eexists; exact Hupdate].
Defined.



(** ** The settings page *)

Lemma settings_action_eq now session db nickname avatarUrl :
  Settings.action now session nickname avatarUrl db
  = match fst (getLoggedInUser session db) with
    | Returned None => (Returned (JsonError "未登录" 401), db)
    | Returned (Some u) =>
        if blankField nickname then (Returned (JsonError "昵称不能为空" 400), db)
        else
          let (out, db') :=
            updateUserProfile now (su_id u) (default "" nickname)
              (Settings.avatarOr avatarUrl (su_avatarUrl u)) db in
          match out with
          | Returned _ => (Returned (Json success_true), db')
          | Thrown _ => (Returned (JsonError "更新资料失败，请稍后再试" 500), db')
          end
    | Thrown e => (Thrown e, db)
    end.
Proof.
  unfold Settings.action, bind at 1. rewrite (getLoggedInUser_eq session db) at 1.
  destruct (fst (getLoggedInUser session db)) as [[u|]|e]; try reflexivity.
  destruct nickname as [nickname|]; [|reflexivity]. cbn [blankField default].
  destruct (isBlank nickname); [reflexivity|].
  unfold tryCatch, bind.
  destruct (updateUserProfile now (su_id u) nickname _ db) as [[[]|e] db']; reflexivity.
Qed.

Lemma find_profile now id nickname avatarUrl (rows : list User) :
  find (fun u => N.eqb (user_id u) id)
    (map (fun u => if N.eqb (user_id u) id
                   then profileOf nickname avatarUrl now u else u) rows)
  = option_map (profileOf nickname avatarUrl now)
      (find (fun u => N.eqb (user_id u) id) rows).
Proof.
  induction rows as [|r rows IH]; simpl; [reflexivity|].
  destruct (N.eqb (user_id r) id) eqn:Hr.
  - simpl. now rewrite Hr.
  - rewrite Hr. exact IH.
Qed.

(** What the settings action does with a nickname that is not blank. *)
Lemma settings_update_eq now session db u chosen avatarUrl :
  fst (getLoggedInUser session db) = Returned (Some u) ->
  isBlank chosen = false ->
  Settings.action now session (Some chosen) avatarUrl db
  = let avatar := Settings.avatarOr avatarUrl (su_avatarUrl u) in
    let refused := (Returned (JsonError "更新资料失败，请稍后再试" 500), db) in
    if storable (chosen :: optionalText avatar) then
      match varchar255 chosen with
      | None => refused
      | Some stored =>
          if nicknameOfAnother (su_id u) stored db then refused
          else
            (Returned (Json success_true),
             {| users :=
                  map (fun row => if N.eqb (user_id row) (su_id u)
                                  then profileOf stored avatar now row else row)
                    (users db);
                travelNotes := travelNotes db;
                noteMedia := noteMedia db;
                noteMedia_id_seq := noteMedia_id_seq db |})
      end
    else refused.
Proof.
  intros Huser Hblank.
  destruct (getLoggedInUser_hasUser _ _ _ Huser) as [id [row [_ [_ [_ [Hid Hexists]]]]]].
  rewrite settings_action_eq, Huser. cbn [blankField default]. rewrite Hblank.
  cbv zeta. unfold updateUserProfile.
  destruct (storable _); cbn [negb]; [|reflexivity].
  rewrite Hid, Hexists. cbn [negb].
  destruct (varchar255 chosen) as [stored|]; [|reflexivity].
  destruct (nicknameOfAnother id stored db); reflexivity.
Qed.

(** X26.  Saving the profile.  For a logged-in user, a nickname that is
    not blank, that the database accepts (no character U+0000 in it or in
    the avatar URL; at most 255 characters, or more by spaces only) and
    that, as its column stores it, is not the nickname of another user, is
    stored: the session then shows that nickname, and the avatar of the form
    when it holds one, the former avatar otherwise.  The username, the role
    and the notes are untouched. *)
Theorem settings_saves_profile now session db u nickname avatarUrl stored :
  fst (getLoggedInUser session db) = Returned (Some u) ->
  isBlank nickname = false ->
  storable (nickname :: optionalText (Settings.avatarOr avatarUrl (su_avatarUrl u)))
  = true ->
  varchar255 nickname = Some stored ->
  (forall other, In other (users db) ->
                 user_nickname other = stored -> user_id other = su_id u) ->
  exists db' u',
    Settings.action now session (Some nickname) avatarUrl db
    = (Returned (Json success_true), db')
    /\ fst (getLoggedInUser session db') = Returned (Some u')
    /\ su_nickname u' = stored
    /\ su_avatarUrl u'
       = match truthy avatarUrl with Some url => Some url | None => su_avatarUrl u end
    /\ su_id u' = su_id u
    /\ su_username u' = su_username u
    /\ su_role u' = su_role u
    /\ travelNotes db' = travelNotes db
    /\ noteMedia db' = noteMedia db.
Proof.
  intros Huser Hblank Htexts Hfits Hunique.
  rewrite (settings_update_eq now session db u nickname avatarUrl Huser Hblank).
  cbv zeta. rewrite Htexts, Hfits.
  destruct (getLoggedInUser_hasUser _ _ _ Huser)
    as [id [row [-> [Hrow [-> [Hid Hexists]]]]]].
  assert (Hfree : nicknameOfAnother (su_id (withoutPassword row)) stored db = false).
  { unfold nicknameOfAnother.
    destruct (existsb _ (users db)) eqn:Hex; [|reflexivity].
    apply existsb_exists in Hex as [other [Hin Hother]].
    apply andb_true_iff in Hother as [Hnick Hne].
    apply String.eqb_eq in Hnick. apply negb_true_iff, N.eqb_neq in Hne.
    elim Hne. exact (Hunique other Hin Hnick). }
  rewrite Hfree. eexists. eexists. split; [reflexivity|].
  unfold getLoggedInUser, query, findUser. cbn [fst users].
  rewrite Hid, find_profile. unfold findUser in Hrow. rewrite Hrow. cbn [option_map].
  split; [reflexivity|]. cbn. repeat split. exact Hid.
Qed.

(** user1 takes a new nickname of four characters and sends no avatar. *)
Lemma settings_saves_profile_witness :
  exists db' u',
    Settings.action 3000 (Some 1%N) (Some "旅行的人") (Some "") Seed.db
    = (Returned (Json success_true), db')
    /\ fst (getLoggedInUser (Some 1%N) db') = Returned (Some u')
    /\ su_nickname u' = "旅行的人"
    /\ su_avatarUrl u' = Some "https://i.pravatar.cc/150?u=user1"
    /\ su_id u' = 1%N
    /\ su_username u' = "user1"
    /\ su_role u' = user
    /\ travelNotes db' = travelNotes Seed.db
    /\ noteMedia db' = noteMedia Seed.db.
Proof.
  apply (settings_saves_profile 3000 (Some 1%N) Seed.db (withoutPassword Seed.user1)
           "旅行的人" (Some "") "旅行的人").
  - reflexivity.
  - reflexivity.
  - reflexivity.
  - reflexivity.
  - intros other [<-|[<-|[<-|[<-|[]]]]]; discriminate.
Defined.

(** X27.  What the settings page refuses, each time without writing:
    a request without a session (401), a nickname that is missing or blank
    (400), and what the database refuses (500): a text that holds the
    character U+0000, a nickname of more than 255 characters that are not
    all spaces after the 255th, and a nickname that, as its column stores
    it, another user has; so, in particular, the nickname that another user
    holds in a column of 255 characters. *)
Theorem settings_refuses now session db nickname avatarUrl :
  (fst (getLoggedInUser session db) = Returned None ->
   Settings.action now session nickname avatarUrl db
   = (Returned (JsonError "未登录" 401), db))
  /\ (forall u,
        fst (getLoggedInUser session db) = Returned (Some u) ->
        (blankField nickname = true ->
         Settings.action now session nickname avatarUrl db
         = (Returned (JsonError "昵称不能为空" 400), db))
        /\ (forall chosen other,
              nickname = Some chosen ->
              isBlank chosen = false ->
              In other (users db) ->
              user_nickname other = chosen ->
              (charLength (user_nickname other) <= 255)%nat ->
              user_id other <> su_id u ->
              Settings.action now session nickname avatarUrl db
              = (Returned (JsonError "更新资料失败，请稍后再试" 500), db))
        /\ (forall chosen,
              nickname = Some chosen ->
              isBlank chosen = false ->
              storable
                (chosen :: optionalText (Settings.avatarOr avatarUrl (su_avatarUrl u)))
              = false
              \/ varchar255 chosen = None
              \/ (exists stored other,
                    varchar255 chosen = Some stored
                    /\ In other (users db)
                    /\ user_nickname other = stored
                    /\ user_id other <> su_id u) ->
              Settings.action now session nickname avatarUrl db
              = (Returned (JsonError "更新资料失败，请稍后再试" 500), db))).
Proof.
  split.
  - intros Hnone. now rewrite settings_action_eq, Hnone.
  - intros u Huser. split.
    + intros Hblank. now rewrite settings_action_eq, Huser, Hblank.
    + assert (Hrefuses : forall chosen,
                nickname = Some chosen ->
                isBlank chosen = false ->
                storable
                  (chosen :: optionalText (Settings.avatarOr avatarUrl (su_avatarUrl u)))
                = false
                \/ varchar255 chosen = None
                \/ (exists stored other,
                      varchar255 chosen = Some stored
                      /\ In other (users db)
                      /\ user_nickname other = stored
                      /\ user_id other <> su_id u) ->
                Settings.action now session nickname avatarUrl db
                = (Returned (JsonError "更新资料失败，请稍后再试" 500), db)).
      { intros chosen -> Hblank Hrefused.
        rewrite (settings_update_eq now session db u chosen avatarUrl Huser Hblank).
        cbv zeta. destruct (storable _); [|reflexivity].
        destruct Hrefused as [Hnul | [Hlong | [stored [other [Hfits [Hin [Hnick Hne]]]]]]].
        * discriminate.
        * now rewrite Hlong.
        * rewrite Hfits.
          assert (Htaken : nicknameOfAnother (su_id u) stored db = true).
          { apply existsb_exists. exists other. split; [exact Hin|].
            apply andb_true_iff. split; [now apply String.eqb_eq|].
            now apply negb_true_iff, N.eqb_neq. }
          now rewrite Htaken. }
      split; [|exact Hrefuses].
      intros chosen other Hchosen Hblank Hin Hnick Hfits Hne.
      apply (Hrefuses chosen Hchosen Hblank). right. right.
      exists chosen, other. rewrite Hnick in Hfits.
      split; [|now repeat split].
      unfold varchar255. apply Nat.leb_le in Hfits. now rewrite Hfits.
Qed.

Lemma settings_refuses_witness :
  Settings.action 3000 None (Some "wanderer") None Seed.db
  = (Returned (JsonError "未登录" 401), Seed.db)
  /\ Settings.action 3000 (Some 1%N) (Some "  ") None Seed.db
     = (Returned (JsonError "昵称不能为空" 400), Seed.db)
  /\ Settings.action 3000 (Some 1%N) (Some "backpacker") None Seed.db
     = (Returned (JsonError "更新资料失败，请稍后再试" 500), Seed.db)
  /\ Settings.action 3000 (Some 1%N) (Some Examples.withNul) None Seed.db
     = (Returned (JsonError "更新资料失败，请稍后再试" 500), Seed.db).
Proof.
  split; [|split; [|split]].
  - apply (settings_refuses 3000 None Seed.db (Some "wanderer") None). reflexivity.
  - apply (proj2 (settings_refuses 3000 (Some 1%N) Seed.db (Some "  ") None)
             (withoutPassword Seed.user1) eq_refl).
    reflexivity.
  - apply (proj1 (proj2 (proj2 (settings_refuses 3000 (Some 1%N) Seed.db
                                  (Some "backpacker") None)
                           (withoutPassword Seed.user1) eq_refl))
             "backpacker" Seed.user2 eq_refl eq_refl).
    + right; left; reflexivity.
    + reflexivity.
    + cbn. lia.
    + discriminate.
  - apply (proj2 (proj2 (proj2 (settings_refuses 3000 (Some 1%N) Seed.db
                                  (Some Examples.withNul) None)
                           (withoutPassword Seed.user1) eq_refl))
             Examples.withNul eq_refl eq_refl).
    left. reflexivity.
Defined.

(** ** Accounts *)

Lemma find_app_none {A} (f : A -> bool) l x :
  find f l = None -> find f (l ++ [x]) = if f x then Some x else None.
Proof.
  induction l as [|y l IH]; simpl; [reflexivity|].
  destruct (f y); [discriminate | exact IH].
Qed.

Lemma find_none_existsb {A} (f : A -> bool) l : find f l = None -> existsb f l = false.
Proof.
  induction l as [|y l IH]; simpl; [reflexivity|].
  destruct (f y); [discriminate | exact IH].
Qed.

Lemma existsb_false_find {A} (f : A -> bool) l : existsb f l = false -> find f l = None.
Proof.
  induction l as [|y l IH]; simpl; [reflexivity|].
  destruct (f y); [discriminate | exact IH].
Qed.

(** What [register] does, by the rows it finds and the checks of the
    database. *)
Lemma register_cases (bcryptHash : string -> N -> string)
  now newId salt username password nickname db :
  register bcryptHash now newId salt username password nickname db
  = if hasUsername username db then (Returned (RegisterFailed USERNAME_TAKEN), db)
    else if hasNickname nickname db then (Returned (RegisterFailed NICKNAME_TAKEN), db)
    else if negb (storable [username; bcryptHash password salt; nickname]) then
      (Thrown (DatabaseError character_not_in_repertoire), db)
    else
      match varchar255 username, varchar255 nickname with
      | Some storedName, Some storedNickname =>
          if hasUser newId db || hasUsername storedName db
             || hasNickname storedNickname db
          then (Thrown (DatabaseError unique_violation), db)
          else
            let row :=
              newUser now newId
                {| uv_username := storedName;
                   uv_passwordHash := bcryptHash password salt;
                   uv_nickname := storedNickname;
                   uv_role := user |} in
            (Returned (Registered (withoutPassword row)),
             {| users := users db ++ [row];
                travelNotes := travelNotes db;
                noteMedia := noteMedia db;
                noteMedia_id_seq := noteMedia_id_seq db |})
      | _, _ => (Thrown (DatabaseError string_data_right_truncation), db)
      end.
Proof.
  unfold register, bind, query, findUsername, hasUsername, hasNickname.
  destruct (find (fun u => String.eqb (user_username u) username) (users db)) eqn:Hname.
  { destruct (find_some _ _ Hname) as [Hin Hu].
    assert (H : existsb (fun u => String.eqb (user_username u) username) (users db) = true)
      by (apply existsb_exists; eauto).
    now rewrite H. }
  rewrite (find_none_existsb _ _ Hname).
  destruct (find (fun u => String.eqb (user_nickname u) nickname) (users db)) eqn:Hnick.
  { destruct (find_some _ _ Hnick) as [Hin Hu].
    assert (H : existsb (fun u => String.eqb (user_nickname u) nickname) (users db) = true)
      by (apply existsb_exists; eauto).
    now rewrite H. }
  rewrite (find_none_existsb _ _ Hnick).
  unfold insertUsers, hasUsername, hasNickname.
  cbn [uv_username uv_nickname uv_passwordHash uv_role].
  destruct (negb (storable _)); [reflexivity|].
  destruct (varchar255 username) as [storedName|]; [|reflexivity].
  destruct (varchar255 nickname) as [storedNickname|]; [|reflexivity].
  cbv zeta. destruct (_ || _); reflexivity.
Qed.

(** What [login] does: it reads one row and never writes. *)
Lemma login_cases (bcryptCompare : string -> string -> bool) username password db :
  login bcryptCompare username password db
  = (Returned
       match findUsername username db with
       | None => None
       | Some u =>
           if bcryptCompare password (user_passwordHash u) then Some (withoutPassword u)
           else None
       end, db).
Proof.
  unfold login, bind, query.
  destruct (findUsername username db) as [u|]; [|reflexivity].
  destruct (bcryptCompare password (user_passwordHash u)); reflexivity.
Qed.

(** X28.  Registration and login fit together.  When [bcrypt.compare]
    accepts the hashes of [bcrypt.hash], a user who has just registered logs
    in with the username the database stored and the same password, and
    gets the same user back; a session with the new id finds that user, who
    has the role user.  The stored username and nickname are the chosen
    ones as their columns store them: the chosen ones when they have at most
    255 characters, and then the login with the chosen username succeeds. *)
Theorem register_then_login (bcryptHash : string -> N -> string)
  (bcryptCompare : string -> string -> bool)
  now newId salt username password nickname db u db' :
  (forall p s, bcryptCompare p (bcryptHash p s) = true) ->
  register bcryptHash now newId salt username password nickname db
  = (Returned (Registered u), db') ->
  login bcryptCompare (su_username u) password db' = (Returned (Some u), db')
  /\ fst (getLoggedInUser (Some newId) db') = Returned (Some u)
  /\ su_id u = newId
  /\ varchar255 username = Some (su_username u)
  /\ varchar255 nickname = Some (su_nickname u)
  /\ ((charLength username <= 255)%nat ->
      su_username u = username
      /\ login bcryptCompare username password db' = (Returned (Some u), db'))
  /\ ((charLength nickname <= 255)%nat -> su_nickname u = nickname)
  /\ su_role u = user
  /\ travelNotes db' = travelNotes db.
Proof.
  intros Hbcrypt. rewrite register_cases.
  destruct (hasUsername username db); [discriminate|].
  destruct (hasNickname nickname db); [discriminate|].
  destruct (negb (storable _)); [discriminate|].
  destruct (varchar255 username) as [storedName|] eqn:Hname; [|discriminate].
  destruct (varchar255 nickname) as [storedNickname|] eqn:Hnick; [|discriminate].
  destruct (hasUser newId db) eqn:Hid; [discriminate|].
  destruct (hasUsername storedName db) eqn:Hfree; [discriminate|].
  destruct (hasNickname storedNickname db); [discriminate|].
  cbv zeta. cbn [orb]. intros [= <- <-].
  cbn [su_username su_nickname su_id su_role withoutPassword newUser user_username
       user_nickname user_id user_role uv_username uv_nickname uv_role].
  match goal with |- login _ _ _ ?d = (Returned (Some ?r), _) /\ _ =>
    assert (Hlogin : login bcryptCompare storedName password d = (Returned (Some r), d))
  end.
  { rewrite login_cases. unfold findUsername. cbn [users].
    rewrite find_app_none by (apply existsb_false_find; exact Hfree).
    cbn [user_username newUser uv_username]. rewrite String.eqb_refl.
    cbn [user_passwordHash newUser uv_passwordHash]. now rewrite Hbcrypt. }
  split; [exact Hlogin|].
  split.
  { unfold getLoggedInUser, query, findUser. cbn [fst users].
    rewrite find_app_none by (apply existsb_false_find; exact Hid).
    cbn [user_id newUser]. now rewrite N.eqb_refl. }
  split; [reflexivity|]. split; [reflexivity|]. split; [reflexivity|].
  split.
  { intros Hfits. pose proof (varchar255_fits _ _ Hname Hfits) as ->.
    split; [reflexivity | exact Hlogin]. }
  split; [intros Hfits; apply (varchar255_fits _ _ Hnick Hfits)|].
  split; reflexivity.
Qed.



(** A new user registers with a nickname of three characters, and another
    with a username of 12 characters followed by 300 spaces, of which the
    database keeps 243. *)
Lemma register_then_login_witness :
  (exists u db',
     register Scenarios.hash 3000 5 7 "user3" "password123" "徒步者" Seed.db
     = (Returned (Registered u), db')
     /\ login Scenarios.compare "user3" "password123" db' = (Returned (Some u), db')
     /\ fst (getLoggedInUser (Some 5%N) db') = Returned (Some u)
     /\ su_id u = 5%N
     /\ su_username u = "user3"
     /\ su_nickname u = "徒步者"
     /\ su_role u = user
     /\ travelNotes db' = travelNotes Seed.db)
  /\ (exists u db',
        register Scenarios.hash 3000 5 7 Examples.padded "password123" "hiker" Seed.db
        = (Returned (Registered u), db')
        /\ su_username u = takeChars 255 Examples.padded
        /\ login Scenarios.compare (su_username u) "password123" db'
           = (Returned (Some u), db')
        /\ login Scenarios.compare Examples.padded "password123" db'
           = (Returned None, db')).
Proof.
  assert (Hbcrypt : forall p s, Scenarios.compare p (Scenarios.hash p s) = true)
    by (intros p s; apply String.eqb_refl).
  split.
  - eexists. eexists.
    assert (H : register Scenarios.hash 3000 5 7 "user3" "password123" "徒步者" Seed.db
                = (Returned (Registered _), _)) by reflexivity.
    split; [exact H|].
    destruct (register_then_login Scenarios.hash Scenarios.compare 3000 5 7
                "user3" "password123" "徒步者" Seed.db _ _ Hbcrypt H)
      as [_ [Hsession [Hid [_ [_ [Hname [Hnick [Hrole Hnotes]]]]]]]].
    destruct (Hname ltac:(vm_compute; lia)) as [Hname' Hlogin].
    split; [exact Hlogin|]. split; [exact Hsession|]. split; [exact Hid|].
    split; [exact Hname'|]. split; [apply Hnick; vm_compute; lia|].
    split; [exact Hrole | exact Hnotes].
  - eexists. eexists.
    assert (H : register Scenarios.hash 3000 5 7 Examples.padded "password123" "hiker"
                  Seed.db
                = (Returned (Registered _), _)) by (vm_compute; reflexivity).
    split; [exact H|].
    destruct (register_then_login Scenarios.hash Scenarios.compare 3000 5 7
                Examples.padded "password123" "hiker" Seed.db _ _ Hbcrypt H)
      as [Hlogin _].
    split; [vm_compute; reflexivity|].
    split; [exact Hlogin|]. vm_compute. reflexivity.
Defined.


